(** * Edu_testing backend: the auth gate and the resource routers

    A shallow embedding of [backend/routes/auth_utils.py] and of the three
    routers [notes_routes.py], [papers_routes.py] and [syllabus_routes.py],
    together with the properties the specification states about them.

    Conventions of the embedding:
    - a Python [dict] with string keys is a [gmap string value];
    - an exception is the [Err] branch of [result]; [try]/[except] is a
      match on it;
    - the MongoDB collections are explicit state, threaded through the
      handlers by the monad [M]; a date written to a collection is kept
      in whole milliseconds, as BSON does;
    - collaborators that live outside the repository (the [jose] decoder,
      the constants of [config.py], the regular-expression engine of the
      store) are Section variables;
    - [logger] calls are left out: they neither change control flow nor
      touch the store. *)

From Stdlib Require Import ZArith Ascii String List Lia Bool.
From stdpp Require Import base option list gmap strings sorting.

Local Open Scope string_scope.

(** ** Values *)

(** [datetime.datetime]: the seven fields of a naive timestamp. *)
Record datetime := mk_datetime {
  year : Z; month : Z; day : Z;
  hour : Z; minute : Z; second : Z; microsecond : Z
}.

(** The Python / BSON / JSON values that occur in claims, request bodies
    and stored documents. *)
Inductive value :=
| VNone
| VBool (b : bool)
| VInt (n : Z)
| VStr (s : string)
| VList (l : list string)
| VDatetime (d : datetime).

Abbreviation pydict := (gmap string value).

(** Python truthiness, as used by [not x]. *)
Definition truthy (v : value) : bool :=
  match v with
  | VNone => false
  | VBool b => b
  | VInt n => negb (n =? 0)%Z
  | VStr s => negb (String.eqb s "")
  | VList l => negb (match l with [] => true | _ => false end)
  | VDatetime _ => true
  end.

(** [d.get(k)]: [None] when the key is absent. *)
Definition dict_get (d : pydict) (k : string) : value :=
  default VNone (d !! k).

(** [d.get(k, dflt)]. *)
Definition dict_get_default (d : pydict) (k : string) (dflt : value) : value :=
  default dflt (d !! k).

(** ** Results and exceptions *)

Inductive result (E A : Type) :=
| Err (e : E)
| Ok (a : A).
Arguments Err {E A} e.
Arguments Ok {E A} a.

(** [fastapi.HTTPException(status_code=..., detail=...)]. *)
Record HTTPException := mk_HTTPException {
  status_code : Z;
  detail : string
}.

(** The names the specification gives to the failures of the gate. *)
Definition Unauthenticated : HTTPException :=
  mk_HTTPException 401 "Missing authentication token".
Definition InvalidToken : HTTPException :=
  mk_HTTPException 401 "Invalid token".
Definition Forbidden : HTTPException :=
  mk_HTTPException 403 "Admin access required".

(** ** Requests *)

(** The part of [fastapi.Request] the gate reads. *)
Record Request := mk_Request {
  cookies : gmap string string
}.

(** Truthiness of [request.cookies.get("token")]: [None] and the empty
    string are both falsy. *)
Definition token_truthy (token : option string) : bool :=
  match token with
  | None => false
  | Some s => negb (String.eqb s "")
  end.

(** A fixed table standing for [jose.jwt.decode] in closed examples: four
    credentials, signed with key ["k"] under ["HS256"]. *)
Definition demo_jwt_decode (token key : string) (algorithms : list string)
  : result string pydict :=
  if negb (String.eqb key "k") then Err "Signature verification failed."
  else if negb (bool_decide ("HS256" ∈ algorithms))
  then Err "The specified alg value is not allowed"
  else if String.eqb token "admin.tok"
  then Ok (<["sub" := VStr "alice"]> (<["is_admin" := VBool true]> ∅))
  else if String.eqb token "user.tok"
  then Ok (<["sub" := VStr "bob"]> (<["is_admin" := VBool false]> ∅))
  else if String.eqb token "plain.tok"
  then Ok (<["sub" := VStr "carol"]> ∅)
  else if String.eqb token "odd.tok"
  then Ok (<["sub" := VStr "eve"]> (<["is_admin" := VStr "no"]> ∅))
  else Err "Not enough segments".

Definition request_with_token (token : string) : Request :=
  mk_Request (<["token" := token]> ∅).

Definition anonymous_request : Request := mk_Request ∅.

(** ** Timestamps *)

(** One decimal digit, least significant digit of [n]. *)
Definition digit (n : Z) : ascii :=
  ascii_of_nat (48 + Z.to_nat (n mod 10)).

(** [n] printed on [width] digits, padded with zeros ([%04d], [%02d],
    [%06d] for the field ranges of a datetime). *)
Fixpoint zero_pad (width : nat) (n : Z) : string :=
  match width with
  | O => ""
  | S w => zero_pad w (n / 10) +:+ String (digit n) ""
  end.

(** [datetime.isoformat()]: [YYYY-MM-DDTHH:MM:SS], followed by [.ffffff]
    when the microsecond field is not zero. *)
Definition isoformat (d : datetime) : string :=
  zero_pad 4 (year d) +:+ "-" +:+ zero_pad 2 (month d) +:+ "-" +:+
  zero_pad 2 (day d) +:+ "T" +:+ zero_pad 2 (hour d) +:+ ":" +:+
  zero_pad 2 (minute d) +:+ ":" +:+ zero_pad 2 (second d) +:+
  (if (microsecond d =? 0)%Z then "" else "." +:+ zero_pad 6 (microsecond d)).

(** The constructor of [datetime] only builds values within these ranges. *)
Definition valid_datetime (d : datetime) : Prop :=
  (1 <= year d <= 9999 /\ 1 <= month d <= 12 /\ 1 <= day d <= 31 /\
   0 <= hour d <= 23 /\ 0 <= minute d <= 59 /\ 0 <= second d <= 59 /\
   0 <= microsecond d <= 999999)%Z.

(** Position of a timestamp on the time line, up to a monotone rescaling:
    on valid datetimes it orders like the field-wise comparison of Python
    and like the BSON date comparison of the store. *)
Definition datetime_ord (d : datetime) : Z :=
  ((((((year d * 12 + (month d - 1)) * 31 + (day d - 1)) * 24 + hour d) * 60
      + minute d) * 60 + second d) * 1000000 + microsecond d)%Z.

(** Field-wise comparison of two timestamps, as Python compares them. *)
Definition datetime_lt (a b : datetime) : Prop :=
  (year a < year b \/ (year a = year b /\
  (month a < month b \/ (month a = month b /\
  (day a < day b \/ (day a = day b /\
  (hour a < hour b \/ (hour a = hour b /\
  (minute a < minute b \/ (minute a = minute b /\
  (second a < second b \/ (second a = second b /\
   microsecond a < microsecond b))))))))))))%Z.

(** ** Exceptions inside a handler *)

Inductive exn :=
| HTTPExc (e : HTTPException)
| PyExc (class_name : string) (message : string).

(** [str(e)]. Starlette prints an [HTTPException] as ["<status>: <detail>"]. *)
Definition exn_str (e : exn) : string :=
  match e with
  | HTTPExc h => zero_pad 3 (status_code h) +:+ ": " +:+ detail h
  | PyExc _ m => m
  end.

(** [v.isoformat()]: only a datetime has the method. *)
Definition value_isoformat (v : value) : result exn string :=
  match v with
  | VDatetime d => Ok (isoformat d)
  | VNone => Err (PyExc "AttributeError" "'NoneType' object has no attribute 'isoformat'")
  | VBool _ => Err (PyExc "AttributeError" "'bool' object has no attribute 'isoformat'")
  | VInt _ => Err (PyExc "AttributeError" "'int' object has no attribute 'isoformat'")
  | VStr _ => Err (PyExc "AttributeError" "'str' object has no attribute 'isoformat'")
  | VList _ => Err (PyExc "AttributeError" "'list' object has no attribute 'isoformat'")
  end.

(** ** The document store *)

Inductive resource := Notes | Papers | Syllabus.

(** The calls the routers make on a collection. *)
Inductive store_op :=
| CountDocuments | Find | FindOne | InsertOne | UpdateOne | DeleteOne.

(** [config.db] when it is connected: one collection per resource, keyed
    by the string [_id] (the store keeps [_id] unique), each holding the
    other fields of the document; [oplog] records every call that reached
    the store, latest first. *)
Record Database := mk_Database {
  notes : gmap string pydict;
  papers : gmap string pydict;
  syllabus : gmap string pydict;
  oplog : list (resource * store_op)
}.

Definition collection (r : resource) (d : Database) : gmap string pydict :=
  match r with
  | Notes => notes d
  | Papers => papers d
  | Syllabus => syllabus d
  end.

Definition set_collection (r : resource) (c : gmap string pydict)
    (d : Database) : Database :=
  match r with
  | Notes => mk_Database c (papers d) (syllabus d) (oplog d)
  | Papers => mk_Database (notes d) c (syllabus d) (oplog d)
  | Syllabus => mk_Database (notes d) (papers d) c (oplog d)
  end.

Definition log_op (r : resource) (o : store_op) (d : Database) : Database :=
  mk_Database (notes d) (papers d) (syllabus d) ((r, o) :: oplog d).

(** The documents of a collection as the store returns them, [_id]
    included. *)
Definition documents (c : gmap string pydict) : list pydict :=
  (fun kv => <["_id" := VStr (fst kv)]> (snd kv)) <$> map_to_list c.

(** *** Dates in the store *)

(** A BSON date counts whole milliseconds. Encoding a [datetime] keeps
    [microsecond // 1000] milliseconds and drops the rest; decoding gives
    back a [datetime] whose microseconds are that many thousands. *)
Definition bson_datetime (t : datetime) : datetime :=
  mk_datetime (year t) (month t) (day t) (hour t) (minute t) (second t)
    (microsecond t / 1000 * 1000).

(** A value as the store holds it once written: a date is cut to whole
    milliseconds, every other value the routers write is kept as it is. *)
Definition bson_value (v : value) : value :=
  match v with
  | VDatetime t => VDatetime (bson_datetime t)
  | _ => v
  end.

Definition bson_document (doc : pydict) : pydict := bson_value <$> doc.

(** *** Queries *)

(** One alternative of a [$or] filter. *)
Inductive clause :=
| Regex_i (field pattern : string)      (* {field: {"$regex": p, "$options": "i"}} *)
| In_ (field : string) (vals : list string). (* {field: {"$in": vals}} *)

Inductive query :=
| QAll                                   (* {} *)
| QOr (clauses : list clause).           (* {"$or": [...]} *)

(** *** Ordering by [created_at] *)

(** The sort key: the date stored under [created_at]. A document without
    that field, or with a value that is not a date, sorts below every
    date (in BSON order null, numbers, strings, arrays and booleans all
    precede dates). *)
Definition created_key (d : pydict) : option Z :=
  match d !! "created_at" with
  | Some (VDatetime t) => Some (datetime_ord t)
  | _ => None
  end.

Definition key_leb (a b : option Z) : bool :=
  match a, b with
  | None, _ => true
  | Some _, None => false
  | Some x, Some y => (x <=? y)%Z
  end.

(** [d1] may come before [d2] in [.sort("created_at", -1)]. *)
Definition created_desc (d1 d2 : pydict) : Prop :=
  key_leb (created_key d2) (created_key d1) = true.

#[global] Instance created_desc_dec : RelDecision created_desc.
Proof. intros d1 d2. unfold created_desc. apply _. Defined.

(** The monad of a handler body: the module global [db] ([None] when the
    connection was never made) is the state, an exception ends the run. *)
Definition M (A : Type) : Type :=
  option Database -> result exn A * option Database.

Definition ret {A} (a : A) : M A := fun s => (Ok a, s).

Definition raise {A} (e : exn) : M A := fun s => (Err e, s).

Definition bind {A B} (m : M A) (k : A -> M B) : M B :=
  fun s =>
    match m s with
    | (Ok a, s') => k a s'
    | (Err e, s') => (Err e, s')
    end.

Notation "'do' x <- m ; k" := (bind m (fun x => k))
  (at level 10, x name, m at level 100, k at level 200).
Notation "m ;; k" := (bind m (fun _ => k))
  (at level 100, k at level 200, right associativity).

(** Lifting of a pure computation that may raise. *)
Definition lift {A} (r : result exn A) : M A := fun s => (r, s).

(** [for x in xs: f(x)], collecting the results. *)
Fixpoint for_each {A B} (f : A -> result exn B) (xs : list A)
  : result exn (list B) :=
  match xs with
  | [] => Ok []
  | x :: rest =>
      match f x with
      | Err e => Err e
      | Ok y =>
          match for_each f rest with
          | Err e => Err e
          | Ok ys => Ok (y :: ys)
          end
      end
  end.

(** What a handler returns to the framework: a response or the
    [HTTPException] it raised. *)
Definition H (A : Type) : Type :=
  option Database -> result HTTPException A * option Database.

(** [try: ... except Exception as e: raise HTTPException(500, str(e))]:
    every exception, an [HTTPException] raised in the body included, is
    turned into a 500. *)
Definition try_except_Exception {A} (m : M A) : H A :=
  fun s =>
    match m s with
    | (Ok a, s') => (Ok a, s')
    | (Err e, s') => (Err (mk_HTTPException 500 (exn_str e)), s')
    end.

(** [try: ... except HTTPException: raise
    except Exception as e: raise HTTPException(500, str(e))]. *)
Definition try_except_HTTPException {A} (m : M A) : H A :=
  fun s =>
    match m s with
    | (Ok a, s') => (Ok a, s')
    | (Err (HTTPExc h), s') => (Err h, s')
    | (Err e, s') => (Err (mk_HTTPException 500 (exn_str e)), s')
    end.

(** [db is None]. *)
Definition db_is_None : M bool :=
  fun s => (Ok (match s with None => true | Some _ => false end), s).

(** ** Text matching *)

(** ASCII case folding. *)
Definition to_lower (c : ascii) : ascii :=
  let n := nat_of_ascii c in
  if (65 <=? n)%nat && (n <=? 90)%nat then ascii_of_nat (n + 32) else c.

Definition ci_eqb (a b : ascii) : bool :=
  Ascii.eqb (to_lower a) (to_lower b).

(** [q] is a prefix of [s], letter case ignored. *)
Fixpoint ci_prefix (q s : string) : bool :=
  match q, s with
  | EmptyString, _ => true
  | String a q', String b s' => ci_eqb a b && ci_prefix q' s'
  | String _ _, EmptyString => false
  end.

(** [q] occurs in [s] as a substring, letter case ignored. *)
Fixpoint ci_contains (q s : string) : bool :=
  ci_prefix q s ||
  match s with
  | EmptyString => false
  | String _ s' => ci_contains q s'
  end.

(** The characters that PCRE reads as operators outside a character
    class. *)
Definition is_meta (c : ascii) : bool :=
  bool_decide (c ∈ ["\"; "^"; "$"; "."; "|"; "?"; "*"; "+";
                    "("; ")"; "["; "]"; "{"; "}"]%char).

Fixpoint no_meta (q : string) : bool :=
  match q with
  | EmptyString => true
  | String c q' => negb (is_meta c) && no_meta q'
  end.

(** A small regular-expression engine for closed examples: patterns made
    of ordinary characters and of [.] (any character but a newline),
    matched anywhere in the subject with letter case ignored, as PCRE does
    under option [i]. A pattern with any other operator is outside the
    fragment and is reported as one that does not compile. *)
Inductive atom :=
| Lit (c : ascii)
| AnyChar.

Fixpoint parse_atoms (p : string) : option (list atom) :=
  match p with
  | EmptyString => Some []
  | String c rest =>
      if Ascii.eqb c "." then
        match parse_atoms rest with
        | Some l => Some (AnyChar :: l)
        | None => None
        end
      else if is_meta c then None
      else
        match parse_atoms rest with
        | Some l => Some (Lit c :: l)
        | None => None
        end
  end.

Fixpoint atoms_prefix (l : list atom) (s : string) : bool :=
  match l, s with
  | [], _ => true
  | Lit c :: l', String b s' => ci_eqb c b && atoms_prefix l' s'
  | AnyChar :: l', String b s' => negb (Ascii.eqb b "010") && atoms_prefix l' s'
  | _ :: _, EmptyString => false
  end.

Fixpoint atoms_search (l : list atom) (s : string) : bool :=
  atoms_prefix l s ||
  match s with
  | EmptyString => false
  | String _ s' => atoms_search l s'
  end.

(** The atoms of a pattern without operators. *)
Fixpoint literal_atoms (p : string) : list atom :=
  match p with
  | EmptyString => []
  | String c rest => Lit c :: literal_atoms rest
  end.

Definition pcre_lite (p : string) : option (string -> bool) :=
  match parse_atoms p with
  | Some l => Some (atoms_search l)
  | None => None
  end.

(** ** Request bodies (pydantic) *)

(** The three field declarations the routers use. *)
Inductive field_type :=
| Str (min_length max_length : Z)
    (* str = Field(..., min_length=, max_length=): required *)
| OptStr (max_length : Z)
    (* Optional[str] = Field(None, max_length=) *)
| OptStrList.
    (* Optional[List[str]] = Field(default_factory=list) *)

Abbreviation schema := (list (string * field_type)).

Definition NoteIn : schema :=
  [("title", Str 1 255); ("description", OptStr 5000);
   ("content", OptStr 50000); ("tags", OptStrList)].

Definition PaperIn : schema :=
  [("title", Str 1 255); ("authors", OptStrList); ("abstract", OptStr 5000);
   ("file_url", OptStr 500); ("tags", OptStrList)].

Definition SyllabusIn : schema :=
  [("title", Str 1 255); ("course_code", OptStr 20); ("branch", OptStr 100);
   ("year", OptStr 20); ("description", OptStr 5000);
   ("modules", OptStrList); ("tags", OptStrList)].

(** A validated model instance: the value of every field, and the names of
    the fields the body gave explicitly ([__fields_set__]). *)
Record model := mk_model {
  values : pydict;
  fields_set : gset string
}.

(** Validation of one submitted value. Values of another type are
    rejected: the coercions of pydantic are not modelled. Lengths are
    counted in characters, a string being a sequence of one-byte
    characters. *)
Definition validate_field (t : field_type) (v : value) : option value :=
  match t, v with
  | Str lo hi, VStr s =>
      if (lo <=? Z.of_nat (String.length s))%Z
         && (Z.of_nat (String.length s) <=? hi)%Z
      then Some v else None
  | OptStr hi, VStr s =>
      if (Z.of_nat (String.length s) <=? hi)%Z then Some v else None
  | OptStr _, VNone => Some VNone
  | OptStrList, VList _ => Some v
  | OptStrList, VNone => Some VNone
  | _, _ => None
  end.

(** The value of a field the body does not mention; [None] when the field
    is required. *)
Definition field_default (t : field_type) : option value :=
  match t with
  | Str _ _ => None
  | OptStr _ => Some VNone
  | OptStrList => Some (VList [])
  end.

(** [Model(body)]: [None] stands for a [ValidationError]. Keys of the
    body that are not fields of the model are ignored. *)
Fixpoint parse_model (sch : schema) (body : pydict) : option model :=
  match sch with
  | [] => Some (mk_model ∅ ∅)
  | (name, t) :: rest =>
      match parse_model rest body with
      | None => None
      | Some m =>
          match body !! name with
          | Some v =>
              match validate_field t v with
              | Some v' =>
                  Some (mk_model (<[name := v']> (values m))
                                 ({[name]} ∪ fields_set m))
              | None => None
              end
          | None =>
              match field_default t with
              | Some dflt =>
                  Some (mk_model (<[name := dflt]> (values m)) (fields_set m))
              | None => None
              end
          end
      end
  end.

(** [payload.dict()]. *)
Definition dict (payload : model) : pydict := values payload.

(** [payload.dict(exclude_unset=True)]. *)
Definition dict_exclude_unset (payload : model) : pydict :=
  filter (fun kv => fst kv ∈ fields_set payload) (values payload).

(** The names of the fields of a model. *)
Definition field_names (sch : schema) : list string := fst <$> sch.

(** The keys a handler adds to a document besides the fields of the model. *)
Definition reserved_keys : list string :=
  ["_id"; "id"; "created_at"; "updated_at"].

(** ** Responses *)

Record Pagination := mk_Pagination {
  total : Z;
  skip_echo : Z;
  limit_echo : Z;
  returned : Z
}.

Inductive response :=
| ListResponse (success : bool) (data : list pydict) (pagination : Pagination)
| SearchResponse (success : bool) (query_echo : string) (data : list pydict)
    (pagination : Pagination)
| CreateResponse (success : bool) (message : string) (data : pydict)
| GetResponse (success : bool) (data : pydict)
| MessageResponse (success : bool) (message : string).

(** The records a response carries. *)
Definition response_records (resp : response) : list pydict :=
  match resp with
  | ListResponse _ data _ => data
  | SearchResponse _ _ data _ => data
  | CreateResponse _ _ data => [data]
  | GetResponse _ data => [data]
  | MessageResponse _ _ => []
  end.

(** The framework's JSON encoding of a returned value: a datetime is
    written with [isoformat], everything else as it is. *)
Definition jsonable_value (v : value) : value :=
  match v with
  | VDatetime d => VStr (isoformat d)
  | _ => v
  end.

Definition jsonable_dict (d : pydict) : pydict := jsonable_value <$> d.

Definition jsonable_response (resp : response) : response :=
  match resp with
  | ListResponse s data p => ListResponse s (jsonable_dict <$> data) p
  | SearchResponse s q data p =>
      SearchResponse s q (jsonable_dict <$> data) p
  | CreateResponse s m data => CreateResponse s m (jsonable_dict data)
  | GetResponse s data => GetResponse s (jsonable_dict data)
  | MessageResponse s m => MessageResponse s m
  end.

(** The 422 answer of the framework to a parameter or a body that fails
    its declared validation. *)
Definition RequestValidationError : HTTPException :=
  mk_HTTPException 422 "Unprocessable Entity".

(** The names used in the messages of each router. *)
Definition singular (r : resource) : string :=
  match r with
  | Notes => "Note"
  | Papers => "Paper"
  | Syllabus => "Syllabus"
  end.

Definition model_of (r : resource) : schema :=
  match r with
  | Notes => NoteIn
  | Papers => PaperIn
  | Syllabus => SyllabusIn
  end.

(** The [search_filter] of each router. *)
Definition search_filter (r : resource) (q : string) : query :=
  match r with
  | Notes =>
      QOr [Regex_i "title" q; Regex_i "description" q; In_ "tags" [q]]
  | Papers =>
      QOr [Regex_i "title" q; Regex_i "abstract" q;
           In_ "authors" [q]; In_ "tags" [q]]
  | Syllabus =>
      QOr [Regex_i "title" q; Regex_i "course_code" q; Regex_i "branch" q;
           Regex_i "description" q; In_ "tags" [q]]
  end.

(** The body of the serialisation loop of the read handlers:
    [note["id"] = note.pop("_id")], then both timestamps through
    [note.get(..., datetime.utcnow()).isoformat()]. Every [utcnow()] of
    one request reads the same instant [now]. *)
Definition render_record (now : datetime) (note : pydict)
  : result exn pydict :=
  match note !! "_id" with
  | None => Err (PyExc "KeyError" "'_id'")
  | Some i =>
      let note := <["id" := i]> (delete "_id" note) in
      match value_isoformat (dict_get_default note "created_at" (VDatetime now)) with
      | Err e => Err e
      | Ok c =>
          let note := <["created_at" := VStr c]> note in
          match value_isoformat (dict_get_default note "updated_at" (VDatetime now)) with
          | Err e => Err e
          | Ok u => Ok (<["updated_at" := VStr u]> note)
          end
      end
  end.

(** The instant a read handler prints for a stored timestamp: the stored
    date, [now] when the field is missing, nothing when the stored value
    is not a date. *)
Definition stamp_or (now : datetime) (v : option value) : option datetime :=
  match v with
  | None => Some now
  | Some (VDatetime t) => Some t
  | Some _ => None
  end.

(** The document [create] builds from a validated payload. *)
Definition new_document (payload : model) (uuid4 : string) (now : datetime)
  : pydict :=
  <["updated_at" := VDatetime now]>
    (<["created_at" := VDatetime now]>
       (<["_id" := VStr uuid4]> (dict payload))).

(** The fields [update] writes with [$set]. *)
Definition update_data_of (payload : model) (now : datetime) : pydict :=
  <["updated_at" := VDatetime now]> (dict_exclude_unset payload).

(** ** The search predicate, in the words of the specification *)

(** The configured text fields and array fields of each resource. *)
Definition text_fields (r : resource) : list string :=
  match r with
  | Notes => ["title"; "description"]
  | Papers => ["title"; "abstract"]
  | Syllabus => ["title"; "course_code"; "branch"; "description"]
  end.

Definition array_fields (r : resource) : list string :=
  match r with
  | Notes => ["tags"]
  | Papers => ["authors"; "tags"]
  | Syllabus => ["tags"]
  end.

(** The query is a case-insensitive substring of a text value. *)
Definition text_hit (q : string) (v : option value) : bool :=
  match v with
  | Some (VStr s) => ci_contains q s
  | _ => false
  end.

(** The query is an exact element of an array value. *)
Definition array_hit (q : string) (v : option value) : bool :=
  match v with
  | Some (VList l) => bool_decide (q ∈ l)
  | _ => false
  end.

(** A record matches when the query hits one of its text fields or one of
    its array fields. *)
Definition spec_matches (r : resource) (q : string) (doc : pydict) : bool :=
  existsb (fun f => text_hit q (doc !! f)) (text_fields r)
  || existsb (fun f => array_hit q (doc !! f)) (array_fields r).

(** ** Well-formed stored documents *)

(** A timestamp field is either missing or a date. *)
Definition stamp_ok (v : option value) : bool :=
  match v with
  | None | Some (VDatetime _) => true
  | Some _ => false
  end.

Definition well_stamped (doc : pydict) : bool :=
  stamp_ok (doc !! "created_at") && stamp_ok (doc !! "updated_at").

(** No text field holds an array and no array field holds a string, as is
    the case of every document the routers write. *)
Definition not_array (v : option value) : bool :=
  match v with
  | Some (VList _) => false
  | _ => true
  end.

Definition not_text (v : option value) : bool :=
  match v with
  | Some (VStr _) => false
  | _ => true
  end.

Definition schema_typed (r : resource) (doc : pydict) : bool :=
  forallb (fun f => not_array (doc !! f)) (text_fields r)
  && forallb (fun f => not_text (doc !! f)) (array_fields r).

(** What the routers need of a stored document to answer a search. *)
Definition well_formed (r : resource) (doc : pydict) : bool :=
  well_stamped doc && schema_typed r doc.

(** The public form of a record: no [_id], an [id], both timestamps as
    ISO strings. *)
Definition public_record (rec : pydict) : Prop :=
  rec !! "_id" = None /\
  is_Some (rec !! "id") /\
  (exists c, rec !! "created_at" = Some (VStr (isoformat c))) /\
  (exists u, rec !! "updated_at" = Some (VStr (isoformat u))).

(** ** The order of a listing, in the words of the specification *)

(** The fields of the date are within the ranges of [datetime]. *)
Definition valid_datetimeb (t : datetime) : bool :=
  ((1 <=? year t) && (year t <=? 9999) && (1 <=? month t) && (month t <=? 12)
   && (1 <=? day t) && (day t <=? 31) && (0 <=? hour t) && (hour t <=? 23)
   && (0 <=? minute t) && (minute t <=? 59) && (0 <=? second t)
   && (second t <=? 59) && (0 <=? microsecond t)
   && (microsecond t <=? 999999))%Z.

(** The creation date of the document, when it has one, is a date
    [datetime] can build. *)
Definition dated_valid (doc : pydict) : bool :=
  match doc !! "created_at" with
  | Some (VDatetime t) => valid_datetimeb t
  | _ => true
  end.

(** Ordered by [created_at] descending, newest first: of two documents of
    the listing, the one that comes later was not created after the one
    that comes first, dates being compared field by field; and a document
    with no creation date comes after every dated one. *)
Definition newest_first (l : list pydict) : Prop :=
  forall i j di dj tj,
    i < j -> l !! i = Some di -> l !! j = Some dj ->
    dj !! "created_at" = Some (VDatetime tj) ->
    exists ti, di !! "created_at" = Some (VDatetime ti) /\ ~ datetime_lt ti tj.

(** ** Comparing two states of the store *)

(** The collection of [r] is the same in both states (both unset, or both
    set with equal contents). *)
Definition collection_kept (r : resource) (s s' : option Database) : Prop :=
  match s, s' with
  | None, None => True
  | Some d, Some d' => collection r d' = collection r d
  | _, _ => False
  end.

(** Every collection is the same in both states. *)
Definition same_collections (s s' : option Database) : Prop :=
  forall r, collection_kept r s s'.

(** ** The declared type of a field *)

(** The declaration of a field in a model, if it has one. *)
Fixpoint field_type_of (sch : schema) (name : string) : option field_type :=
  match sch with
  | [] => None
  | (n, t) :: rest =>
      if String.eqb n name then Some t else field_type_of rest name
  end.

(** ** Documents that obey the model *)

(** [v] is a value the declaration [t] allows: of the declared kind and
    within the declared lengths. *)
Definition value_within (t : field_type) (v : value) : bool :=
  match t, v with
  | Str lo hi, VStr s =>
      (lo <=? Z.of_nat (String.length s))%Z
      && (Z.of_nat (String.length s) <=? hi)%Z
  | OptStr hi, VStr s => (Z.of_nat (String.length s) <=? hi)%Z
  | OptStr _, VNone => true
  | OptStrList, VList _ => true
  | OptStrList, VNone => true
  | _, _ => false
  end.

(** The document holds nothing under the declared field, or a value the
    declaration allows. *)
Definition field_fits (doc : pydict) (decl : string * field_type) : bool :=
  match doc !! fst decl with
  | None => true
  | Some v => value_within (snd decl) v
  end.

(** A stored document obeys the model of its resource: its timestamps
    are dates or missing, and each field of the model is missing or holds
    a value the model allows. *)
Definition obeys_model (r : resource) (doc : pydict) : bool :=
  well_stamped doc && forallb (field_fits doc) (model_of r).

(** ** Acceptance of a body *)

(** A JSON string, null or list of strings: the values on which
    validation involves no coercion. *)
Definition plain_value (v : value) : bool :=
  match v with
  | VStr _ | VNone | VList _ => true
  | _ => false
  end.

(** What the declarations of the three models ask of the value a body
    gives under a key ([None]: the body has no such key).
    [str = Field(..., min_length=lo, max_length=hi)]: a string is
    required, of [lo] to [hi] characters. *)
Definition required_str (lo hi : Z) (v : option value) : bool :=
  match v with
  | Some (VStr s) =>
      (lo <=? Z.of_nat (String.length s))%Z
      && (Z.of_nat (String.length s) <=? hi)%Z
  | _ => false
  end.

(** [Optional[str] = Field(None, max_length=hi)]: nothing, null, or a
    string of at most [hi] characters. *)
Definition optional_str (hi : Z) (v : option value) : bool :=
  match v with
  | None | Some VNone => true
  | Some (VStr s) => (Z.of_nat (String.length s) <=? hi)%Z
  | Some _ => false
  end.

(** [Optional[List[str]] = Field(default_factory=list)]: nothing, null,
    or a list of strings. *)
Definition optional_list (v : option value) : bool :=
  match v with
  | None | Some VNone | Some (VList _) => true
  | Some _ => false
  end.

(** The bodies each model accepts, read off the class declarations
    [NoteIn], [PaperIn] and [SyllabusIn]. *)
Definition body_accepted (r : resource) (body : pydict) : bool :=
  match r with
  | Notes =>
      required_str 1 255 (body !! "title")
      && optional_str 5000 (body !! "description")
      && optional_str 50000 (body !! "content")
      && optional_list (body !! "tags")
  | Papers =>
      required_str 1 255 (body !! "title")
      && optional_list (body !! "authors")
      && optional_str 5000 (body !! "abstract")
      && optional_str 500 (body !! "file_url")
      && optional_list (body !! "tags")
  | Syllabus =>
      required_str 1 255 (body !! "title")
      && optional_str 20 (body !! "course_code")
      && optional_str 100 (body !! "branch")
      && optional_str 20 (body !! "year")
      && optional_str 5000 (body !! "description")
      && optional_list (body !! "modules")
      && optional_list (body !! "tags")
  end.

(** One step of [parse_model]: the body gives the declared field a value
    that validates, or omits a field that has a default. *)
Definition field_accepted (body : pydict) (decl : string * field_type)
  : bool :=
  match body !! fst decl with
  | Some v =>
      match validate_field (snd decl) v with
      | Some _ => true
      | None => false
      end
  | None =>
      match field_default (snd decl) with
      | Some _ => true
      | None => false
      end
  end.

(** ** Data of the closed examples *)

Definition demo_time : datetime := mk_datetime 2024 1 2 3 4 5 0.
Definition demo_later : datetime := mk_datetime 2024 1 2 3 4 6 0.

(** The body [{"title": "Algebra", "tags": ["math"]}]. *)
Definition demo_body : pydict :=
  <["title" := VStr "Algebra"]> (<["tags" := VList ["math"]]> ∅).

(** The body [{"description": "updated"}]: no title. *)
Definition demo_body_no_title : pydict :=
  <["description" := VStr "updated"]> ∅.

(** The note that body creates at [demo_time], as the store keeps it. *)
Definition demo_note : pydict :=
  <["title" := VStr "Algebra"]> (<["description" := VNone]>
  (<["content" := VNone]> (<["tags" := VList ["math"]]>
  (<["created_at" := VDatetime demo_time]>
  (<["updated_at" := VDatetime demo_time]> ∅))))).

Definition empty_db : Database := mk_Database ∅ ∅ ∅ [].

(** A store whose only document is [demo_note], under the identifier
    ["n1"]. *)
Definition demo_db : Database := mk_Database (<["n1" := demo_note]> ∅) ∅ ∅ [].

(** A note whose [created_at] is a string, and a store that holds it under
    the identifier ["b1"]. *)
Definition demo_bad_note : pydict :=
  <["title" := VStr "Legacy"]> (<["created_at" := VStr "yesterday"]> ∅).

Definition demo_bad_db : Database :=
  mk_Database (<["b1" := demo_bad_note]> ∅) ∅ ∅ [].

(** Two instants that are not whole milliseconds: [demo_precise], and
    [demo_soon], which is later than [demo_time] by less than a
    millisecond. *)
Definition demo_precise : datetime := mk_datetime 2024 1 2 3 4 5 123456.
Definition demo_soon : datetime := mk_datetime 2024 1 2 3 4 5 999.

(** A note with a title, created and last updated at [t]. *)
Definition demo_note_at (title : string) (t : datetime) : pydict :=
  <["title" := VStr title]> (<["tags" := VList []]>
  (<["created_at" := VDatetime t]> (<["updated_at" := VDatetime t]> ∅))).

Definition demo_march : datetime := mk_datetime 2024 3 1 0 0 0 0.
Definition demo_january : datetime := mk_datetime 2024 1 1 0 0 0 0.
Definition demo_april : datetime := mk_datetime 2024 4 1 0 0 0 0.
Definition demo_february : datetime := mk_datetime 2024 2 1 0 0 0 0.

(** A store of four notes whose identifiers and creation dates come in
    different orders: newest first they are ["c"], ["a"], ["d"], ["b"]. *)
Definition demo_shelf : Database :=
  mk_Database
    (<["a" := demo_note_at "Algebra" demo_march]>
    (<["b" := demo_note_at "Linear algebra" demo_january]>
    (<["c" := demo_note_at "Geometry" demo_april]>
    (<["d" := demo_note_at "Algebraic topology" demo_february]> ∅))))
    ∅ ∅ [].

(** A store of two notes that both hold ["same"] in a field named [id]. *)
Definition demo_clash_db : Database :=
  mk_Database
    (<["p" := <["id" := VStr "same"]> (demo_note_at "First" demo_january)]>
    (<["q" := <["id" := VStr "same"]> (demo_note_at "Second" demo_march)]> ∅))
    ∅ ∅ [].

(** The identifiers a run of a route lists, in order. *)
Definition listed_ids (run : result HTTPException response * option Database)
  : list (option value) :=
  match fst run with
  | Ok resp => (fun rec => rec !! "id") <$> response_records resp
  | Err _ => []
  end.

Section Backend.

Set Default Proof Using "Type".

(** *** Collaborators outside the repository *)

(** [config.JWT_SECRET_KEY], [config.JWT_ALGORITHM]. *)
Variable JWT_SECRET_KEY : string.
Variable JWT_ALGORITHM : string.

(** [jose.jwt.decode(token, key, algorithms=[...])]: the decoded claims, or
    [JWTError] (with its message) when the token is malformed, expired,
    wrongly signed or signed under another algorithm. *)
Variable jwt_decode : string -> string -> list string -> result string pydict.

(** [config.DEFAULT_PAGE_SIZE], [config.MAX_PAGE_SIZE]. *)
Variable DEFAULT_PAGE_SIZE : Z.
Variable MAX_PAGE_SIZE : Z.

(** The regular-expression engine of the store under option [i]: the
    matcher of a pattern, or [None] when the pattern does not compile. *)
Variable regex_compile_i : string -> option (string -> bool).

(** ** The store operations used by the routers (pymongo) *)

(** A condition on a field holds of a string value, or of some element of
    an array value. *)
Definition field_matches (m : string -> bool) (v : option value) : bool :=
  match v with
  | Some (VStr s) => m s
  | Some (VList l) => existsb m l
  | _ => false
  end.

Definition compile_clause (c : clause) : option (pydict -> bool) :=
  match c with
  | Regex_i f p =>
      match regex_compile_i p with
      | Some m => Some (fun d => field_matches m (d !! f))
      | None => None
      end
  | In_ f vals =>
      Some (fun d => field_matches (fun s => bool_decide (s ∈ vals)) (d !! f))
  end.

Fixpoint compile_clauses (cs : list clause) : option (pydict -> bool) :=
  match cs with
  | [] => Some (fun _ => false)
  | c :: rest =>
      match compile_clause c, compile_clauses rest with
      | Some f, Some g => Some (fun d => f d || g d)
      | _, _ => None
      end
  end.

Definition compile_query (q : query) : option (pydict -> bool) :=
  match q with
  | QAll => Some (fun _ => true)
  | QOr cs => compile_clauses cs
  end.

(** A call on [db.<collection>]: it is recorded in the log and runs on the
    connected database. *)
Definition with_store {A} (r : resource) (o : store_op)
    (f : Database -> result exn A * Database) : M A :=
  fun s =>
    match s with
    | None =>
        (Err (PyExc "AttributeError" "'NoneType' object has no attribute"), None)
    | Some d =>
        match f (log_op r o d) with
        | (a, d') => (a, Some d')
        end
    end.

Definition OperationFailure : exn :=
  PyExc "OperationFailure" "Regular expression is invalid".

(** [db.<r>.count_documents(q)]. *)
Definition count_documents (r : resource) (q : query) : M Z :=
  with_store r CountDocuments (fun d =>
    match compile_query q with
    | None => (Err OperationFailure, d)
    | Some f =>
        (Ok (Z.of_nat (length (List.filter f (documents (collection r d))))), d)
    end).

(** [cursor.limit(n)]: [0] means no limit, a negative [n] is a limit of
    [-n]. *)
Definition apply_limit (limit : Z) (l : list pydict) : list pydict :=
  if (limit =? 0)%Z then l else take (Z.to_nat (Z.abs limit)) l.

(** The page the store returns for a cursor with a filter, a sort on
    [created_at] descending, a skip and a limit: it filters, sorts, skips
    and limits, in that order, whatever the order of the calls on the
    cursor. *)
Definition page_of (f : pydict -> bool) (skip limit : Z)
    (c : gmap string pydict) : list pydict :=
  apply_limit limit
    (drop (Z.to_nat skip)
       (merge_sort created_desc (List.filter f (documents c)))).

(** [list(db.<r>.find(q).skip(skip).limit(limit).sort("created_at", -1))].
    [Cursor.skip] itself refuses a negative argument. *)
Definition find (r : resource) (q : query) (skip limit : Z) : M (list pydict) :=
  if (skip <? 0)%Z then raise (PyExc "ValueError" "'skip' must be >= 0")
  else
    with_store r Find (fun d =>
      match compile_query q with
      | None => (Err OperationFailure, d)
      | Some f => (Ok (page_of f skip limit (collection r d)), d)
      end).

(** [db.<r>.find_one({"_id": id})]. *)
Definition find_one (r : resource) (id : string) : M (option pydict) :=
  with_store r FindOne (fun d =>
    (Ok ((fun fields => <["_id" := VStr id]> fields) <$> collection r d !! id), d)).

(** [db.<r>.insert_one(doc)]. The routers always set a string [_id]; a
    document with another kind of identifier is outside this model. The
    store holds the BSON encoding of the fields; [doc] itself, on the side
    of the caller, keeps its values. *)
Definition insert_one (r : resource) (doc : pydict) : M unit :=
  with_store r InsertOne (fun d =>
    match doc !! "_id" with
    | Some (VStr i) =>
        match collection r d !! i with
        | Some _ =>
            (Err (PyExc "DuplicateKeyError" "E11000 duplicate key error"), d)
        | None =>
            (Ok tt,
             set_collection r
               (<[i := bson_document (delete "_id" doc)]> (collection r d)) d)
        end
    | _ => (Err (PyExc "InvalidDocument" "unsupported _id"), d)
    end).

(** [db.<r>.update_one({"_id": id}, {"$set": update_data})]: nothing
    happens when no document has that [_id]; the fields are written in
    their BSON encoding. *)
Definition update_one (r : resource) (id : string) (update_data : pydict)
  : M unit :=
  with_store r UpdateOne (fun d =>
    (Ok tt,
     set_collection r
       (alter (fun fields => bson_document update_data ∪ fields) id
          (collection r d)) d)).

(** [db.<r>.delete_one({"_id": id}).deleted_count]. *)
Definition delete_one (r : resource) (id : string) : M Z :=
  with_store r DeleteOne (fun d =>
    match collection r d !! id with
    | Some _ => (Ok 1%Z, set_collection r (delete id (collection r d)) d)
    | None => (Ok 0%Z, d)
    end).

(** ** auth_utils.py *)

Definition verify_admin (request : Request) : result HTTPException pydict :=
  let token := cookies request !! "token" in
  if negb (token_truthy token) then
    Err (mk_HTTPException 401 "Missing authentication token")
  else
    match jwt_decode (default "" token) JWT_SECRET_KEY [JWT_ALGORITHM] with
    | Ok payload =>
        if negb (truthy (dict_get payload "is_admin")) then
          Err (mk_HTTPException 403 "Admin access required")
        else Ok payload
    | Err _ => Err (mk_HTTPException 401 "Invalid token")
    end.

Definition verify_token (request : Request) : result HTTPException pydict :=
  let token := cookies request !! "token" in
  if negb (token_truthy token) then
    Err (mk_HTTPException 401 "Missing authentication token")
  else
    match jwt_decode (default "" token) JWT_SECRET_KEY [JWT_ALGORITHM] with
    | Ok payload => Ok payload
    | Err _ => Err (mk_HTTPException 401 "Invalid token")
    end.

(** ** The routers

    The three routers are the same text up to the collection, the model
    and the search filter; the handlers below take the resource as a
    parameter and each source handler is its instance. [uuid4] and [now]
    are the values [uuid.uuid4()] and [datetime.utcnow()] return during
    the call. *)

Definition require_db : M unit :=
  do none <- db_is_None;
  if none then raise (HTTPExc (mk_HTTPException 500 "Database not connected"))
  else ret tt.

Definition list_documents (r : resource) (skip limit : Z) (now : datetime)
  : H response :=
  try_except_Exception (
    require_db ;;
    do total <- count_documents r QAll;
    do notes <- find r QAll skip limit;
    do notes <- lift (for_each (render_record now) notes);
    ret (ListResponse true notes
           (mk_Pagination total skip limit (Z.of_nat (length notes))))).

Definition search_documents (r : resource) (q : string) (skip limit : Z)
    (now : datetime) : H response :=
  try_except_Exception (
    require_db ;;
    let search_filter := search_filter r q in
    do total <- count_documents r search_filter;
    do notes <- find r search_filter skip limit;
    do notes <- lift (for_each (render_record now) notes);
    ret (SearchResponse true q notes
           (mk_Pagination total skip limit (Z.of_nat (length notes))))).

Definition create_document (r : resource) (payload : model)
    (uuid4 : string) (now : datetime) : H response :=
  try_except_Exception (
    require_db ;;
    let note_id := uuid4 in
    let doc := dict payload in
    let doc :=
      <["updated_at" := VDatetime now]>
        (<["created_at" := VDatetime now]> (<["_id" := VStr note_id]> doc)) in
    insert_one r doc ;;
    ret (CreateResponse true (singular r +:+ " created successfully")
           (doc ∪ {["id" := VStr note_id]}))).

Definition get_document (r : resource) (note_id : string) (now : datetime)
  : H response :=
  try_except_HTTPException (
    require_db ;;
    do note <- find_one r note_id;
    match note with
    | None =>
        raise (HTTPExc (mk_HTTPException 404 (singular r +:+ " not found")))
    | Some note =>
        do note <- lift (render_record now note);
        ret (GetResponse true note)
    end).

Definition update_document (r : resource) (note_id : string)
    (payload : model) (now : datetime) : H response :=
  try_except_HTTPException (
    require_db ;;
    do existing <- find_one r note_id;
    match existing with
    | None =>
        raise (HTTPExc (mk_HTTPException 404 (singular r +:+ " not found")))
    | Some _ =>
        let update_data := dict_exclude_unset payload in
        let update_data := <["updated_at" := VDatetime now]> update_data in
        update_one r note_id update_data ;;
        ret (MessageResponse true (singular r +:+ " updated successfully"))
    end).

Definition delete_document (r : resource) (note_id : string) : H response :=
  try_except_HTTPException (
    require_db ;;
    do deleted_count <- delete_one r note_id;
    if (deleted_count =? 0)%Z then
      raise (HTTPExc (mk_HTTPException 404 (singular r +:+ " not found")))
    else ret (MessageResponse true (singular r +:+ " deleted successfully"))).

(** *** notes_routes.py *)
Definition get_notes := list_documents Notes.
Definition search_notes := search_documents Notes.
Definition create_note := create_document Notes.
Definition get_note := get_document Notes.
Definition update_note := update_document Notes.
Definition delete_note := delete_document Notes.

(** *** papers_routes.py *)
Definition get_papers := list_documents Papers.
Definition search_papers := search_documents Papers.
Definition create_paper := create_document Papers.
Definition get_paper := get_document Papers.
Definition update_paper := update_document Papers.
Definition delete_paper := delete_document Papers.

(** *** syllabus_routes.py *)
Definition get_syllabus := list_documents Syllabus.
Definition search_syllabus := search_documents Syllabus.
Definition create_syllabus := create_document Syllabus.
Definition get_one_syllabus := get_document Syllabus.
Definition update_syllabus := update_document Syllabus.
Definition delete_syllabus := delete_document Syllabus.

(** ** The routes, as the framework runs them

    For each route the framework first runs the dependencies given to the
    decorator ([Depends(verify_admin)]), then validates the declared
    parameters and body ([Query(..., ge=, le=)], [payload: NoteIn]), then
    calls the handler and encodes what it returns. A failing step answers
    without running the next ones. A parameter that is not given takes
    its default, which is not validated. *)

Definition fail {A} (e : HTTPException) : H A := fun s => (Err e, s).

Definition encoded (h : H response) : H response :=
  fun s =>
    match h s with
    | (Ok resp, s') => (Ok (jsonable_response resp), s')
    | (Err e, s') => (Err e, s')
    end.

(** [skip: int = Query(0, ge=0)]. *)
Definition query_skip (skip : option Z) : option Z :=
  match skip with
  | None => Some 0%Z
  | Some n => if (0 <=? n)%Z then Some n else None
  end.

(** [limit: int = Query(DEFAULT_PAGE_SIZE, ge=1, le=MAX_PAGE_SIZE)]. *)
Definition query_limit (limit : option Z) : option Z :=
  match limit with
  | None => Some DEFAULT_PAGE_SIZE
  | Some n => if (1 <=? n)%Z && (n <=? MAX_PAGE_SIZE)%Z then Some n else None
  end.

(** [q: str = Query(..., min_length=1)]. *)
Definition query_q (q : option string) : option string :=
  match q with
  | None => None
  | Some s => if (1 <=? String.length s)%nat then Some s else None
  end.

(** [GET /]. *)
Definition route_list (r : resource) (skip limit : option Z) (now : datetime)
  : H response :=
  match query_skip skip, query_limit limit with
  | Some skip, Some limit => encoded (list_documents r skip limit now)
  | _, _ => fail RequestValidationError
  end.

(** [GET /search]. *)
Definition route_search (r : resource) (q : option string)
    (skip limit : option Z) (now : datetime) : H response :=
  match query_q q, query_skip skip, query_limit limit with
  | Some q, Some skip, Some limit =>
      encoded (search_documents r q skip limit now)
  | _, _, _ => fail RequestValidationError
  end.

(** [POST /], admin only. *)
Definition route_create (r : resource) (request : Request) (body : pydict)
    (uuid4 : string) (now : datetime) : H response :=
  match verify_admin request with
  | Err e => fail e
  | Ok _ =>
      match parse_model (model_of r) body with
      | None => fail RequestValidationError
      | Some payload => encoded (create_document r payload uuid4 now)
      end
  end.

(** [GET /{id}]. *)
Definition route_get (r : resource) (id : string) (now : datetime)
  : H response :=
  encoded (get_document r id now).

(** [PUT /{id}], admin only. *)
Definition route_update (r : resource) (request : Request) (id : string)
    (body : pydict) (now : datetime) : H response :=
  match verify_admin request with
  | Err e => fail e
  | Ok _ =>
      match parse_model (model_of r) body with
      | None => fail RequestValidationError
      | Some payload => encoded (update_document r id payload now)
      end
  end.

(** [DELETE /{id}], admin only. *)
Definition route_delete (r : resource) (request : Request) (id : string)
  : H response :=
  match verify_admin request with
  | Err e => fail e
  | Ok _ => encoded (delete_document r id)
  end.

(** ** The search filter, for any matcher of the query *)

(** A document is selected when the matcher [m] of the query accepts one
    of the configured text fields, or the query is found in one of the
    configured array fields. *)
Definition selected (r : resource) (m : string -> bool) (q : string)
    (doc : pydict) : bool :=
  existsb (fun fld => field_matches m (doc !! fld)) (text_fields r)
  || existsb (fun fld =>
                field_matches (fun s => bool_decide (s ∈ [q])) (doc !! fld))
       (array_fields r).

(** * Properties *)

(** ** The auth gate *)

Lemma token_truthy_Some (token : option string) :
  token_truthy token = true ->
  exists t, token = Some t /\ t <> "".
Proof.
  destruct token as [t|]; simpl; [|discriminate].
  intros Ht. exists t. split; [reflexivity|].
  intros ->. simpl in Ht. discriminate.
Qed.

Lemma token_truthy_nonempty (t : string) :
  t <> "" -> token_truthy (Some t) = true.
Proof.
  intros Hne. simpl. destruct (String.eqb_spec t ""); [contradiction|reflexivity].
Qed.

(** What [verify_admin] does on a request that carries a non-empty token. *)
Lemma verify_admin_with_token (request : Request) (t : string) :
  cookies request !! "token" = Some t -> t <> "" ->
  verify_admin request =
    match jwt_decode t JWT_SECRET_KEY [JWT_ALGORITHM] with
    | Ok payload =>
        if truthy (dict_get payload "is_admin") then Ok payload
        else Err Forbidden
    | Err _ => Err InvalidToken
    end.
Proof.
  intros Hc Hne. unfold verify_admin. rewrite Hc.
  rewrite (token_truthy_nonempty t Hne). simpl.
  destruct (jwt_decode t JWT_SECRET_KEY [JWT_ALGORITHM]) as [msg|payload];
    [reflexivity|].
  destruct (truthy (dict_get payload "is_admin")); reflexivity.
Qed.

Lemma verify_token_with_token (request : Request) (t : string) :
  cookies request !! "token" = Some t -> t <> "" ->
  verify_token request =
    match jwt_decode t JWT_SECRET_KEY [JWT_ALGORITHM] with
    | Ok payload => Ok payload
    | Err _ => Err InvalidToken
    end.
Proof.
  intros Hc Hne. unfold verify_token. rewrite Hc.
  rewrite (token_truthy_nonempty t Hne). simpl.
  destruct (jwt_decode t JWT_SECRET_KEY [JWT_ALGORITHM]); reflexivity.
Qed.

(** A request is accepted by [verify_admin] only through a non-empty
    token that decodes to claims with a truthy [is_admin]. *)
Lemma verify_admin_Ok_inv (request : Request) (claims : pydict) :
  verify_admin request = Ok claims ->
  exists t, cookies request !! "token" = Some t /\ t <> "" /\
    jwt_decode t JWT_SECRET_KEY [JWT_ALGORITHM] = Ok claims /\
    truthy (dict_get claims "is_admin") = true.
Proof.
  unfold verify_admin.
  destruct (token_truthy (cookies request !! "token")) eqn:Htok; simpl;
    [|discriminate].
  destruct (token_truthy_Some _ Htok) as (t & Ht & Hne).
  rewrite Ht. simpl.
  destruct (jwt_decode t JWT_SECRET_KEY [JWT_ALGORITHM]) as [msg|payload] eqn:Hd;
    [discriminate|].
  destruct (truthy (dict_get payload "is_admin")) eqn:Hadm; simpl;
    [|discriminate].
  intros [= <-]. exists t. auto.
Qed.

(** The gate only ever fails with 401 or 403. *)
Lemma verify_admin_Err_status (request : Request) (e : HTTPException) :
  verify_admin request = Err e ->
  status_code e = 401%Z \/ status_code e = 403%Z.
Proof.
  unfold verify_admin.
  destruct (token_truthy (cookies request !! "token")); simpl.
  - destruct (jwt_decode _ _ _) as [msg|payload].
    + intros [= <-]. left. reflexivity.
    + destruct (truthy _); simpl; [discriminate|].
      intros [= <-]. right. reflexivity.
  - intros [= <-]. left. reflexivity.
Qed.

(** C1. The admin check is a strict superset of the session check:
    whenever [verify_admin] returns claims, [verify_token] returns the same
    claims on the same request; and a request whose (non-empty) token
    decodes to claims with a false or absent [is_admin] is accepted by
    [verify_token] and refused by [verify_admin] with 403. *)
Theorem verify_admin_strict_superset :
  (forall request claims,
     verify_admin request = Ok claims -> verify_token request = Ok claims) /\
  (forall token claims,
     token <> "" ->
     jwt_decode token JWT_SECRET_KEY [JWT_ALGORITHM] = Ok claims ->
     truthy (dict_get claims "is_admin") = false ->
     verify_token (request_with_token token) = Ok claims /\
     verify_admin (request_with_token token) = Err Forbidden).
Proof.
  split.
  - intros request claims Hadm.
    destruct (verify_admin_Ok_inv _ _ Hadm) as (t & Hc & Hne & Hd & _).
    rewrite (verify_token_with_token request t Hc Hne), Hd. reflexivity.
  - intros token claims Hne Hd Hfalse.
    assert (Hc : cookies (request_with_token token) !! "token" = Some token)
      by apply lookup_insert_eq.
    rewrite (verify_token_with_token _ token Hc Hne).
    rewrite (verify_admin_with_token _ token Hc Hne).
    rewrite Hd, Hfalse. split; reflexivity.
Qed.

(** C2, amended. The outcome of [verify_admin] by cases: no [token] cookie,
    or an empty one, gives 401 "Missing authentication token"; a token
    that does not decode gives a 401, which is "Invalid token" when the
    token is not empty; decoded claims of a non-empty token whose
    [is_admin] is falsy (absent and [false] included) give 403; decoded
    claims whose [is_admin] is truthy ([true] included) are returned
    unchanged; and claims are returned only in that last case. *)
Theorem verify_admin_taxonomy (request : Request) :
  (cookies request !! "token" = None \/ cookies request !! "token" = Some "" ->
   verify_admin request = Err Unauthenticated /\
   status_code Unauthenticated = 401%Z) /\
  (forall token msg, cookies request !! "token" = Some token ->
     jwt_decode token JWT_SECRET_KEY [JWT_ALGORITHM] = Err msg ->
     exists e, verify_admin request = Err e /\ status_code e = 401%Z) /\
  (forall token, cookies request !! "token" = Some token -> token <> "" ->
     (forall msg,
        jwt_decode token JWT_SECRET_KEY [JWT_ALGORITHM] = Err msg ->
        verify_admin request = Err InvalidToken /\
        status_code InvalidToken = 401%Z) /\
     (forall claims,
        jwt_decode token JWT_SECRET_KEY [JWT_ALGORITHM] = Ok claims ->
        (truthy (dict_get claims "is_admin") = false ->
         verify_admin request = Err Forbidden /\
         status_code Forbidden = 403%Z) /\
        (claims !! "is_admin" = None \/
         claims !! "is_admin" = Some (VBool false) ->
         verify_admin request = Err Forbidden) /\
        (truthy (dict_get claims "is_admin") = true ->
         verify_admin request = Ok claims) /\
        (claims !! "is_admin" = Some (VBool true) ->
         verify_admin request = Ok claims))) /\
  (forall claims, verify_admin request = Ok claims ->
     exists token, cookies request !! "token" = Some token /\ token <> "" /\
       jwt_decode token JWT_SECRET_KEY [JWT_ALGORITHM] = Ok claims /\
       truthy (dict_get claims "is_admin") = true).
Proof.
  split; [|split; [|split]].
  - intros Hc. split; [|reflexivity].
    unfold verify_admin. destruct Hc as [-> | ->]; reflexivity.
  - intros token msg Hc Hd.
    destruct (String.eqb_spec token "") as [->|Hne].
    + exists Unauthenticated. split; [|reflexivity].
      unfold verify_admin. rewrite Hc. reflexivity.
    + exists InvalidToken. split; [|reflexivity].
      rewrite (verify_admin_with_token _ token Hc Hne), Hd. reflexivity.
  - intros token Hc Hne. split.
    + intros msg Hd. split; [|reflexivity].
      rewrite (verify_admin_with_token _ token Hc Hne), Hd. reflexivity.
    + intros claims Hd.
      rewrite (verify_admin_with_token _ token Hc Hne), Hd.
      split; [|split; [|split]].
      * intros ->. split; reflexivity.
      * unfold dict_get. intros [-> | ->]; reflexivity.
      * intros ->. reflexivity.
      * unfold dict_get. intros ->. reflexivity.
  - apply verify_admin_Ok_inv.
Qed.

(** ** Timestamps *)

(** On valid datetimes [datetime_ord] orders like the field-wise
    comparison. *)
Lemma datetime_ord_lt (a b : datetime) :
  valid_datetime a -> valid_datetime b ->
  (datetime_lt a b <-> (datetime_ord a < datetime_ord b)%Z).
Proof.
  unfold valid_datetime, datetime_lt, datetime_ord.
  destruct a, b; simpl. intros Ha Hb. lia.
Qed.

(** A date is kept as it is by the store exactly when it has whole
    milliseconds. *)
Lemma bson_datetime_whole (t : datetime) :
  bson_datetime t = t <-> (microsecond t mod 1000 = 0)%Z.
Proof.
  destruct t as [y mo dd h mi s us]. unfold bson_datetime. simpl.
  pose proof (Z.div_mod us 1000 ltac:(lia)) as Hdiv. split.
  - intros [= H]. lia.
  - intros H. f_equal. lia.
Qed.

(** The stored date is not later than the written one, and less than a
    millisecond earlier. *)
Lemma bson_datetime_ord (t : datetime) :
  (datetime_ord t - 1000 < datetime_ord (bson_datetime t) <= datetime_ord t)%Z.
Proof.
  destruct t as [y mo dd h mi s us]. unfold bson_datetime, datetime_ord. simpl.
  pose proof (Z.div_mod us 1000 ltac:(lia)) as Hdiv.
  pose proof (Z.mod_pos_bound us 1000 ltac:(lia)) as Hmod. lia.
Qed.

(** Against a date with whole milliseconds, the stored form of [now] is
    later exactly when [now] is at least one millisecond later. *)
Lemma bson_datetime_later (t now : datetime) :
  (microsecond t mod 1000 = 0)%Z ->
  (datetime_ord t + 1000 <= datetime_ord now)%Z <->
  (datetime_ord t < datetime_ord (bson_datetime now))%Z.
Proof.
  destruct t as [y mo dd h mi s us], now as [y' mo' dd' h' mi' s' us'].
  unfold bson_datetime, datetime_ord. simpl. intros Hwhole.
  pose proof (Z.div_mod us 1000 ltac:(lia)) as Hdiv.
  pose proof (Z.div_mod us' 1000 ltac:(lia)) as Hdiv'.
  pose proof (Z.mod_pos_bound us' 1000 ltac:(lia)) as Hmod'.
  lia.
Qed.

Lemma bson_datetime_valid (t : datetime) :
  valid_datetime t -> valid_datetime (bson_datetime t).
Proof.
  destruct t as [y mo dd h mi s us]. unfold valid_datetime, bson_datetime. simpl.
  pose proof (Z.div_mod us 1000 ltac:(lia)) as Hdiv.
  pose proof (Z.mod_pos_bound us 1000 ltac:(lia)) as Hmod. lia.
Qed.

(** ** Running the store operations *)

Lemma collection_log_op (r r' : resource) (o : store_op) (d : Database) :
  collection r' (log_op r o d) = collection r' d.
Proof. destruct r'; reflexivity. Qed.

Lemma collection_set_collection (r : resource) c (d : Database) :
  collection r (set_collection r c d) = c.
Proof. destruct r; reflexivity. Qed.

Lemma collection_set_collection_ne (r r' : resource) c (d : Database) :
  r' <> r -> collection r' (set_collection r c d) = collection r' d.
Proof. destruct r, r'; intros Hne; try reflexivity; contradiction. Qed.

Lemma oplog_set_collection (r : resource) c (d : Database) :
  oplog (set_collection r c d) = oplog d.
Proof. destruct r; reflexivity. Qed.

Lemma delete_document_run (r : resource) (id : string) (d : Database) :
  delete_document r id (Some d) =
    match collection r d !! id with
    | Some _ =>
        (Ok (MessageResponse true (singular r +:+ " deleted successfully")),
         Some (set_collection r (delete id (collection r d))
                 (log_op r DeleteOne d)))
    | None =>
        (Err (mk_HTTPException 404 (singular r +:+ " not found")),
         Some (log_op r DeleteOne d))
    end.
Proof.
  unfold delete_document, try_except_HTTPException, bind, require_db,
    db_is_None, delete_one, with_store, ret, raise.
  cbn. rewrite !collection_log_op.
  destruct (collection r d !! id); reflexivity.
Qed.

Lemma find_one_run (r : resource) (id : string) (d : Database) :
  find_one r id (Some d) =
    (Ok ((fun fields => <["_id" := VStr id]> fields) <$> collection r d !! id),
     Some (log_op r FindOne d)).
Proof.
  unfold find_one, with_store. rewrite collection_log_op. reflexivity.
Qed.

Lemma get_document_run (r : resource) (id : string) (now : datetime)
    (d : Database) :
  get_document r id now (Some d) =
    match collection r d !! id with
    | None =>
        (Err (mk_HTTPException 404 (singular r +:+ " not found")),
         Some (log_op r FindOne d))
    | Some fields =>
        match render_record now (<["_id" := VStr id]> fields) with
        | Ok note => (Ok (GetResponse true note), Some (log_op r FindOne d))
        | Err (HTTPExc h) => (Err h, Some (log_op r FindOne d))
        | Err e =>
            (Err (mk_HTTPException 500 (exn_str e)), Some (log_op r FindOne d))
        end
    end.
Proof.
  unfold get_document, try_except_HTTPException, bind, require_db,
    db_is_None, ret, raise, lift.
  cbn -[find_one render_record]. rewrite find_one_run.
  destruct (collection r d !! id) as [fields|]; cbn -[render_record];
    [|reflexivity].
  destruct (render_record now (<["_id" := VStr id]> fields)) as [[h|c m]|note];
    reflexivity.
Qed.

Lemma update_document_run (r : resource) (id : string) (payload : model)
    (now : datetime) (d : Database) :
  update_document r id payload now (Some d) =
    match collection r d !! id with
    | None =>
        (Err (mk_HTTPException 404 (singular r +:+ " not found")),
         Some (log_op r FindOne d))
    | Some _ =>
        (Ok (MessageResponse true (singular r +:+ " updated successfully")),
         Some (set_collection r
                 (alter (fun fields =>
                           bson_document
                             (<["updated_at" := VDatetime now]>
                                (dict_exclude_unset payload)) ∪ fields)
                    id (collection r d))
                 (log_op r UpdateOne (log_op r FindOne d))))
    end.
Proof.
  unfold update_document, try_except_HTTPException, bind, require_db,
    db_is_None, ret, raise.
  cbn -[find_one update_one]. rewrite find_one_run.
  destruct (collection r d !! id) as [fields|]; cbn -[update_one];
    [|reflexivity].
  unfold update_one, with_store. rewrite !collection_log_op. reflexivity.
Qed.

Lemma create_document_run (r : resource) (payload : model) (uuid4 : string)
    (now : datetime) (d : Database) :
  let doc :=
    <["updated_at" := VDatetime now]>
      (<["created_at" := VDatetime now]>
         (<["_id" := VStr uuid4]> (dict payload))) in
  create_document r payload uuid4 now (Some d) =
    match collection r d !! uuid4 with
    | Some _ =>
        (Err (mk_HTTPException 500 "E11000 duplicate key error"),
         Some (log_op r InsertOne d))
    | None =>
        (Ok (CreateResponse true (singular r +:+ " created successfully")
               (doc ∪ {["id" := VStr uuid4]})),
         Some (set_collection r
                 (<[uuid4 := bson_document (delete "_id" doc)]>
                    (collection r d))
                 (log_op r InsertOne d)))
    end.
Proof.
  intros doc.
  unfold create_document, try_except_Exception, bind, require_db,
    db_is_None, ret, raise, insert_one, with_store.
  cbn.
  assert (Hid : <["updated_at" := VDatetime now]>
      (<["created_at" := VDatetime now]>
         (<["_id" := VStr uuid4]> (dict payload))) !! "_id"
      = Some (VStr uuid4)).
  { rewrite lookup_insert_ne by discriminate.
    rewrite lookup_insert_ne by discriminate.
    apply lookup_insert_eq. }
  rewrite Hid, !collection_log_op.
  destruct (collection r d !! uuid4); reflexivity.
Qed.

(** ** Request bodies *)

Lemma validate_field_same (t : field_type) (v v' : value) :
  validate_field t v = Some v' -> v' = v /\ jsonable_value v = v.
Proof.
  destruct t, v; simpl; try discriminate.
  - destruct (_ && _); [|discriminate]. intros [= <-]. auto.
  - intros [= <-]. auto.
  - destruct (_ <=? _)%Z; [|discriminate]. intros [= <-]. auto.
  - intros [= <-]. auto.
  - intros [= <-]. auto.
Qed.

Lemma field_default_plain (t : field_type) (v : value) :
  field_default t = Some v -> jsonable_value v = v.
Proof. destruct t; simpl; intros [= <-]; reflexivity. Qed.

(** A field is in [__fields_set__] exactly when it is a field of the model
    and a key of the body. *)
Lemma parse_model_fields_set (sch : schema) (body : pydict) (m : model) :
  parse_model sch body = Some m ->
  forall k, k ∈ fields_set m <-> k ∈ field_names sch /\ is_Some (body !! k).
Proof.
  revert m. induction sch as [|[name t] rest IH]; intros m; simpl.
  - intros [= <-] k. simpl. split.
    + intros Hk. by apply not_elem_of_empty in Hk.
    + intros [Hk _]. inversion Hk.
  - destruct (parse_model rest body) as [m0|] eqn:Hrest; [|discriminate].
    specialize (IH m0 eq_refl).
    destruct (body !! name) as [v|] eqn:Hb.
    + destruct (validate_field t v) as [v'|]; [|discriminate].
      intros [= <-] k. simpl. rewrite elem_of_union, elem_of_singleton, IH.
      rewrite elem_of_cons. split.
      * intros [-> | [? ?]]; [|by auto]. split; [by left|]. by rewrite Hb.
      * intros [[-> | ?] ?]; [by left|by right].
    + destruct (field_default t) as [dflt|]; [|discriminate].
      intros [= <-] k. simpl. rewrite IH, elem_of_cons. split.
      * intros [? ?]. split; [by right|done].
      * intros [[-> | ?] Hs]; [|done]. rewrite Hb in Hs. by destruct Hs.
Qed.

(** A field given by the body keeps the value the body gave. *)
Lemma parse_model_values_set (sch : schema) (body : pydict) (m : model) :
  parse_model sch body = Some m ->
  forall k, k ∈ fields_set m -> values m !! k = body !! k.
Proof.
  revert m. induction sch as [|[name t] rest IH]; intros m; simpl.
  - intros [= <-] k. simpl. intros Hk. by apply not_elem_of_empty in Hk.
  - destruct (parse_model rest body) as [m0|] eqn:Hrest; [|discriminate].
    specialize (IH m0 eq_refl).
    destruct (body !! name) as [v|] eqn:Hb.
    + destruct (validate_field t v) as [v'|] eqn:Hv; [|discriminate].
      destruct (validate_field_same _ _ _ Hv) as [-> _].
      intros [= <-] k. simpl. rewrite elem_of_union, elem_of_singleton.
      destruct (decide (name = k)) as [->|Hne].
      * intros _. by rewrite lookup_insert_eq.
      * intros [-> | Hk]; [done|]. rewrite lookup_insert_ne by done. auto.
    + destruct (field_default t) as [dflt|]; [|discriminate].
      intros [= <-] k. simpl. intros Hk.
      destruct (decide (name = k)) as [->|Hne].
      * apply (parse_model_fields_set _ _ _ Hrest) in Hk as [_ Hs].
        rewrite Hb in Hs. by destruct Hs.
      * rewrite lookup_insert_ne by done. auto.
Qed.

(** The model has a value for each of its fields and for nothing else. *)
Lemma parse_model_values_dom (sch : schema) (body : pydict) (m : model) :
  parse_model sch body = Some m ->
  forall k, is_Some (values m !! k) <-> k ∈ field_names sch.
Proof.
  revert m. induction sch as [|[name t] rest IH]; intros m; simpl.
  - intros [= <-] k. simpl. rewrite lookup_empty. split.
    + intros [? ?]; discriminate.
    + intros Hk. inversion Hk.
  - destruct (parse_model rest body) as [m0|] eqn:Hrest; [|discriminate].
    specialize (IH m0 eq_refl).
    assert (Hgen : forall v k,
      is_Some (<[name := v]> (values m0) !! k) <-> k ∈ name :: field_names rest).
    { intros v k. rewrite elem_of_cons.
      destruct (decide (name = k)) as [->|Hne].
      - rewrite lookup_insert_eq. split; [by left|by eauto].
      - rewrite lookup_insert_ne by done. rewrite IH. split; [by right|].
        intros [-> | ?]; done. }
    destruct (body !! name) as [v|].
    + destruct (validate_field t v) as [v'|]; [|discriminate].
      intros [= <-] k. apply Hgen.
    + destruct (field_default t) as [dflt|]; [|discriminate].
      intros [= <-] k. apply Hgen.
Qed.

(** No value of a model is a datetime: the JSON encoding leaves them as
    they are. *)
Lemma parse_model_values_plain (sch : schema) (body : pydict) (m : model) :
  parse_model sch body = Some m ->
  forall k v, values m !! k = Some v -> jsonable_value v = v.
Proof.
  revert m. induction sch as [|[name t] rest IH]; intros m; simpl.
  - intros [= <-] k v. simpl. rewrite lookup_empty. discriminate.
  - destruct (parse_model rest body) as [m0|] eqn:Hrest; [|discriminate].
    specialize (IH m0 eq_refl).
    destruct (body !! name) as [w|].
    + destruct (validate_field t w) as [w'|] eqn:Hv; [|discriminate].
      destruct (validate_field_same _ _ _ Hv) as [-> Hplain].
      intros [= <-] k v. simpl.
      destruct (decide (name = k)) as [->|Hne].
      * rewrite lookup_insert_eq. by intros [= <-].
      * rewrite lookup_insert_ne by done. apply IH.
    + destruct (field_default t) as [dflt|] eqn:Hd; [|discriminate].
      intros [= <-] k v. simpl.
      destruct (decide (name = k)) as [->|Hne].
      * rewrite lookup_insert_eq. intros [= <-].
        exact (field_default_plain _ _ Hd).
      * rewrite lookup_insert_ne by done. apply IH.
Qed.

(** One submitted value out of its bound makes the whole body invalid. *)
Lemma parse_model_invalid (sch : schema) (body : pydict) name t v :
  (name, t) ∈ sch -> body !! name = Some v -> validate_field t v = None ->
  parse_model sch body = None.
Proof.
  intros Hin Hb Hv. induction sch as [|[name' t'] rest IH]; [inversion Hin|].
  simpl. apply elem_of_cons in Hin as [[= <- <-] | Hin].
  - destruct (parse_model rest body); [|reflexivity]. by rewrite Hb, Hv.
  - by rewrite (IH Hin).
Qed.

(** A required field that the body omits makes the body invalid. *)
Lemma parse_model_missing (sch : schema) (body : pydict) name t :
  (name, t) ∈ sch -> body !! name = None -> field_default t = None ->
  parse_model sch body = None.
Proof.
  intros Hin Hb Hd. induction sch as [|[name' t'] rest IH]; [inversion Hin|].
  simpl. apply elem_of_cons in Hin as [[= <- <-] | Hin].
  - destruct (parse_model rest body); [|reflexivity]. by rewrite Hb, Hd.
  - by rewrite (IH Hin).
Qed.

Lemma title_in_model (r : resource) : ("title", Str 1 255) ∈ model_of r.
Proof. destruct r; apply list_elem_of_here. Qed.

Lemma field_names_not_reserved (r : resource) (k : string) :
  k ∈ field_names (model_of r) -> k ∉ reserved_keys.
Proof.
  intros Hk Hr. unfold reserved_keys in Hr.
  destruct r; cbn in Hk;
    repeat (apply elem_of_cons in Hk as [-> | Hk];
            [repeat (apply elem_of_cons in Hr as [Hr | Hr]; [discriminate|]);
             inversion Hr|]);
    inversion Hk.
Qed.

(** A body without a title, or with a title that is empty or longer than
    255 characters, does not validate against the model of any resource. *)
Lemma bad_title_invalid (r : resource) (body : pydict) :
  body !! "title" = None \/
  (exists t, body !! "title" = Some (VStr t) /\
     (t = "" \/ (255 < Z.of_nat (String.length t))%Z)) ->
  parse_model (model_of r) body = None.
Proof.
  intros [Hnone | (t & Hb & Hbad)].
  - exact (parse_model_missing _ _ _ _ (title_in_model r) Hnone eq_refl).
  - apply (parse_model_invalid _ _ _ _ _ (title_in_model r) Hb).
    simpl. destruct Hbad as [-> | Hlong]; [reflexivity|].
    destruct (Z.leb_spec (Z.of_nat (String.length t)) 255); [lia|].
    rewrite andb_false_r. reflexivity.
Qed.

(** ** Serialisation of a record *)

Lemma value_isoformat_stamp (now : datetime) (v : option value) :
  value_isoformat (default (VDatetime now) v) =
    match stamp_or now v with
    | Some t => Ok (isoformat t)
    | None => value_isoformat (default (VDatetime now) v)
    end.
Proof. destruct v as [[]|]; reflexivity. Qed.

Lemma value_isoformat_Ok (now : datetime) (v : option value) (c : string) :
  value_isoformat (default (VDatetime now) v) = Ok c ->
  exists t, stamp_or now v = Some t /\ c = isoformat t.
Proof.
  destruct v as [[]|]; simpl; try discriminate; intros [= <-]; eauto.
Qed.

(** The record a read handler returns for a stored document. *)
Lemma render_record_Ok (now : datetime) (note rec : pydict) :
  render_record now note = Ok rec ->
  exists i c u,
    note !! "_id" = Some i /\
    stamp_or now (note !! "created_at") = Some c /\
    stamp_or now (note !! "updated_at") = Some u /\
    rec = <["updated_at" := VStr (isoformat u)]>
            (<["created_at" := VStr (isoformat c)]>
               (<["id" := i]> (delete "_id" note))).
Proof.
  unfold render_record, dict_get_default.
  destruct (note !! "_id") as [i|] eqn:Hid; [|discriminate].
  rewrite lookup_insert_ne by discriminate.
  rewrite lookup_delete_ne by discriminate.
  destruct (value_isoformat (default (VDatetime now) (note !! "created_at")))
    as [e|c] eqn:Hc; [discriminate|].
  rewrite lookup_insert_ne by discriminate.
  rewrite lookup_insert_ne by discriminate.
  rewrite lookup_delete_ne by discriminate.
  destruct (value_isoformat (default (VDatetime now) (note !! "updated_at")))
    as [e|u] eqn:Hu; [discriminate|].
  intros [= <-].
  destruct (value_isoformat_Ok _ _ _ Hc) as (tc & Htc & ->).
  destruct (value_isoformat_Ok _ _ _ Hu) as (tu & Htu & ->).
  exists i, tc, tu. auto.
Qed.

Lemma render_record_stamped (now : datetime) (note : pydict) i c u :
  note !! "_id" = Some i ->
  stamp_or now (note !! "created_at") = Some c ->
  stamp_or now (note !! "updated_at") = Some u ->
  render_record now note =
    Ok (<["updated_at" := VStr (isoformat u)]>
          (<["created_at" := VStr (isoformat c)]>
             (<["id" := i]> (delete "_id" note)))).
Proof.
  intros Hid Hc Hu. unfold render_record, dict_get_default. rewrite Hid.
  rewrite lookup_insert_ne by discriminate.
  rewrite lookup_delete_ne by discriminate.
  rewrite value_isoformat_stamp, Hc.
  rewrite lookup_insert_ne by discriminate.
  rewrite lookup_insert_ne by discriminate.
  rewrite lookup_delete_ne by discriminate.
  rewrite value_isoformat_stamp, Hu. reflexivity.
Qed.

(** What a rendered record shows: the identifier under [id] and not under
    [_id], both timestamps as ISO strings ([now] standing for a missing
    one), every other field as stored. *)
Lemma render_record_view (now : datetime) (note rec : pydict) :
  render_record now note = Ok rec ->
  rec !! "_id" = None /\
  rec !! "id" = note !! "_id" /\
  (exists c, stamp_or now (note !! "created_at") = Some c /\
     rec !! "created_at" = Some (VStr (isoformat c))) /\
  (exists u, stamp_or now (note !! "updated_at") = Some u /\
     rec !! "updated_at" = Some (VStr (isoformat u))) /\
  (forall k, k ∉ reserved_keys -> rec !! k = note !! k).
Proof.
  intros Hr. destruct (render_record_Ok _ _ _ Hr) as (i & c & u & Hid & Hc & Hu & ->).
  split; [|split; [|split; [|split]]].
  - rewrite !lookup_insert_ne by discriminate. apply lookup_delete_eq.
  - rewrite !lookup_insert_ne by discriminate. rewrite lookup_insert_eq. by rewrite Hid.
  - exists c. split; [exact Hc|].
    rewrite lookup_insert_ne by discriminate. apply lookup_insert_eq.
  - exists u. split; [exact Hu|]. apply lookup_insert_eq.
  - intros k Hk. unfold reserved_keys in Hk.
    rewrite !not_elem_of_cons in Hk. destruct Hk as (? & ? & ? & ? & _).
    rewrite !lookup_insert_ne by done. by rewrite lookup_delete_ne.
Qed.

(** ** Sorting and paging *)

#[local] Instance created_desc_total : Total created_desc.
Proof.
  intros d1 d2. unfold created_desc.
  destruct (created_key d1) as [x|], (created_key d2) as [y|]; simpl; auto.
  destruct (Z.leb_spec x y), (Z.leb_spec y x); auto; lia.
Qed.

#[local] Instance created_desc_trans : Transitive created_desc.
Proof.
  intros d1 d2 d3. unfold created_desc.
  destruct (created_key d1) as [x|], (created_key d2) as [y|],
    (created_key d3) as [z|]; simpl; auto; try discriminate.
  rewrite !Z.leb_le. lia.
Qed.

Lemma apply_limit_take (limit : Z) (l : list pydict) :
  (1 <= limit)%Z -> apply_limit limit l = take (Z.to_nat limit) l.
Proof.
  intros Hl. unfold apply_limit.
  destruct (Z.eqb_spec limit 0); [lia|]. by rewrite Z.abs_eq by lia.
Qed.

Lemma page_of_take (f : pydict -> bool) (skip limit : Z) c :
  (1 <= limit)%Z ->
  page_of f skip limit c =
    take (Z.to_nat limit)
      (drop (Z.to_nat skip) (merge_sort created_desc (List.filter f (documents c)))).
Proof. intros Hl. unfold page_of. by apply apply_limit_take. Qed.

Lemma filter_elem_of (f : pydict -> bool) (l : list pydict) (x : pydict) :
  x ∈ List.filter f l <-> x ∈ l /\ f x = true.
Proof. rewrite !list_elem_of_In. apply filter_In. Qed.

Lemma filter_all (l : list pydict) : List.filter (fun _ => true) l = l.
Proof. induction l as [|x l IH]; simpl; [reflexivity|]. by rewrite IH. Qed.

(** A page only holds documents of the collection that pass the filter. *)
Lemma page_of_elem_of (f : pydict -> bool) (skip limit : Z) c (x : pydict) :
  (1 <= limit)%Z ->
  x ∈ page_of f skip limit c -> x ∈ documents c /\ f x = true.
Proof.
  intros Hl. rewrite page_of_take by exact Hl. intros Hx.
  apply subseteq_take, subseteq_drop in Hx.
  rewrite merge_sort_Permutation in Hx. by apply filter_elem_of.
Qed.

Lemma page_of_sorted (f : pydict -> bool) (skip limit : Z) c :
  (1 <= limit)%Z -> StronglySorted created_desc (page_of f skip limit c).
Proof.
  intros Hl. rewrite page_of_take by exact Hl.
  set (l := merge_sort created_desc (List.filter f (documents c))).
  assert (Hs : StronglySorted created_desc l).
  { unfold l. apply StronglySorted_merge_sort; apply _. }
  rewrite <- (take_drop (Z.to_nat skip) l) in Hs.
  apply StronglySorted_app in Hs as (_ & _ & Hs).
  rewrite <- (take_drop (Z.to_nat limit) (drop (Z.to_nat skip) l)) in Hs.
  by apply StronglySorted_app in Hs as (_ & Hs & _).
Qed.

Lemma page_of_length (f : pydict -> bool) (skip limit : Z) c :
  (1 <= limit)%Z ->
  (Z.of_nat (length (page_of f skip limit c)) <= limit)%Z /\
  length (page_of f skip limit c) <= length (List.filter f (documents c)).
Proof.
  intros Hl. rewrite page_of_take by exact Hl.
  rewrite length_take, length_drop.
  rewrite (Permutation_length (merge_sort_Permutation created_desc _)).
  lia.
Qed.

(** *** The order of a page, field by field *)

Lemma valid_datetimeb_spec (t : datetime) :
  valid_datetimeb t = true -> valid_datetime t.
Proof.
  unfold valid_datetimeb, valid_datetime.
  rewrite !andb_true_iff, !Z.leb_le. intros H. lia.
Qed.

Lemma StronglySorted_lookup {A} (R : relation A) (l : list A) (i j : nat)
    (x y : A) :
  StronglySorted R l -> i < j -> l !! i = Some x -> l !! j = Some y -> R x y.
Proof.
  intros Hs. revert i j.
  induction Hs as [|a l Hs IH Hall]; intros i j Hij Hi Hj; [discriminate|].
  destruct j as [|j]; [lia|]. simpl in Hj. destruct i as [|i].
  - injection Hi as <-. rewrite Forall_forall in Hall. apply Hall.
    by eapply list_elem_of_lookup_2.
  - simpl in Hi. apply (IH i j); [lia|done|done].
Qed.

Lemma StronglySorted_pairwise {A} (R : relation A) (l : list A) :
  (forall i j x y, i < j -> l !! i = Some x -> l !! j = Some y -> R x y) ->
  StronglySorted R l.
Proof.
  induction l as [|a l IH]; intros H; constructor.
  - apply IH. intros i j x y Hij Hi Hj.
    apply (H (S i) (S j)); [lia|done|done].
  - apply Forall_forall. intros y Hy.
    apply list_elem_of_lookup in Hy as [j Hj].
    apply (H 0 (S j)); [lia|done|done].
Qed.

(** On documents with genuine dates, the comparison the store sorts with
    says what the specification says of two documents in a listing. *)
Lemma created_desc_newest (d1 d2 : pydict) :
  dated_valid d1 = true -> dated_valid d2 = true ->
  (created_desc d1 d2 <->
   forall t2, d2 !! "created_at" = Some (VDatetime t2) ->
     exists t1, d1 !! "created_at" = Some (VDatetime t1) /\
                ~ datetime_lt t1 t2).
Proof.
  unfold dated_valid, created_desc, created_key. intros H1 H2. split.
  - intros Hle t2 Ht2. rewrite Ht2 in Hle, H2.
    destruct (d1 !! "created_at") as [[| | | | |t1]|]; try discriminate.
    exists t1. split; [reflexivity|]. simpl in Hle. apply Z.leb_le in Hle.
    rewrite (datetime_ord_lt t1 t2)
      by (by apply valid_datetimeb_spec). lia.
  - intros Hspec.
    destruct (d2 !! "created_at") as [[| | | | |t2]|]; try reflexivity.
    destruct (Hspec t2 eq_refl) as (t1 & Ht1 & Hnlt).
    rewrite Ht1 in H1 |- *. simpl. apply Z.leb_le.
    rewrite (datetime_ord_lt t1 t2) in Hnlt
      by (by apply valid_datetimeb_spec). lia.
Qed.

(** A listing of documents with genuine dates is sorted by the store's
    comparison exactly when it is newest first. *)
Lemma sorted_newest_first (l : list pydict) :
  Forall (fun doc => dated_valid doc = true) l ->
  (StronglySorted created_desc l <-> newest_first l).
Proof.
  intros Hvalid. rewrite Forall_forall in Hvalid.
  assert (Hv : forall i x, l !! i = Some x -> dated_valid x = true).
  { intros i x Hi. apply Hvalid. by eapply list_elem_of_lookup_2. }
  split.
  - intros Hs i j di dj tj Hij Hi Hj.
    apply (created_desc_newest di dj (Hv _ _ Hi) (Hv _ _ Hj)).
    exact (StronglySorted_lookup _ _ _ _ _ _ Hs Hij Hi Hj).
  - intros Hnf. apply StronglySorted_pairwise. intros i j x y Hij Hi Hj.
    apply (created_desc_newest x y (Hv _ _ Hi) (Hv _ _ Hj)).
    intros t2. exact (Hnf i j x y t2 Hij Hi Hj).
Qed.

Lemma key_leb_antisym (a b : option Z) :
  key_leb a b = true -> key_leb b a = true -> a = b.
Proof.
  destruct a as [x|], b as [y|]; simpl; try discriminate; try reflexivity.
  rewrite !Z.leb_le. intros ? ?. f_equal. lia.
Qed.

(** Two sorted listings of the same documents are equal when no two
    documents have the same sort key. *)
Lemma sorted_unique (l1 l2 : list pydict) :
  NoDup (created_key <$> l1) -> l1 ≡ₚ l2 ->
  StronglySorted created_desc l1 -> StronglySorted created_desc l2 ->
  l1 = l2.
Proof.
  revert l2. induction l1 as [|a l1 IH]; intros l2 Hnd Hperm Hs1 Hs2.
  - by apply Permutation_nil_l in Hperm.
  - destruct l2 as [|b l2].
    { by apply Permutation_nil_r in Hperm. }
    rewrite fmap_cons in Hnd. apply NoDup_cons in Hnd as [Ha Hnd].
    apply StronglySorted_inv in Hs1 as [Hs1 Hall1].
    apply StronglySorted_inv in Hs2 as [Hs2 Hall2].
    rewrite Forall_forall in Hall1, Hall2.
    assert (Hab : a = b).
    { assert (Hain : a ∈ b :: l2) by (rewrite <- Hperm; apply list_elem_of_here).
      assert (Hbin : b ∈ a :: l1) by (rewrite Hperm; apply list_elem_of_here).
      apply elem_of_cons in Hain as [Heq|Hain]; [exact Heq|].
      apply elem_of_cons in Hbin as [Heq|Hbin]; [by symmetry|].
      exfalso. apply Ha.
      rewrite (key_leb_antisym (created_key a) (created_key b)).
      - by apply list_elem_of_fmap_2.
      - exact (Hall2 a Hain).
      - exact (Hall1 b Hbin). }
    subst b. f_equal. apply IH; [exact Hnd| |exact Hs1|exact Hs2].
    by apply Permutation_cons_inv in Hperm.
Qed.

Lemma NoDup_fmap_filter {B} (h : pydict -> B) (f : pydict -> bool)
    (l : list pydict) :
  NoDup (h <$> l) -> NoDup (h <$> List.filter f l).
Proof.
  induction l as [|x l IH]; [done|].
  rewrite fmap_cons, NoDup_cons. intros [Hx Hl].
  change (List.filter f (x :: l))
    with (if f x then x :: List.filter f l else List.filter f l).
  destruct (f x); [|by apply IH].
  rewrite fmap_cons, NoDup_cons. split; [|by apply IH].
  intros Hin. apply Hx.
  apply list_elem_of_fmap in Hin as (y & -> & Hy).
  apply filter_elem_of in Hy as [Hy _]. by apply list_elem_of_fmap_2.
Qed.

(** The page is the window of the newest-first listing: when the
    documents have genuine and pairwise distinct creation dates, any
    newest-first listing of the selected documents, however it was
    obtained, gives the page the store returns. *)
Lemma page_of_listing (f : pydict -> bool) (skip limit : Z) c
    (listing : list pydict) :
  (1 <= limit)%Z ->
  forallb dated_valid (documents c) = true ->
  NoDup (created_key <$> documents c) ->
  listing ≡ₚ List.filter f (documents c) -> newest_first listing ->
  page_of f skip limit c = take (Z.to_nat limit) (drop (Z.to_nat skip) listing).
Proof.
  intros Hl Hvalid Hnd Hperm Hnf. rewrite page_of_take by exact Hl.
  assert (Hv : Forall (fun doc => dated_valid doc = true)
                 (List.filter f (documents c))).
  { apply Forall_forall. intros doc Hdoc.
    apply filter_elem_of in Hdoc as [Hdoc _].
    rewrite forallb_forall in Hvalid. by apply Hvalid, list_elem_of_In. }
  f_equal. f_equal. apply sorted_unique.
  - rewrite merge_sort_Permutation. by apply NoDup_fmap_filter.
  - by rewrite merge_sort_Permutation, Hperm.
  - apply StronglySorted_merge_sort; apply _.
  - apply sorted_newest_first; [|exact Hnf]. by rewrite Hperm.
Qed.

(** On documents with genuine dates every page is newest first, and so
    is the whole listing it is cut from. *)
Lemma page_of_newest_first (f : pydict -> bool) (skip limit : Z) c :
  (1 <= limit)%Z ->
  forallb dated_valid (documents c) = true ->
  newest_first (merge_sort created_desc (List.filter f (documents c))) /\
  newest_first (page_of f skip limit c).
Proof.
  intros Hl Hvalid.
  assert (Hv : forall l, l ⊆ documents c ->
            Forall (fun doc => dated_valid doc = true) l).
  { intros l Hsub. apply Forall_forall. intros doc Hdoc.
    rewrite forallb_forall in Hvalid. by apply Hvalid, list_elem_of_In, Hsub. }
  split.
  - apply sorted_newest_first.
    + apply Hv. intros doc Hdoc. rewrite merge_sort_Permutation in Hdoc.
      by apply filter_elem_of in Hdoc as [? _].
    + apply StronglySorted_merge_sort; apply _.
  - apply sorted_newest_first.
    + apply Hv. intros doc Hdoc.
      by apply page_of_elem_of in Hdoc as [? _].
    + by apply page_of_sorted.
Qed.

Lemma length_documents c : length (documents c) = size c.
Proof. unfold documents. by rewrite length_fmap, length_map_to_list. Qed.

Lemma documents_have_id c (doc : pydict) :
  doc ∈ documents c -> exists i, doc !! "_id" = Some (VStr i).
Proof.
  unfold documents. intros Hd.
  apply list_elem_of_fmap in Hd as ([k fields] & -> & _).
  exists k. apply lookup_insert_eq.
Qed.

(** ** The serialisation loop *)

Lemma for_each_Forall2 {A B} (f : A -> result exn B) (xs : list A) (ys : list B) :
  for_each f xs = Ok ys <-> Forall2 (fun x y => f x = Ok y) xs ys.
Proof.
  revert ys. induction xs as [|x xs IH]; intros ys; simpl.
  - split.
    + intros [= <-]. constructor.
    + intros Hf. by inversion Hf.
  - split.
    + destruct (f x) as [e|y] eqn:Hx; [discriminate|].
      destruct (for_each f xs) as [e|ys'] eqn:Hxs; [discriminate|].
      intros [= <-]. constructor; [exact Hx|]. by apply IH.
    + intros Hf. inversion Hf as [|? y ? ys' Hx Hrest]; subst.
      rewrite Hx. apply IH in Hrest. by rewrite Hrest.
Qed.

Lemma for_each_total {A B} (f : A -> result exn B) (xs : list A) :
  Forall (fun x => exists y, f x = Ok y) xs ->
  exists ys, for_each f xs = Ok ys.
Proof.
  induction 1 as [|x xs [y Hx] _ [ys Hxs]]; simpl.
  - by exists [].
  - exists (y :: ys). by rewrite Hx, Hxs.
Qed.

Lemma stamp_ok_stamp_or (now : datetime) (v : option value) :
  stamp_ok v = true -> exists t, stamp_or now v = Some t.
Proof. destruct v as [[]|]; simpl; try discriminate; eauto. Qed.

Lemma render_record_total (now : datetime) (doc : pydict) :
  is_Some (doc !! "_id") -> well_stamped doc = true ->
  exists rec, render_record now doc = Ok rec.
Proof.
  intros [i Hid] Hw. unfold well_stamped in Hw.
  apply andb_true_iff in Hw as [Hc Hu].
  destruct (stamp_ok_stamp_or now _ Hc) as [c Hc'].
  destruct (stamp_ok_stamp_or now _ Hu) as [u Hu'].
  eexists. by apply (render_record_stamped now doc i c u).
Qed.

(** On a page of well-stamped documents the loop runs to its end. *)
Lemma render_page (now : datetime) (f : pydict -> bool)
    (skip limit : Z) c :
  (1 <= limit)%Z ->
  (forall doc, doc ∈ documents c -> well_stamped doc = true) ->
  exists recs,
    for_each (render_record now) (page_of f skip limit c) = Ok recs.
Proof.
  intros Hl Hall. apply for_each_total, Forall_forall. intros doc Hdoc.
  apply page_of_elem_of in Hdoc as [Hdoc _]; [|exact Hl].
  apply render_record_total.
  - destruct (documents_have_id _ _ Hdoc) as [i ->]. eauto.
  - by apply Hall.
Qed.

Lemma forallb_elem_of (P : pydict -> bool) (l : list pydict) :
  forallb P l = true -> forall doc, doc ∈ l -> P doc = true.
Proof.
  rewrite forallb_forall. intros H doc Hd. by apply H, list_elem_of_In.
Qed.

(** ** The search filter *)

Lemma regex_field_hit (m : string -> bool) (q : string) (v : option value) :
  (forall s, m s = ci_contains q s) -> not_array v = true ->
  field_matches m v = text_hit q v.
Proof.
  intros Hm Hv. destruct v as [[]|]; simpl in *; try reflexivity; try discriminate.
  apply Hm.
Qed.

Lemma existsb_in_singleton (q : string) (l : list string) :
  existsb (fun s => bool_decide (s ∈ [q])) l = bool_decide (q ∈ l).
Proof.
  apply Bool.eq_iff_eq_true.
  rewrite existsb_exists, bool_decide_eq_true. split.
  - intros (x & Hin & Hx). apply bool_decide_eq_true in Hx.
    apply list_elem_of_singleton in Hx. subst x. by apply list_elem_of_In.
  - intros Hin. exists q. split; [by apply list_elem_of_In|].
    apply bool_decide_eq_true, list_elem_of_here.
Qed.

Lemma in_field_hit (q : string) (v : option value) :
  not_text v = true ->
  field_matches (fun s => bool_decide (s ∈ [q])) v = array_hit q v.
Proof.
  intros Hv. destruct v as [[]|]; simpl in *; try reflexivity; try discriminate.
  apply existsb_in_singleton.
Qed.

Lemma schema_typed_text (r : resource) (doc : pydict) (f : string) :
  schema_typed r doc = true -> In f (text_fields r) ->
  not_array (doc !! f) = true.
Proof.
  unfold schema_typed. rewrite andb_true_iff, !forallb_forall.
  intros [Ht _] Hf. by apply Ht.
Qed.

Lemma schema_typed_array (r : resource) (doc : pydict) (f : string) :
  schema_typed r doc = true -> In f (array_fields r) ->
  not_text (doc !! f) = true.
Proof.
  unfold schema_typed. rewrite andb_true_iff, !forallb_forall.
  intros [_ Ha] Hf. by apply Ha.
Qed.

(** When the engine reads a pattern without operators as a
    case-insensitive substring test, the filter of each router selects,
    among well-typed documents, those the specification describes. *)
Lemma search_filter_literal (r : resource) (q : string) :
  (forall p, no_meta p = true ->
     exists m, regex_compile_i p = Some m /\ forall s, m s = ci_contains p s) ->
  no_meta q = true ->
  exists f, compile_query (search_filter r q) = Some f /\
    forall doc, schema_typed r doc = true -> f doc = spec_matches r q doc.
Proof.
  intros Hengine Hq. destruct (Hengine q Hq) as (m & Hm & Hms).
  destruct r; simpl; rewrite Hm; eexists; (split; [reflexivity|]);
    intros doc Ht; unfold spec_matches; simpl;
    repeat match goal with
    | |- context [field_matches m (doc !! ?f)] =>
        rewrite (regex_field_hit m q (doc !! f) Hms)
          by (apply (schema_typed_text _ _ f Ht); simpl; auto 10)
    | |- context [field_matches (fun s => bool_decide (s ∈ [q])) (doc !! ?f)] =>
        rewrite (in_field_hit q (doc !! f))
          by (apply (schema_typed_array _ _ f Ht); simpl; auto 10)
    end;
    rewrite ?orb_false_r, ?orb_assoc; reflexivity.
Qed.

(** ** Running the routes *)

Lemma route_delete_run (r : resource) (request : Request) (claims : pydict)
    (id : string) (d : Database) :
  verify_admin request = Ok claims ->
  route_delete r request id (Some d) =
    match collection r d !! id with
    | Some _ =>
        (Ok (MessageResponse true (singular r +:+ " deleted successfully")),
         Some (set_collection r (delete id (collection r d))
                 (log_op r DeleteOne d)))
    | None =>
        (Err (mk_HTTPException 404 (singular r +:+ " not found")),
         Some (log_op r DeleteOne d))
    end.
Proof.
  intros Hauth. unfold route_delete, encoded.
  rewrite Hauth, delete_document_run.
  destruct (collection r d !! id); reflexivity.
Qed.

Lemma route_get_missing (r : resource) (id : string) (now : datetime)
    (d : Database) :
  collection r d !! id = None ->
  route_get r id now (Some d) =
    (Err (mk_HTTPException 404 (singular r +:+ " not found")),
     Some (log_op r FindOne d)).
Proof.
  intros Hnone. unfold route_get, encoded.
  rewrite get_document_run, Hnone. reflexivity.
Qed.

Lemma new_document_field (payload : model) (uuid4 : string) (now : datetime)
    (k : string) :
  k ∉ reserved_keys -> new_document payload uuid4 now !! k = values payload !! k.
Proof.
  intros Hk. unfold reserved_keys in Hk. rewrite !not_elem_of_cons in Hk.
  destruct Hk as (? & ? & ? & ? & _). unfold new_document, dict.
  by rewrite !lookup_insert_ne by done.
Qed.

(** A validated payload has no value under a reserved key. *)
Lemma values_not_reserved (r : resource) (body : pydict) (payload : model)
    (k : string) :
  parse_model (model_of r) body = Some payload ->
  k ∈ reserved_keys -> values payload !! k = None.
Proof.
  intros Hp Hk. destruct (values payload !! k) eqn:Hv; [|reflexivity].
  exfalso. apply (field_names_not_reserved r k); [|exact Hk].
  apply (parse_model_values_dom _ _ _ Hp). eauto.
Qed.

(** ** What the store keeps of a written document *)

Lemma bson_value_plain (v : value) : jsonable_value v = v -> bson_value v = v.
Proof. destruct v; simpl; try reflexivity. discriminate. Qed.

(** The values of a validated payload hold no date: the store keeps them
    as they are. *)
Lemma bson_document_values (sch : schema) (body : pydict) (payload : model) :
  parse_model sch body = Some payload ->
  bson_document (values payload) = values payload.
Proof.
  intros Hp. apply map_eq. intros k. unfold bson_document.
  rewrite lookup_fmap.
  destruct (values payload !! k) as [v|] eqn:Hv; [|reflexivity].
  simpl. f_equal. apply bson_value_plain.
  exact (parse_model_values_plain _ _ _ Hp _ _ Hv).
Qed.

(** Of the document [create] builds, the store keeps the fields of the
    payload and both timestamps cut to milliseconds. *)
Lemma bson_new_document (sch : schema) (body : pydict) (payload : model)
    (uuid4 : string) (now : datetime) :
  parse_model sch body = Some payload ->
  bson_document (delete "_id" (new_document payload uuid4 now)) =
    delete "_id" (new_document payload uuid4 (bson_datetime now)).
Proof.
  intros Hp. unfold bson_document, new_document, dict.
  rewrite fmap_delete, !fmap_insert. simpl.
  change (bson_value <$> values payload) with (bson_document (values payload)).
  by rewrite (bson_document_values _ _ _ Hp).
Qed.

(** Of the fields [update] sets, the store keeps those of the payload and
    [updated_at] cut to milliseconds. *)
Lemma bson_update_data (sch : schema) (body : pydict) (payload : model)
    (now : datetime) :
  parse_model sch body = Some payload ->
  bson_document (update_data_of payload now) =
    update_data_of payload (bson_datetime now).
Proof.
  intros Hp. unfold bson_document, update_data_of.
  rewrite fmap_insert. simpl. f_equal.
  apply map_eq. intros k. rewrite lookup_fmap.
  destruct (dict_exclude_unset payload !! k) as [v|] eqn:Hv; [|reflexivity].
  simpl. f_equal. apply bson_value_plain.
  unfold dict_exclude_unset in Hv.
  apply map_lookup_filter_Some in Hv as [Hv _].
  exact (parse_model_values_plain _ _ _ Hp _ _ Hv).
Qed.

Lemma route_create_run (r : resource) (request : Request) (claims : pydict)
    (body : pydict) (payload : model) (uuid4 : string) (now : datetime)
    (d : Database) :
  verify_admin request = Ok claims ->
  parse_model (model_of r) body = Some payload ->
  route_create r request body uuid4 now (Some d) =
    match collection r d !! uuid4 with
    | Some _ =>
        (Err (mk_HTTPException 500 "E11000 duplicate key error"),
         Some (log_op r InsertOne d))
    | None =>
        (Ok (CreateResponse true (singular r +:+ " created successfully")
               (jsonable_dict
                  (new_document payload uuid4 now ∪ {["id" := VStr uuid4]}))),
         Some (set_collection r
                 (<[uuid4 := delete "_id"
                               (new_document payload uuid4 (bson_datetime now))]>
                    (collection r d))
                 (log_op r InsertOne d)))
    end.
Proof.
  intros Hauth Hp. unfold route_create, encoded.
  rewrite Hauth, Hp, create_document_run.
  destruct (collection r d !! uuid4); [reflexivity|].
  change (<["updated_at" := VDatetime now]>
            (<["created_at" := VDatetime now]>
               (<["_id" := VStr uuid4]> (dict payload))))
    with (new_document payload uuid4 now).
  by rewrite (bson_new_document _ _ _ _ _ Hp).
Qed.

(** Reading back a document that [create] has just stored. *)
Lemma get_created (r : resource) (payload : model) (uuid4 : string)
    (now now' : datetime) (d : Database) :
  collection r d !! uuid4 = Some (delete "_id" (new_document payload uuid4 now)) ->
  route_get r uuid4 now' (Some d) =
    (Ok (GetResponse true
           (jsonable_dict
              (<["updated_at" := VStr (isoformat now)]>
                 (<["created_at" := VStr (isoformat now)]>
                    (<["id" := VStr uuid4]>
                       (delete "_id" (new_document payload uuid4 now))))))),
     Some (log_op r FindOne d)).
Proof.
  intros Hs. unfold route_get, encoded. rewrite get_document_run, Hs.
  rewrite (render_record_stamped now' _ (VStr uuid4) now now).
  - rewrite delete_insert_eq, delete_delete_eq. reflexivity.
  - apply lookup_insert_eq.
  - rewrite lookup_insert_ne by discriminate.
    rewrite lookup_delete_ne by discriminate.
    unfold new_document. rewrite lookup_insert_ne by discriminate.
    by rewrite lookup_insert_eq.
  - rewrite lookup_insert_ne by discriminate.
    rewrite lookup_delete_ne by discriminate.
    unfold new_document. by rewrite lookup_insert_eq.
Qed.

Lemma route_update_run (r : resource) (request : Request) (claims : pydict)
    (id : string) (body : pydict) (payload : model) (now : datetime)
    (d : Database) :
  verify_admin request = Ok claims ->
  parse_model (model_of r) body = Some payload ->
  route_update r request id body now (Some d) =
    match collection r d !! id with
    | None =>
        (Err (mk_HTTPException 404 (singular r +:+ " not found")),
         Some (log_op r FindOne d))
    | Some _ =>
        (Ok (MessageResponse true (singular r +:+ " updated successfully")),
         Some (set_collection r
                 (alter (fun fields =>
                           update_data_of payload (bson_datetime now) ∪ fields)
                    id (collection r d))
                 (log_op r UpdateOne (log_op r FindOne d))))
    end.
Proof.
  intros Hauth Hp. unfold route_update, encoded.
  rewrite Hauth, Hp, update_document_run.
  destruct (collection r d !! id); [|reflexivity].
  change (<["updated_at" := VDatetime now]> (dict_exclude_unset payload))
    with (update_data_of payload now).
  by rewrite (bson_update_data _ _ _ _ Hp).
Qed.

(** [payload.dict(exclude_unset=True)] holds the fields of the model that
    the body gave, with the values the body gave. *)
Lemma dict_exclude_unset_lookup (sch : schema) (body : pydict)
    (payload : model) (k : string) :
  parse_model sch body = Some payload ->
  dict_exclude_unset payload !! k =
    if decide (k ∈ field_names sch /\ is_Some (body !! k)) then body !! k
    else None.
Proof.
  intros Hp. unfold dict_exclude_unset.
  pose proof (parse_model_fields_set _ _ _ Hp k) as Hset.
  destruct (decide (k ∈ field_names sch /\ is_Some (body !! k))) as [Hin|Hout].
  - apply Hset in Hin.
    rewrite <- (parse_model_values_set _ _ _ Hp k Hin).
    destruct (values payload !! k) as [v|] eqn:Hv.
    + apply map_lookup_filter_Some. split; [exact Hv|exact Hin].
    + apply map_lookup_filter_None. left. exact Hv.
  - apply map_lookup_filter_None. right. intros v _ Hin.
    apply Hout, Hset. exact Hin.
Qed.

Lemma list_documents_run (r : resource) (skip limit : Z) (now : datetime)
    (d : Database) :
  (0 <= skip)%Z ->
  list_documents r skip limit now (Some d) =
    match for_each (render_record now)
            (page_of (fun _ => true) skip limit (collection r d)) with
    | Ok recs =>
        (Ok (ListResponse true recs
               (mk_Pagination (Z.of_nat (size (collection r d))) skip limit
                  (Z.of_nat (length recs)))),
         Some (log_op r Find (log_op r CountDocuments d)))
    | Err e =>
        (Err (mk_HTTPException 500 (exn_str e)),
         Some (log_op r Find (log_op r CountDocuments d)))
    end.
Proof.
  intros Hskip.
  unfold list_documents, try_except_Exception, bind, require_db, db_is_None,
    count_documents, find, with_store, ret, raise, lift.
  destruct (Z.ltb_spec skip 0) as [|_]; [lia|].
  cbn -[page_of for_each render_record].
  rewrite !collection_log_op, filter_all, length_documents.
  destruct (for_each _ _); reflexivity.
Qed.

Lemma search_documents_run (r : resource) (q : string) (skip limit : Z)
    (now : datetime) (d : Database) (f : pydict -> bool) :
  (0 <= skip)%Z ->
  compile_query (search_filter r q) = Some f ->
  search_documents r q skip limit now (Some d) =
    match for_each (render_record now)
            (page_of f skip limit (collection r d)) with
    | Ok recs =>
        (Ok (SearchResponse true q recs
               (mk_Pagination
                  (Z.of_nat (length (List.filter f (documents (collection r d)))))
                  skip limit (Z.of_nat (length recs)))),
         Some (log_op r Find (log_op r CountDocuments d)))
    | Err e =>
        (Err (mk_HTTPException 500 (exn_str e)),
         Some (log_op r Find (log_op r CountDocuments d)))
    end.
Proof.
  intros Hskip Hf.
  unfold search_documents, try_except_Exception, bind, require_db,
    db_is_None, count_documents, find, with_store, ret, raise, lift.
  destruct (Z.ltb_spec skip 0) as [|_]; [lia|].
  cbv zeta. rewrite Hf.
  cbn -[page_of for_each render_record].
  rewrite !collection_log_op.
  destruct (for_each _ _); reflexivity.
Qed.

Lemma query_skip_Some (skip : Z) : (0 <= skip)%Z -> query_skip (Some skip) = Some skip.
Proof. intros H. simpl. destruct (Z.leb_spec 0 skip); [reflexivity|lia]. Qed.

Lemma query_limit_Some (limit : Z) :
  (1 <= limit <= MAX_PAGE_SIZE)%Z -> query_limit (Some limit) = Some limit.
Proof.
  intros H. simpl.
  destruct (Z.leb_spec 1 limit); [|lia].
  destruct (Z.leb_spec limit MAX_PAGE_SIZE); [reflexivity|lia].
Qed.

Lemma query_q_Some (q : string) : q <> "" -> query_q (Some q) = Some q.
Proof. intros H. destruct q; [contradiction|reflexivity]. Qed.

(** A body that validates gave a title within the bounds. *)
Lemma parsed_title (r : resource) (body : pydict) (payload : model) :
  parse_model (model_of r) body = Some payload ->
  "title" ∈ fields_set payload /\
  exists t, values payload !! "title" = Some (VStr t) /\
    body !! "title" = Some (VStr t) /\
    (1 <= Z.of_nat (String.length t) <= 255)%Z.
Proof.
  intros Hp.
  destruct (body !! "title") as [v|] eqn:Hb.
  - assert (Hset : "title" ∈ fields_set payload).
    { apply (parse_model_fields_set _ _ _ Hp). split.
      - destruct r; apply list_elem_of_here.
      - by rewrite Hb. }
    split; [exact Hset|].
    destruct (validate_field (Str 1 255) v) as [v'|] eqn:Hv.
    + destruct v; simpl in Hv; try discriminate.
      exists s. rewrite (parse_model_values_set _ _ _ Hp _ Hset), Hb.
      split; [reflexivity|]. split; [reflexivity|].
      destruct (Z.leb_spec 1 (Z.of_nat (String.length s)));
        destruct (Z.leb_spec (Z.of_nat (String.length s)) 255);
        simpl in Hv; try discriminate. lia.
    + rewrite (parse_model_invalid _ _ _ _ _ (title_in_model r) Hb Hv) in Hp.
      discriminate.
  - rewrite (parse_model_missing _ _ _ _ (title_in_model r) Hb eq_refl) in Hp.
    discriminate.
Qed.

(** ** What the read routes show of a record *)

Lemma rendered_public (now : datetime) (doc rec : pydict) :
  is_Some (doc !! "_id") ->
  render_record now doc = Ok rec -> public_record (jsonable_dict rec).
Proof.
  intros [i Hi] Hr.
  destruct (render_record_view _ _ _ Hr) as (Hid & Hpub & (c & _ & Hc) & (u & _ & Hu) & _).
  unfold public_record, jsonable_dict.
  rewrite !lookup_fmap, Hid, Hpub, Hi, Hc, Hu. simpl.
  split; [reflexivity|]. split; [by eexists|]. split; by eexists.
Qed.

(** A document without timestamps is rendered with the current time. *)
Lemma render_record_missing_stamps (now : datetime) (doc : pydict) i :
  doc !! "_id" = Some i ->
  doc !! "created_at" = None -> doc !! "updated_at" = None ->
  exists rec, render_record now doc = Ok rec /\
    rec !! "created_at" = Some (VStr (isoformat now)) /\
    rec !! "updated_at" = Some (VStr (isoformat now)).
Proof.
  intros Hi Hc Hu. eexists. split.
  - apply (render_record_stamped now doc i now now); [exact Hi| |].
    + by rewrite Hc.
    + by rewrite Hu.
  - split.
    + rewrite lookup_insert_ne by discriminate. apply lookup_insert_eq.
    + apply lookup_insert_eq.
Qed.

Lemma rendered_page_public (now : datetime) (f : pydict -> bool)
    (skip limit : Z) c (recs : list pydict) :
  for_each (render_record now) (page_of f skip limit c) = Ok recs ->
  Forall public_record (jsonable_dict <$> recs).
Proof.
  intros Hrecs. apply for_each_Forall2 in Hrecs.
  assert (Hids : Forall (fun doc => is_Some (doc !! "_id")) (page_of f skip limit c)).
  { apply Forall_forall. intros doc Hdoc.
    assert (Hin : doc ∈ documents c).
    { unfold page_of, apply_limit in Hdoc.
      destruct (limit =? 0)%Z; [|apply subseteq_take in Hdoc];
        apply subseteq_drop in Hdoc;
        rewrite merge_sort_Permutation in Hdoc;
        by apply filter_elem_of in Hdoc as [? _]. }
    destruct (documents_have_id _ _ Hin) as [i ->]. eauto. }
  induction Hrecs as [|doc rec page recs Hr _ IH]; [constructor|].
  apply Forall_cons in Hids as [Hid Hids]. rewrite fmap_cons.
  constructor; [|by apply IH]. by apply (rendered_public now doc).
Qed.

(** The read routes: every record of a successful answer of list, search
    and get is in public form. *)
Lemma read_routes_public_records (r : resource) (now : datetime)
    (s s' : option Database) (resp : response) :
  (exists skip limit, route_list r skip limit now s = (Ok resp, s')) \/
  (exists q skip limit, route_search r q skip limit now s = (Ok resp, s')) \/
  (exists id, route_get r id now s = (Ok resp, s')) ->
  Forall public_record (response_records resp).
Proof.
  intros [(skip & limit & Hrun) | [(q & skip & limit & Hrun) | (id & Hrun)]].
  - unfold route_list in Hrun.
    destruct (query_skip skip) as [sk|] eqn:Hsk; [|discriminate].
    destruct (query_limit limit) as [li|]; [|discriminate].
    destruct s as [d|]; [|discriminate].
    assert (Hpos : (0 <= sk)%Z).
    { destruct skip as [n|]; simpl in Hsk.
      - destruct (Z.leb_spec 0 n); [|discriminate]. injection Hsk as <-. lia.
      - injection Hsk as <-. lia. }
    unfold encoded in Hrun. rewrite (list_documents_run _ _ _ _ _ Hpos) in Hrun.
    destruct (for_each _ _) as [e|recs] eqn:Hrecs; [discriminate|].
    injection Hrun as <- _. simpl.
    exact (rendered_page_public _ _ _ _ _ _ Hrecs).
  - unfold route_search in Hrun.
    destruct (query_q q) as [q'|]; [|discriminate].
    destruct (query_skip skip) as [sk|] eqn:Hsk; [|discriminate].
    destruct (query_limit limit) as [li|]; [|discriminate].
    destruct s as [d|]; [|discriminate].
    assert (Hpos : (0 <= sk)%Z).
    { destruct skip as [n|]; simpl in Hsk.
      - destruct (Z.leb_spec 0 n); [|discriminate]. injection Hsk as <-. lia.
      - injection Hsk as <-. lia. }
    unfold encoded in Hrun.
    destruct (compile_query (search_filter r q')) as [f|] eqn:Hf.
    + rewrite (search_documents_run _ _ _ _ _ _ f Hpos Hf) in Hrun.
      destruct (for_each _ _) as [e|recs] eqn:Hrecs; [discriminate|].
      injection Hrun as <- _. simpl.
      exact (rendered_page_public _ _ _ _ _ _ Hrecs).
    + exfalso. revert Hrun.
      unfold search_documents, try_except_Exception, bind, require_db,
        db_is_None, count_documents, with_store, ret, raise.
      cbv zeta. rewrite Hf. discriminate.
  - unfold route_get, encoded in Hrun.
    destruct s as [d|]; [|discriminate].
    rewrite get_document_run in Hrun.
    destruct (collection r d !! id) as [fields|]; [|discriminate].
    destruct (render_record now _) as [[h|c m]|rec] eqn:Hrec; try discriminate.
    injection Hrun as <- _. simpl. constructor; [|constructor].
    apply (rendered_public now (<["_id" := VStr id]> fields) rec);
      [|exact Hrec].
    rewrite lookup_insert_eq. eauto.
Qed.

(** C3. When the admin check fails, each mutating route of each resource
    answers with that failure, a 401 or a 403, and leaves the whole store
    state as it was, the log of store calls included: no insert, find,
    update, delete or count has run. *)
Theorem auth_failure_short_circuits (r : resource) (request : Request)
    (e : HTTPException) (s : option Database) :
  verify_admin request = Err e ->
  (status_code e = 401%Z \/ status_code e = 403%Z) /\
  (forall body uuid4 now,
     route_create r request body uuid4 now s = (Err e, s)) /\
  (forall id body now,
     route_update r request id body now s = (Err e, s)) /\
  (forall id, route_delete r request id s = (Err e, s)).
Proof.
  intros Hauth. split; [exact (verify_admin_Err_status _ _ Hauth)|].
  unfold route_create, route_update, route_delete.
  rewrite Hauth. repeat split.
Qed.

(** C8. For an admin request: deleting an identifier that the collection
    does not hold fails with 404 and leaves every collection as it was;
    deleting one it holds succeeds and removes that document, after which
    reading the same identifier fails with 404 and deleting it again fails
    with 404 too, without changing any collection. *)
Theorem delete_contract (r : resource) (request : Request) (claims : pydict)
    (id : string) (d : Database) :
  verify_admin request = Ok claims ->
  (collection r d !! id = None ->
   exists d',
     route_delete r request id (Some d) =
       (Err (mk_HTTPException 404 (singular r +:+ " not found")), Some d') /\
     forall r', collection r' d' = collection r' d) /\
  (forall fields, collection r d !! id = Some fields ->
   exists d',
     route_delete r request id (Some d) =
       (Ok (MessageResponse true (singular r +:+ " deleted successfully")),
        Some d') /\
     collection r d' = delete id (collection r d) /\
     (forall r', r' <> r -> collection r' d' = collection r' d) /\
     (forall now, exists d'',
        route_get r id now (Some d') =
          (Err (mk_HTTPException 404 (singular r +:+ " not found")),
           Some d'')) /\
     (exists d'',
        route_delete r request id (Some d') =
          (Err (mk_HTTPException 404 (singular r +:+ " not found")),
           Some d'') /\
        forall r', collection r' d'' = collection r' d')).
Proof.
  intros Hauth. split.
  - intros Hnone. eexists. split.
    + rewrite (route_delete_run _ _ _ _ _ Hauth), Hnone. reflexivity.
    + intros r'. apply collection_log_op.
  - intros fields Hsome.
    set (d' := set_collection r (delete id (collection r d))
                 (log_op r DeleteOne d)).
    assert (Hgone : collection r d' !! id = None).
    { unfold d'. rewrite collection_set_collection. apply lookup_delete_eq. }
    exists d'. split; [|split; [|split; [|split]]].
    + rewrite (route_delete_run _ _ _ _ _ Hauth), Hsome. reflexivity.
    + apply collection_set_collection.
    + intros r' Hne. unfold d'.
      rewrite collection_set_collection_ne by exact Hne.
      apply collection_log_op.
    + intros now. eexists. apply route_get_missing. exact Hgone.
    + eexists. split.
      * rewrite (route_delete_run _ _ _ _ _ Hauth), Hgone. reflexivity.
      * intros r'. apply collection_log_op.
Qed.

(** C10. The update route validates its body against the whole model of
    the resource: a body without a title, or with a title that is empty or
    longer than 255 characters, is refused with no change of state (a
    validation error when the request is an admin's, the failure of the
    admin check otherwise); and whenever the body validates, the title is
    among the fields the update sets. *)
Theorem update_validates_full_model (r : resource) (request : Request)
    (id : string) (body : pydict) (now : datetime) (s : option Database) :
  (body !! "title" = None \/
   (exists t, body !! "title" = Some (VStr t) /\
      (t = "" \/ (255 < Z.of_nat (String.length t))%Z)) ->
   parse_model (model_of r) body = None /\
   (exists e, route_update r request id body now s = (Err e, s)) /\
   (forall claims, verify_admin request = Ok claims ->
      route_update r request id body now s = (Err RequestValidationError, s)))
  /\
  (forall payload, parse_model (model_of r) body = Some payload ->
     "title" ∈ fields_set payload /\
     exists t, values payload !! "title" = Some (VStr t) /\
       (1 <= Z.of_nat (String.length t) <= 255)%Z).
Proof.
  split.
  - intros Hbad. pose proof (bad_title_invalid r body Hbad) as Hp.
    split; [exact Hp|]. unfold route_update. rewrite Hp. split.
    + destruct (verify_admin request) as [e|claims]; eexists; reflexivity.
    + intros claims ->. reflexivity.
  - intros payload Hp.
    destruct (parsed_title r body payload Hp) as (Hset & t & Hv & _ & Hlen).
    split; [exact Hset|]. exists t. auto.
Qed.

(** C4, the create route. Every successful create response carries the
    identifier under the storage name [_id], next to the public [id]. *)
Theorem create_response_exposes_storage_id (r : resource) (request : Request)
    (body : pydict) (uuid4 : string) (now : datetime)
    (s s' : option Database) (resp : response) :
  route_create r request body uuid4 now s = (Ok resp, s') ->
  exists message data,
    resp = CreateResponse true message data /\
    response_records resp = [data] /\
    data !! "_id" = Some (VStr uuid4) /\
    data !! "id" = Some (VStr uuid4).
Proof.
  unfold route_create.
  destruct (verify_admin request) as [e|claims] eqn:Hauth; [discriminate|].
  destruct (parse_model (model_of r) body) as [payload|] eqn:Hp;
    [|discriminate].
  destruct s as [d|]; [|discriminate].
  intros Hrun.
  pose proof (route_create_run r request claims body payload uuid4 now d
                Hauth Hp) as Heq.
  unfold route_create in Heq. rewrite Hauth, Hp in Heq. rewrite Heq in Hrun.
  destruct (collection r d !! uuid4); [discriminate|].
  injection Hrun as <- _.
  eexists _, _. split; [reflexivity|]. split; [reflexivity|].
  unfold jsonable_dict. rewrite !lookup_fmap.
  assert (Hid : new_document payload uuid4 now !! "_id" = Some (VStr uuid4)).
  { unfold new_document. rewrite !lookup_insert_ne by discriminate.
    apply lookup_insert_eq. }
  assert (Hnone : new_document payload uuid4 now !! "id" = None).
  { unfold new_document, dict. rewrite !lookup_insert_ne by discriminate.
    apply (values_not_reserved r body payload _ Hp).
    unfold reserved_keys. rewrite !elem_of_cons. auto. }
  split.
  - rewrite (lookup_union_Some_l _ _ _ _ Hid). reflexivity.
  - rewrite lookup_union_r by exact Hnone. rewrite lookup_singleton_eq.
    reflexivity.
Qed.

(** A field of the model that the body gives is stored as given. *)
Lemma submitted_value (r : resource) (body : pydict) (payload : model)
    (k : string) (v : value) :
  parse_model (model_of r) body = Some payload ->
  k ∈ field_names (model_of r) -> body !! k = Some v ->
  values payload !! k = Some v /\ jsonable_value v = v /\ k ∉ reserved_keys.
Proof.
  intros Hp Hk Hb.
  assert (Hset : k ∈ fields_set payload).
  { apply (parse_model_fields_set _ _ _ Hp). split; [exact Hk|]. by rewrite Hb. }
  assert (Hv : values payload !! k = Some v)
    by (rewrite (parse_model_values_set _ _ _ Hp _ Hset); exact Hb).
  split; [exact Hv|]. split.
  - exact (parse_model_values_plain _ _ _ Hp _ _ Hv).
  - exact (field_names_not_reserved r k Hk).
Qed.

Lemma stored_field (payload : model) (uuid4 : string) (now : datetime)
    (k : string) :
  k ∉ reserved_keys ->
  delete "_id" (new_document payload uuid4 now) !! k = values payload !! k.
Proof.
  intros Hk. pose proof Hk as Hk'. unfold reserved_keys in Hk'.
  rewrite !not_elem_of_cons in Hk'. destruct Hk' as (? & _).
  rewrite lookup_delete_ne by done. by apply new_document_field.
Qed.

(** C7, amended. For an admin request whose body validates against the
    model of the resource: when the generated identifier is not yet in
    the collection, create stores one new document under it, with both
    timestamps equal to the current time cut to whole milliseconds (the
    precision of the store: not later than the current time and less
    than a millisecond before it) and every field of the model as
    validated; it answers with the document it built, which carries the
    [id], every stored field of the model, and both timestamps as the
    current time itself, microseconds included; and a following read of
    the identifier returns every submitted field as submitted, with the
    stored timestamps (a generated identifier that is already taken
    makes the store refuse the insertion, so a success always had a
    fresh one). The stored timestamps are the ones of the answer exactly
    when the current time has whole milliseconds. A body that breaks a
    bound of a field, an empty or over-long title for instance, is
    refused with a validation error and the state is unchanged. *)
Theorem create_contract (r : resource) (request : Request) (claims : pydict)
    (body : pydict) (uuid4 : string) (now : datetime) (d : Database) :
  verify_admin request = Ok claims ->
  (forall payload, parse_model (model_of r) body = Some payload ->
     (collection r d !! uuid4 = None ->
      exists data stored d',
        route_create r request body uuid4 now (Some d) =
          (Ok (CreateResponse true (singular r +:+ " created successfully")
                 data), Some d') /\
        collection r d' = <[uuid4 := stored]> (collection r d) /\
        (forall r', r' <> r -> collection r' d' = collection r' d) /\
        stored !! "created_at" = Some (VDatetime (bson_datetime now)) /\
        stored !! "updated_at" = Some (VDatetime (bson_datetime now)) /\
        (datetime_ord now - 1000 < datetime_ord (bson_datetime now)
           <= datetime_ord now)%Z /\
        (stored !! "created_at" = Some (VDatetime now) <->
           (microsecond now mod 1000 = 0)%Z) /\
        (forall k, k ∈ field_names (model_of r) ->
           stored !! k = values payload !! k) /\
        (forall k v, k ∈ field_names (model_of r) -> body !! k = Some v ->
           stored !! k = Some v) /\
        data !! "id" = Some (VStr uuid4) /\
        data !! "created_at" = Some (VStr (isoformat now)) /\
        data !! "updated_at" = Some (VStr (isoformat now)) /\
        (forall k v, k <> "created_at" -> k <> "updated_at" ->
           stored !! k = Some v -> data !! k = Some (jsonable_value v)) /\
        (forall now', exists rec d'',
           route_get r uuid4 now' (Some d') =
             (Ok (GetResponse true rec), Some d'') /\
           rec !! "id" = Some (VStr uuid4) /\
           rec !! "created_at" = Some (VStr (isoformat (bson_datetime now))) /\
           rec !! "updated_at" = Some (VStr (isoformat (bson_datetime now))) /\
           (forall k v, k ∈ field_names (model_of r) -> body !! k = Some v ->
              rec !! k = Some v))) /\
     (is_Some (collection r d !! uuid4) ->
      exists e d',
        route_create r request body uuid4 now (Some d) = (Err e, Some d') /\
        status_code e = 500%Z /\
        forall r', collection r' d' = collection r' d)) /\
  (parse_model (model_of r) body = None ->
   route_create r request body uuid4 now (Some d) =
     (Err RequestValidationError, Some d)) /\
  (forall name t v, (name, t) ∈ model_of r -> body !! name = Some v ->
     validate_field t v = None -> parse_model (model_of r) body = None) /\
  (forall t, body !! "title" = Some (VStr t) ->
     t = "" \/ (255 < Z.of_nat (String.length t))%Z ->
     parse_model (model_of r) body = None).
Proof.
  intros Hauth. split; [|split; [|split]].
  - intros payload Hp. split.
    + intros Hfresh.
      set (stored := delete "_id"
                       (new_document payload uuid4 (bson_datetime now))).
      set (d' := set_collection r (<[uuid4 := stored]> (collection r d))
                   (log_op r InsertOne d)).
      exists (jsonable_dict
                (new_document payload uuid4 now ∪ {["id" := VStr uuid4]})),
        stored, d'.
      assert (Hfield : forall k, k ∈ field_names (model_of r) ->
                stored !! k = values payload !! k).
      { intros k Hk. apply stored_field.
        exact (field_names_not_reserved r k Hk). }
      assert (Hcreated : stored !! "created_at"
                         = Some (VDatetime (bson_datetime now))).
      { unfold stored, new_document. rewrite lookup_delete_ne by discriminate.
        rewrite lookup_insert_ne by discriminate. apply lookup_insert_eq. }
      repeat apply conj.
      * rewrite (route_create_run _ _ _ _ _ _ _ _ Hauth Hp), Hfresh.
        reflexivity.
      * apply collection_set_collection.
      * intros r' Hne. unfold d'.
        rewrite collection_set_collection_ne by exact Hne.
        apply collection_log_op.
      * exact Hcreated.
      * unfold stored, new_document. rewrite lookup_delete_ne by discriminate.
        apply lookup_insert_eq.
      * apply bson_datetime_ord.
      * apply bson_datetime_ord.
      * rewrite Hcreated. intros [= Heq]. by apply bson_datetime_whole.
      * intros Hwhole. rewrite Hcreated.
        by rewrite (proj2 (bson_datetime_whole now) Hwhole).
      * exact Hfield.
      * intros k v Hk Hb. rewrite (Hfield k Hk).
        exact (proj1 (submitted_value _ _ _ _ _ Hp Hk Hb)).
      * unfold jsonable_dict. rewrite lookup_fmap.
        rewrite lookup_union_r.
        -- by rewrite lookup_singleton_eq.
        -- unfold new_document, dict.
           rewrite !lookup_insert_ne by discriminate.
           apply (values_not_reserved r body payload _ Hp).
           unfold reserved_keys. rewrite !elem_of_cons. auto.
      * unfold jsonable_dict. rewrite lookup_fmap.
        rewrite (lookup_union_Some_l _ _ _ (VDatetime now)); [reflexivity|].
        unfold new_document. rewrite lookup_insert_ne by discriminate.
        apply lookup_insert_eq.
      * unfold jsonable_dict. rewrite lookup_fmap.
        rewrite (lookup_union_Some_l _ _ _ (VDatetime now)); [reflexivity|].
        unfold new_document. apply lookup_insert_eq.
      * intros k v Hc Hu Hs. unfold stored in Hs.
        apply lookup_delete_Some in Hs as [_ Hs].
        unfold jsonable_dict. rewrite lookup_fmap.
        rewrite (lookup_union_Some_l _ _ _ v); [reflexivity|].
        unfold new_document in *.
        rewrite !lookup_insert_ne in Hs by done.
        by rewrite !lookup_insert_ne by done.
      * intros now'. eexists _, _. split.
        -- apply (get_created r payload uuid4 (bson_datetime now) now').
           unfold d'. rewrite collection_set_collection.
           apply lookup_insert_eq.
        -- unfold jsonable_dict. rewrite !lookup_fmap.
           split; [|split; [|split]].
           ++ rewrite !lookup_insert_ne by discriminate.
              by rewrite lookup_insert_eq.
           ++ rewrite lookup_insert_ne by discriminate.
              by rewrite lookup_insert_eq.
           ++ by rewrite lookup_insert_eq.
           ++ intros k v Hk Hb.
              destruct (submitted_value _ _ _ _ _ Hp Hk Hb) as (Hv & Hpl & Hres).
              pose proof Hres as Hres'. unfold reserved_keys in Hres'.
              rewrite !not_elem_of_cons in Hres'.
              destruct Hres' as (? & ? & ? & ? & _).
              rewrite lookup_fmap, !lookup_insert_ne by done.
              rewrite (stored_field payload uuid4 (bson_datetime now) k Hres), Hv.
              simpl. by rewrite Hpl.
    + intros [old Hold]. eexists _, _. split; [|split].
      * rewrite (route_create_run _ _ _ _ _ _ _ _ Hauth Hp), Hold.
        reflexivity.
      * reflexivity.
      * intros r'. apply collection_log_op.
  - intros Hp. unfold route_create. rewrite Hauth, Hp. reflexivity.
  - intros name t v. apply parse_model_invalid.
  - intros t Hb Hbad. apply bad_title_invalid. right. eauto.
Qed.

(** C5, amended. For an admin request whose body validates, update of an
    identifier the collection holds changes that document only: each
    field of the model that the body gives takes the body's value,
    [updated_at] becomes the current time cut to whole milliseconds (the
    precision of the store: not later than the current time and less
    than a millisecond before it), every other field ([created_at] among
    them) keeps its value, the document stays under the same identifier
    and no other document or collection changes. The new [updated_at] is
    later than the previous one exactly when the current time, cut to
    milliseconds, is later than it: for a previous value with whole
    milliseconds, as the store keeps them, exactly when the current time
    is at least one millisecond after it. *)
Theorem update_frame (r : resource) (request : Request) (claims : pydict)
    (id : string) (body : pydict) (payload : model) (now : datetime)
    (d : Database) (old : pydict) :
  verify_admin request = Ok claims ->
  parse_model (model_of r) body = Some payload ->
  collection r d !! id = Some old ->
  exists new d',
    route_update r request id body now (Some d) =
      (Ok (MessageResponse true (singular r +:+ " updated successfully")),
       Some d') /\
    collection r d' !! id = Some new /\
    (forall id', id' <> id -> collection r d' !! id' = collection r d !! id') /\
    (forall r', r' <> r -> collection r' d' = collection r' d) /\
    (forall k, k ∈ field_names (model_of r) -> is_Some (body !! k) ->
       new !! k = body !! k) /\
    new !! "updated_at" = Some (VDatetime (bson_datetime now)) /\
    (datetime_ord now - 1000 < datetime_ord (bson_datetime now)
       <= datetime_ord now)%Z /\
    (forall k, ~ (k ∈ field_names (model_of r) /\ is_Some (body !! k)) ->
       k <> "updated_at" -> new !! k = old !! k) /\
    new !! "created_at" = old !! "created_at" /\
    (forall t, old !! "updated_at" = Some (VDatetime t) ->
       ((datetime_ord t < datetime_ord (bson_datetime now))%Z <->
        exists t', new !! "updated_at" = Some (VDatetime t') /\
                   (datetime_ord t < datetime_ord t')%Z)) /\
    (forall t, old !! "updated_at" = Some (VDatetime t) ->
       (microsecond t mod 1000 = 0)%Z ->
       ((datetime_ord t + 1000 <= datetime_ord now)%Z <->
        exists t', new !! "updated_at" = Some (VDatetime t') /\
                   (datetime_ord t < datetime_ord t')%Z)).
Proof.
  intros Hauth Hp Hold.
  set (new := update_data_of payload (bson_datetime now) ∪ old).
  set (d' := set_collection r
               (alter (fun fields =>
                         update_data_of payload (bson_datetime now) ∪ fields)
                  id (collection r d))
               (log_op r UpdateOne (log_op r FindOne d))).
  assert (Hstamp : new !! "updated_at" = Some (VDatetime (bson_datetime now))).
  { unfold new, update_data_of.
    apply lookup_union_Some_l, lookup_insert_eq. }
  assert (Hframe : forall k,
    ~ (k ∈ field_names (model_of r) /\ is_Some (body !! k)) ->
    k <> "updated_at" -> new !! k = old !! k).
  { intros k Hout Hk. unfold new, update_data_of.
    apply lookup_union_r. rewrite lookup_insert_ne by done.
    rewrite (dict_exclude_unset_lookup _ _ _ k Hp).
    destruct (decide _); [contradiction|reflexivity]. }
  exists new, d'. repeat apply conj.
  - rewrite (route_update_run _ _ _ _ _ _ _ _ Hauth Hp), Hold. reflexivity.
  - unfold d'. rewrite collection_set_collection, lookup_alter_eq, Hold.
    reflexivity.
  - intros id' Hne. unfold d'.
    rewrite collection_set_collection, lookup_alter_ne by done. reflexivity.
  - intros r' Hne. unfold d'.
    rewrite collection_set_collection_ne by exact Hne.
    rewrite !collection_log_op. reflexivity.
  - intros k Hk [v Hb]. unfold new, update_data_of.
    assert (Hne : "updated_at" <> k).
    { intros <-. apply (field_names_not_reserved r _ Hk).
      unfold reserved_keys. rewrite !elem_of_cons. auto. }
    rewrite Hb. apply lookup_union_Some_l.
    rewrite lookup_insert_ne by exact Hne.
    rewrite (dict_exclude_unset_lookup _ _ _ k Hp).
    destruct (decide _) as [_|Hout]; [exact Hb|].
    exfalso. apply Hout. split; [exact Hk|]. by rewrite Hb.
  - exact Hstamp.
  - apply bson_datetime_ord.
  - apply bson_datetime_ord.
  - exact Hframe.
  - apply Hframe; [|discriminate]. intros [Hk _].
    apply (field_names_not_reserved r _ Hk).
    unfold reserved_keys. rewrite !elem_of_cons. auto.
  - intros t Ht. rewrite Hstamp. split.
    + intros Hlt. exists (bson_datetime now). auto.
    + intros (t' & [= <-] & Hlt). exact Hlt.
  - intros t Ht Hwhole. rewrite Hstamp.
    pose proof (bson_datetime_later t now Hwhole) as Hiff. split.
    + intros Hlt. exists (bson_datetime now). split; [reflexivity|].
      by apply Hiff.
    + intros (t' & [= <-] & Hlt). by apply Hiff.
Qed.

(** C9. For every resource: with [skip >= 0] and [limit] within
    [1 .. MAX_PAGE_SIZE], on a store whose documents have well-formed
    timestamps, list answers with the number of documents of the whole
    collection as [total], with the page obtained by sorting all the
    documents by [created_at] descending, skipping [skip] and keeping at
    most [limit], each rendered in that order, and with the echo of
    [skip] and [limit] and the number of records returned, which is at
    most [limit] and at most [total]. Descending is meant field by field
    on the dates: in the sorted listing and in the page, a document that
    comes later was not created after one that comes before it, and
    undated documents come last; and when no two documents have the same
    creation date, the page is the window [skip, skip + limit) of any
    newest-first listing of the collection, whatever produced it. A
    negative [skip] or a [limit] outside the bounds is refused with a
    validation error before the store is reached; and when the database
    handle is unset the answer is a 500. *)
Theorem list_contract (r : resource) (now : datetime) :
  (forall skip limit d,
     (0 <= skip)%Z -> (1 <= limit <= MAX_PAGE_SIZE)%Z ->
     forallb well_stamped (documents (collection r d)) = true ->
     exists page recs d',
       route_list r (Some skip) (Some limit) now (Some d) =
         (Ok (ListResponse true (jsonable_dict <$> recs)
                (mk_Pagination (Z.of_nat (size (collection r d))) skip limit
                   (Z.of_nat (length (jsonable_dict <$> recs))))),
          Some d') /\
       page = take (Z.to_nat limit)
                (drop (Z.to_nat skip)
                   (merge_sort created_desc (documents (collection r d)))) /\
       merge_sort created_desc (documents (collection r d))
         ≡ₚ documents (collection r d) /\
       StronglySorted created_desc
         (merge_sort created_desc (documents (collection r d))) /\
       StronglySorted created_desc page /\
       (forallb dated_valid (documents (collection r d)) = true ->
        newest_first (merge_sort created_desc (documents (collection r d))) /\
        newest_first page /\
        (NoDup (created_key <$> documents (collection r d)) ->
         forall listing,
           listing ≡ₚ documents (collection r d) -> newest_first listing ->
           page = take (Z.to_nat limit) (drop (Z.to_nat skip) listing))) /\
       Forall2 (fun doc rec => render_record now doc = Ok rec) page recs /\
       (Z.of_nat (length (jsonable_dict <$> recs)) <= limit)%Z /\
       (Z.of_nat (length (jsonable_dict <$> recs))
          <= Z.of_nat (size (collection r d)))%Z /\
       (forall r', collection r' d' = collection r' d)) /\
  (forall skip limit s,
     (skip < 0)%Z \/ (limit < 1)%Z \/ (MAX_PAGE_SIZE < limit)%Z ->
     route_list r (Some skip) (Some limit) now s =
       (Err RequestValidationError, s)) /\
  (forall skip limit,
     (0 <= skip)%Z -> (1 <= limit <= MAX_PAGE_SIZE)%Z ->
     exists e,
       route_list r (Some skip) (Some limit) now None = (Err e, None) /\
       status_code e = 500%Z).
Proof.
  split; [|split].
  - intros skip limit d Hskip Hlimit Hwf.
    assert (Hl : (1 <= limit)%Z) by lia.
    destruct (render_page now (fun _ => true) skip limit (collection r d) Hl
                (forallb_elem_of _ _ Hwf)) as [recs Hrecs].
    pose proof (page_of_sorted (fun _ => true) skip limit (collection r d) Hl)
      as Hsorted.
    pose proof (page_of_length (fun _ => true) skip limit (collection r d) Hl)
      as [Hlen1 Hlen2].
    pose proof (proj1 (for_each_Forall2 _ _ _) Hrecs) as Hall.
    pose proof (Forall2_length _ _ _ Hall) as Hlen.
    rewrite page_of_take, filter_all in Hsorted, Hall, Hlen by exact Hl.
    rewrite page_of_take in Hlen1, Hlen2 by exact Hl.
    rewrite filter_all in Hlen1, Hlen2. rewrite length_documents in Hlen2.
    eexists _, recs, _. repeat apply conj.
    + unfold route_list, encoded.
      rewrite (query_skip_Some _ Hskip), (query_limit_Some _ Hlimit).
      rewrite (list_documents_run _ _ _ _ _ Hskip), Hrecs. cbn.
      rewrite length_fmap. reflexivity.
    + reflexivity.
    + apply merge_sort_Permutation.
    + apply StronglySorted_merge_sort; apply _.
    + exact Hsorted.
    + intros Hvalid.
      destruct (page_of_newest_first (fun _ => true) skip limit
                  (collection r d) Hl Hvalid) as [Hn1 Hn2].
      rewrite filter_all in Hn1. rewrite page_of_take, filter_all in Hn2
        by exact Hl.
      split; [exact Hn1|]. split; [exact Hn2|].
      intros Hnd listing Hperm Hnf.
      rewrite <- (page_of_listing (fun _ => true) skip limit _ listing
                    Hl Hvalid Hnd).
      * by rewrite page_of_take, filter_all.
      * by rewrite filter_all.
      * exact Hnf.
    + exact Hall.
    + rewrite length_fmap, <- Hlen. exact Hlen1.
    + rewrite length_fmap, <- Hlen. lia.
    + intros r'. by rewrite !collection_log_op.
  - intros skip limit s Hbad. unfold route_list. simpl.
    destruct (Z.leb_spec 0 skip); [|reflexivity].
    destruct (Z.leb_spec 1 limit); simpl; [|reflexivity].
    destruct (Z.leb_spec limit MAX_PAGE_SIZE); [lia|reflexivity].
  - intros skip limit Hskip Hlimit. eexists. split.
    + unfold route_list.
      rewrite (query_skip_Some _ Hskip), (query_limit_Some _ Hlimit).
      reflexivity.
    + reflexivity.
Qed.

(** C6, amended. For every resource and every non-empty query without
    regular-expression operators, on an engine that reads such a pattern
    as a case-insensitive substring test and on a store of well-formed
    documents: search answers with, as [total], the number of documents
    in which the query is a case-insensitive substring of a configured
    text field or an exact element of a configured array field, and with
    the page (sorted by [created_at] descending, skipped and limited) of
    exactly those documents, rendered in order; when no document
    matches, [total] is 0 and the data is empty. *)
Theorem search_contract_literal (r : resource) (q : string) (skip limit : Z)
    (now : datetime) (d : Database) :
  (forall p, no_meta p = true ->
     exists m, regex_compile_i p = Some m /\ forall s, m s = ci_contains p s) ->
  q <> "" -> no_meta q = true ->
  (0 <= skip)%Z -> (1 <= limit <= MAX_PAGE_SIZE)%Z ->
  forallb (well_formed r) (documents (collection r d)) = true ->
  exists page recs d',
    route_search r (Some q) (Some skip) (Some limit) now (Some d) =
      (Ok (SearchResponse true q (jsonable_dict <$> recs)
             (mk_Pagination
                (Z.of_nat (length (List.filter (spec_matches r q)
                                     (documents (collection r d)))))
                skip limit (Z.of_nat (length (jsonable_dict <$> recs))))),
       Some d') /\
    page = take (Z.to_nat limit)
             (drop (Z.to_nat skip)
                (merge_sort created_desc
                   (List.filter (spec_matches r q)
                      (documents (collection r d))))) /\
    Forall2 (fun doc rec => render_record now doc = Ok rec) page recs /\
    (forall doc, doc ∈ page ->
       doc ∈ documents (collection r d) /\ spec_matches r q doc = true) /\
    (forall doc, doc ∈ documents (collection r d) ->
       spec_matches r q doc = true ->
       doc ∈ merge_sort created_desc
               (List.filter (spec_matches r q) (documents (collection r d)))) /\
    ((forall doc, doc ∈ documents (collection r d) ->
        spec_matches r q doc = false) ->
     List.filter (spec_matches r q) (documents (collection r d)) = [] /\
     recs = []).
Proof.
  intros Hengine Hne Hq Hskip Hlimit Hwf.
  assert (Hl : (1 <= limit)%Z) by lia.
  destruct (search_filter_literal r q Hengine Hq) as (f & Hf & Hspec).
  assert (Hdocs : forall doc, doc ∈ documents (collection r d) ->
            well_stamped doc = true /\ f doc = spec_matches r q doc).
  { intros doc Hdoc. pose proof (forallb_elem_of _ _ Hwf doc Hdoc) as Hw.
    unfold well_formed in Hw. apply andb_true_iff in Hw as [Hw Ht].
    split; [exact Hw|]. by apply Hspec. }
  assert (Hfilter : List.filter f (documents (collection r d))
                    = List.filter (spec_matches r q) (documents (collection r d))).
  { apply filter_ext_in. intros doc Hdoc.
    apply Hdocs. by apply list_elem_of_In. }
  destruct (render_page now f skip limit (collection r d) Hl
              (fun doc Hdoc => proj1 (Hdocs doc Hdoc))) as [recs Hrecs].
  pose proof (proj1 (for_each_Forall2 _ _ _) Hrecs) as Hall.
  assert (Hpage : page_of f skip limit (collection r d)
                  = take (Z.to_nat limit)
                      (drop (Z.to_nat skip)
                         (merge_sort created_desc
                            (List.filter (spec_matches r q)
                               (documents (collection r d)))))).
  { rewrite page_of_take by exact Hl. by rewrite Hfilter. }
  eexists _, recs, _. repeat apply conj.
  - unfold route_search, encoded.
    rewrite (query_q_Some _ Hne), (query_skip_Some _ Hskip),
      (query_limit_Some _ Hlimit).
    rewrite (search_documents_run _ _ _ _ _ _ f Hskip Hf), Hrecs. cbn.
    rewrite length_fmap, Hfilter. reflexivity.
  - reflexivity.
  - by rewrite <- Hpage.
  - intros doc Hdoc. rewrite <- Hpage in Hdoc.
    apply page_of_elem_of in Hdoc as [Hdoc Hfd]; [|exact Hl].
    split; [exact Hdoc|]. by rewrite <- (proj2 (Hdocs doc Hdoc)).
  - intros doc Hdoc Hm. rewrite merge_sort_Permutation.
    by apply filter_elem_of.
  - intros Hnone.
    assert (Hempty : List.filter (spec_matches r q)
                       (documents (collection r d)) = []).
    { apply elem_of_nil_inv. intros doc Hdoc.
      apply filter_elem_of in Hdoc as [Hdoc Hm].
      rewrite (Hnone doc Hdoc) in Hm. discriminate. }
    split; [exact Hempty|].
    rewrite Hpage, Hempty in Hall.
    change (merge_sort created_desc []) with (@nil pydict) in Hall.
    rewrite drop_nil, take_nil in Hall. by inversion Hall.
Qed.

(** * Further properties of the gate and of the routers *)

(** ** The outcomes of each route *)

Lemma collection_kept_refl (r : resource) (s : option Database) :
  collection_kept r s s.
Proof. destruct s; simpl; auto. Qed.

Lemma collection_kept_log (r r' : resource) (o : store_op) (d : Database) :
  collection_kept r' (Some d) (Some (log_op r o d)).
Proof. simpl. apply collection_log_op. Qed.

Lemma query_skip_nonneg (skip : option Z) (sk : Z) :
  query_skip skip = Some sk -> (0 <= sk)%Z.
Proof.
  destruct skip as [n|]; simpl.
  - destruct (Z.leb_spec 0 n); [|discriminate]. intros [= <-]. lia.
  - intros [= <-]. lia.
Qed.

Lemma search_documents_compile_fail (r : resource) (q : string)
    (skip limit : Z) (now : datetime) (d : Database) :
  compile_query (search_filter r q) = None ->
  search_documents r q skip limit now (Some d) =
    (Err (mk_HTTPException 500 (exn_str OperationFailure)),
     Some (log_op r CountDocuments d)).
Proof.
  intros Hf.
  unfold search_documents, try_except_Exception, bind, require_db,
    db_is_None, count_documents, with_store, ret, raise.
  cbv zeta. rewrite Hf. reflexivity.
Qed.

(** The message of the 500 that list, search and create give when the
    handle is unset: [str(e)] of the [HTTPException] raised inside the
    [try]. *)
Lemma list_documents_None (r : resource) (skip limit : Z) (now : datetime) :
  list_documents r skip limit now None =
    (Err (mk_HTTPException 500
            (exn_str (HTTPExc (mk_HTTPException 500 "Database not connected")))),
     None).
Proof. reflexivity. Qed.

Lemma search_documents_None (r : resource) (q : string) (skip limit : Z)
    (now : datetime) :
  search_documents r q skip limit now None =
    (Err (mk_HTTPException 500
            (exn_str (HTTPExc (mk_HTTPException 500 "Database not connected")))),
     None).
Proof. reflexivity. Qed.

Lemma create_document_None (r : resource) (payload : model) (uuid4 : string)
    (now : datetime) :
  create_document r payload uuid4 now None =
    (Err (mk_HTTPException 500
            (exn_str (HTTPExc (mk_HTTPException 500 "Database not connected")))),
     None).
Proof. reflexivity. Qed.

Lemma get_document_None (r : resource) (id : string) (now : datetime) :
  get_document r id now None =
    (Err (mk_HTTPException 500 "Database not connected"), None).
Proof. reflexivity. Qed.

Lemma update_document_None (r : resource) (id : string) (payload : model)
    (now : datetime) :
  update_document r id payload now None =
    (Err (mk_HTTPException 500 "Database not connected"), None).
Proof. reflexivity. Qed.

Lemma delete_document_None (r : resource) (id : string) :
  delete_document r id None =
    (Err (mk_HTTPException 500 "Database not connected"), None).
Proof. reflexivity. Qed.

(** The three ways a create request ends: refused with the state as it
    was; refused by the store because the identifier is taken; or
    inserted. *)
Lemma route_create_cases (r : resource) (request : Request) (body : pydict)
    (uuid4 : string) (now : datetime) (s : option Database) :
  (exists e, route_create r request body uuid4 now s = (Err e, s) /\
     (status_code e = 401 \/ status_code e = 403 \/ status_code e = 422 \/
      status_code e = 500 /\ s = None)%Z) \/
  (exists d e, s = Some d /\ is_Some (collection r d !! uuid4) /\
     route_create r request body uuid4 now s =
       (Err e, Some (log_op r InsertOne d)) /\ status_code e = 500%Z) \/
  (exists d claims payload, s = Some d /\
     verify_admin request = Ok claims /\
     parse_model (model_of r) body = Some payload /\
     collection r d !! uuid4 = None /\
     route_create r request body uuid4 now s =
       (Ok (CreateResponse true (singular r +:+ " created successfully")
              (jsonable_dict
                 (new_document payload uuid4 now ∪ {["id" := VStr uuid4]}))),
        Some (set_collection r
                (<[uuid4 := delete "_id"
                              (new_document payload uuid4 (bson_datetime now))]>
                   (collection r d))
                (log_op r InsertOne d)))).
Proof.
  destruct (verify_admin request) as [e|claims] eqn:Hauth.
  { left. exists e. unfold route_create. rewrite Hauth. split; [reflexivity|].
    destruct (verify_admin_Err_status _ _ Hauth); auto. }
  destruct (parse_model (model_of r) body) as [payload|] eqn:Hp; cycle 1.
  { left. exists RequestValidationError. unfold route_create.
    rewrite Hauth, Hp. split; [reflexivity|]. simpl. auto. }
  destruct s as [d|]; cycle 1.
  { left. eexists. unfold route_create, encoded.
    rewrite Hauth, Hp, create_document_None. split; [reflexivity|].
    simpl. auto. }
  pose proof (route_create_run r request claims body payload uuid4 now d
                Hauth Hp) as Hrun.
  destruct (collection r d !! uuid4) as [old|] eqn:Hold.
  - right. left. eexists d, _. repeat split; eauto.
  - right. right. exists d, claims, payload. repeat split; auto.
Qed.

(** The ways an update request ends: refused with the state as it was;
    not found after one read of the store; or applied. *)
Lemma route_update_cases (r : resource) (request : Request) (id : string)
    (body : pydict) (now : datetime) (s : option Database) :
  (exists e, route_update r request id body now s = (Err e, s) /\
     (status_code e = 401 \/ status_code e = 403 \/ status_code e = 422 \/
      status_code e = 500 /\ s = None)%Z) \/
  (exists d, s = Some d /\ collection r d !! id = None /\
     route_update r request id body now s =
       (Err (mk_HTTPException 404 (singular r +:+ " not found")),
        Some (log_op r FindOne d))) \/
  (exists d claims payload old, s = Some d /\
     verify_admin request = Ok claims /\
     parse_model (model_of r) body = Some payload /\
     collection r d !! id = Some old /\
     route_update r request id body now s =
       (Ok (MessageResponse true (singular r +:+ " updated successfully")),
        Some (set_collection r
                (alter (fun fields =>
                          update_data_of payload (bson_datetime now) ∪ fields)
                   id (collection r d))
                (log_op r UpdateOne (log_op r FindOne d))))).
Proof.
  destruct (verify_admin request) as [e|claims] eqn:Hauth.
  { left. exists e. unfold route_update. rewrite Hauth. split; [reflexivity|].
    destruct (verify_admin_Err_status _ _ Hauth); auto. }
  destruct (parse_model (model_of r) body) as [payload|] eqn:Hp; cycle 1.
  { left. exists RequestValidationError. unfold route_update.
    rewrite Hauth, Hp. split; [reflexivity|]. simpl. auto. }
  destruct s as [d|]; cycle 1.
  { left. eexists. unfold route_update, encoded.
    rewrite Hauth, Hp, update_document_None. split; [reflexivity|].
    simpl. auto. }
  pose proof (route_update_run r request claims id body payload now d
                Hauth Hp) as Hrun.
  destruct (collection r d !! id) as [old|] eqn:Hold.
  - right. right. exists d, claims, payload, old. repeat split; auto.
  - right. left. exists d. repeat split; auto.
Qed.

(** The ways a delete request ends. *)
Lemma route_delete_cases (r : resource) (request : Request) (id : string)
    (s : option Database) :
  (exists e, route_delete r request id s = (Err e, s) /\
     (status_code e = 401 \/ status_code e = 403 \/
      status_code e = 500 /\ s = None)%Z) \/
  (exists d, s = Some d /\ collection r d !! id = None /\
     route_delete r request id s =
       (Err (mk_HTTPException 404 (singular r +:+ " not found")),
        Some (log_op r DeleteOne d))) \/
  (exists d old, s = Some d /\ collection r d !! id = Some old /\
     route_delete r request id s =
       (Ok (MessageResponse true (singular r +:+ " deleted successfully")),
        Some (set_collection r (delete id (collection r d))
                (log_op r DeleteOne d)))).
Proof.
  destruct (verify_admin request) as [e|claims] eqn:Hauth.
  { left. exists e. unfold route_delete. rewrite Hauth. split; [reflexivity|].
    destruct (verify_admin_Err_status _ _ Hauth); auto. }
  destruct s as [d|]; cycle 1.
  { left. eexists. unfold route_delete, encoded.
    rewrite Hauth, delete_document_None. split; [reflexivity|]. simpl. auto. }
  pose proof (route_delete_run r request claims id d Hauth) as Hrun.
  destruct (collection r d !! id) as [old|] eqn:Hold.
  - right. right. exists d, old. repeat split; auto.
  - right. left. exists d. repeat split; auto.
Qed.

(** The serialisation of a record only fails with a Python exception,
    never with an [HTTPException]. *)
Lemma value_isoformat_Err (v : value) (e : exn) :
  value_isoformat v = Err e -> exists c m, e = PyExc c m.
Proof.
  destruct v; simpl; intros H; try discriminate H; injection H as <-; eauto.
Qed.

Lemma render_record_Err (now : datetime) (doc : pydict) (e : exn) :
  render_record now doc = Err e -> exists c m, e = PyExc c m.
Proof.
  unfold render_record.
  destruct (doc !! "_id"); [|intros H; injection H as <-; eauto].
  destruct (value_isoformat (dict_get_default _ "created_at" _))
    as [x|x] eqn:H1.
  { intros H. injection H as <-. exact (value_isoformat_Err _ _ H1). }
  destruct (value_isoformat (dict_get_default _ "updated_at" _))
    as [y|y] eqn:H2; [|discriminate].
  intros H. injection H as <-. exact (value_isoformat_Err _ _ H2).
Qed.

(** ** The session check *)

(** X1. [verify_token] returns claims exactly for a request whose [token]
    cookie is not empty and decodes, and they are the decoded claims; all
    its failures are 401, whatever the claims say about [is_admin]. *)
Theorem verify_token_outcome (request : Request) :
  (forall claims,
     verify_token request = Ok claims <->
     exists token, cookies request !! "token" = Some token /\ token <> "" /\
       jwt_decode token JWT_SECRET_KEY [JWT_ALGORITHM] = Ok claims) /\
  (forall e, verify_token request = Err e ->
     e = Unauthenticated \/ e = InvalidToken) /\
  (forall e, verify_token request = Err e -> status_code e = 401%Z).
Proof.
  assert (Hcases :
    (token_truthy (cookies request !! "token") = false /\
     verify_token request = Err Unauthenticated) \/
    (exists token, cookies request !! "token" = Some token /\ token <> "" /\
       verify_token request =
         match jwt_decode token JWT_SECRET_KEY [JWT_ALGORITHM] with
         | Ok payload => Ok payload
         | Err _ => Err InvalidToken
         end)).
  { destruct (token_truthy (cookies request !! "token")) eqn:Htok.
    - right. destruct (token_truthy_Some _ Htok) as (t & Ht & Hne).
      exists t. split; [exact Ht|]. split; [exact Hne|].
      by apply verify_token_with_token.
    - left. split; [reflexivity|]. unfold verify_token. by rewrite Htok. }
  split; [|split].
  - intros claims. split.
    + intros Hok. destruct Hcases as [[_ Hv] | (t & Ht & Hne & Hv)].
      * rewrite Hv in Hok. discriminate.
      * rewrite Hv in Hok. exists t. split; [exact Ht|]. split; [exact Hne|].
        destruct (jwt_decode t JWT_SECRET_KEY [JWT_ALGORITHM]);
          [discriminate|]. by injection Hok as ->.
    + intros (t & Ht & Hne & Hd).
      rewrite (verify_token_with_token _ t Ht Hne), Hd. reflexivity.
  - intros e He. destruct Hcases as [[_ Hv] | (t & Ht & Hne & Hv)];
      rewrite Hv in He.
    + injection He as <-. by left.
    + destruct (jwt_decode t JWT_SECRET_KEY [JWT_ALGORITHM]);
        [|discriminate]. injection He as <-. by right.
  - intros e He. destruct Hcases as [[_ Hv] | (t & Ht & Hne & Hv)];
      rewrite Hv in He.
    + by injection He as <-.
    + destruct (jwt_decode t JWT_SECRET_KEY [JWT_ALGORITHM]);
        [|discriminate]. by injection He as <-.
Qed.

(** X2. [verify_admin] is [verify_token] followed by the test of
    [is_admin]: it fails with the very exception [verify_token] fails
    with, and on the claims [verify_token] returns it answers 403 when
    [is_admin] is falsy and returns them otherwise. *)
Theorem verify_admin_via_verify_token (request : Request) :
  verify_admin request =
    match verify_token request with
    | Err e => Err e
    | Ok claims =>
        if truthy (dict_get claims "is_admin") then Ok claims
        else Err Forbidden
    end.
Proof.
  unfold verify_admin, verify_token.
  destruct (token_truthy (cookies request !! "token")); simpl; [|reflexivity].
  destruct (jwt_decode _ JWT_SECRET_KEY [JWT_ALGORITHM]) as [msg|payload];
    [reflexivity|].
  destruct (truthy (dict_get payload "is_admin")); reflexivity.
Qed.

(** ** What the routes leave alone *)

(** X3. The read routes never change a collection: whatever list, search
    or get answer, a success or any failure, every collection of the
    store is afterwards what it was. *)
Theorem read_routes_keep_collections (r : resource) (now : datetime)
    (s : option Database) :
  (forall skip limit,
     same_collections s (snd (route_list r skip limit now s))) /\
  (forall q skip limit,
     same_collections s (snd (route_search r q skip limit now s))) /\
  (forall id, same_collections s (snd (route_get r id now s))).
Proof.
  split; [|split].
  - intros skip limit r'. unfold route_list.
    destruct (query_skip skip) as [sk|] eqn:Hsk;
      [|apply collection_kept_refl].
    destruct (query_limit limit) as [li|]; [|apply collection_kept_refl].
    destruct s as [d|]; [|exact I].
    unfold encoded.
    rewrite (list_documents_run _ _ _ _ _ (query_skip_nonneg _ _ Hsk)).
    destruct (for_each _ _); simpl; by rewrite !collection_log_op.
  - intros q skip limit r'. unfold route_search.
    destruct (query_q q) as [q'|]; [|apply collection_kept_refl].
    destruct (query_skip skip) as [sk|] eqn:Hsk;
      [|apply collection_kept_refl].
    destruct (query_limit limit) as [li|]; [|apply collection_kept_refl].
    destruct s as [d|]; [|exact I].
    unfold encoded.
    destruct (compile_query (search_filter r q')) as [f|] eqn:Hf.
    + rewrite (search_documents_run _ _ _ _ _ _ f
                 (query_skip_nonneg _ _ Hsk) Hf).
      destruct (for_each _ _); simpl; by rewrite !collection_log_op.
    + rewrite (search_documents_compile_fail _ _ _ _ _ _ Hf). simpl.
      by rewrite collection_log_op.
  - intros id r'. unfold route_get, encoded.
    destruct s as [d|]; [|exact I].
    rewrite get_document_run.
    destruct (collection r d !! id) as [fields|]; simpl;
      [|by rewrite collection_log_op].
    destruct (render_record now _) as [[h|c m]|rec]; simpl;
      by rewrite collection_log_op.
Qed.

(** X4. A mutating route of one resource never changes the collection of
    another resource, whatever it answers. *)
Theorem mutations_keep_other_collections (r r' : resource)
    (request : Request) (s : option Database) :
  r' <> r ->
  (forall body uuid4 now,
     collection_kept r' s (snd (route_create r request body uuid4 now s))) /\
  (forall id body now,
     collection_kept r' s (snd (route_update r request id body now s))) /\
  (forall id, collection_kept r' s (snd (route_delete r request id s))).
Proof.
  intros Hne. split; [|split].
  - intros body uuid4 now.
    destruct (route_create_cases r request body uuid4 now s)
      as [(e & -> & _) | [(d & e & -> & _ & -> & _)
          | (d & claims & payload & -> & _ & _ & _ & ->)]]; simpl.
    + apply collection_kept_refl.
    + apply collection_log_op.
    + rewrite collection_set_collection_ne by exact Hne.
      apply collection_log_op.
  - intros id body now.
    destruct (route_update_cases r request id body now s)
      as [(e & -> & _) | [(d & -> & _ & ->)
          | (d & claims & payload & old & -> & _ & _ & _ & ->)]]; simpl.
    + apply collection_kept_refl.
    + apply collection_log_op.
    + rewrite collection_set_collection_ne by exact Hne.
      by rewrite !collection_log_op.
  - intros id.
    destruct (route_delete_cases r request id s)
      as [(e & -> & _) | [(d & -> & _ & ->) | (d & old & -> & _ & ->)]];
      simpl.
    + apply collection_kept_refl.
    + apply collection_log_op.
    + rewrite collection_set_collection_ne by exact Hne.
      apply collection_log_op.
Qed.

(** X5. Create never replaces or removes a document: whatever it answers,
    every document the collection held is still there, unchanged, and the
    collection holds at most one document more. *)
Theorem create_keeps_existing_documents (r : resource) (request : Request)
    (body : pydict) (uuid4 : string) (now : datetime) (d : Database) :
  exists d',
    snd (route_create r request body uuid4 now (Some d)) = Some d' /\
    collection r d ⊆ collection r d' /\
    size (collection r d') <= S (size (collection r d)).
Proof.
  destruct (route_create_cases r request body uuid4 now (Some d))
    as [(e & -> & _) | [(d0 & e & [= <-] & _ & -> & _)
        | (d0 & claims & payload & [= <-] & _ & _ & Hfresh & ->)]]; simpl.
  - exists d. split; [reflexivity|]. split; [reflexivity|lia].
  - eexists. split; [reflexivity|]. rewrite collection_log_op.
    split; [reflexivity|lia].
  - eexists. split; [reflexivity|]. rewrite collection_set_collection.
    split.
    + by apply insert_subseteq.
    + rewrite map_size_insert_None by exact Hfresh. lia.
Qed.

(** X6. Update of an identifier the collection does not hold, by an admin
    with a valid body, answers 404 and writes nothing: no document is
    created under that identifier and every collection is as it was. *)
Theorem update_absent_id (r : resource) (request : Request) (claims : pydict)
    (id : string) (body : pydict) (payload : model) (now : datetime)
    (d : Database) :
  verify_admin request = Ok claims ->
  parse_model (model_of r) body = Some payload ->
  collection r d !! id = None ->
  exists d',
    route_update r request id body now (Some d) =
      (Err (mk_HTTPException 404 (singular r +:+ " not found")), Some d') /\
    collection r d' !! id = None /\
    same_collections (Some d) (Some d').
Proof.
  intros Hauth Hp Hnone. eexists. split; [|split].
  - rewrite (route_update_run _ _ _ _ _ _ _ _ Hauth Hp), Hnone. reflexivity.
  - by rewrite collection_log_op.
  - intros r'. apply collection_kept_log.
Qed.

(** ** Failures *)

(** X7. With the database handle unset, every route answers 500 and the
    handle stays unset; get, update and delete give the detail "Database
    not connected", while list, search and create, whose [except] clause
    catches their own exception, give [str] of it. *)
Theorem no_database_gives_500 (r : resource) (request : Request)
    (claims : pydict) (body : pydict) (payload : model) (q : string)
    (skip limit : Z) (now : datetime) :
  verify_admin request = Ok claims ->
  parse_model (model_of r) body = Some payload ->
  q <> "" -> (0 <= skip)%Z -> (1 <= limit <= MAX_PAGE_SIZE)%Z ->
  let not_connected := mk_HTTPException 500 "Database not connected" in
  let wrapped := mk_HTTPException 500 (exn_str (HTTPExc not_connected)) in
  route_list r (Some skip) (Some limit) now None = (Err wrapped, None) /\
  route_search r (Some q) (Some skip) (Some limit) now None
    = (Err wrapped, None) /\
  (forall uuid4,
     route_create r request body uuid4 now None = (Err wrapped, None)) /\
  (forall id, route_get r id now None = (Err not_connected, None)) /\
  (forall id,
     route_update r request id body now None = (Err not_connected, None)) /\
  (forall id, route_delete r request id None = (Err not_connected, None)).
Proof.
  intros Hauth Hp Hq Hskip Hlimit not_connected wrapped.
  unfold route_list, route_search, route_create, route_get, route_update,
    route_delete.
  rewrite Hauth, Hp, (query_q_Some _ Hq), (query_skip_Some _ Hskip),
    (query_limit_Some _ Hlimit).
  repeat split.
Qed.

(** X21. The search route validates its parameters before anything else:
    a missing or empty [q], a negative [skip] or a [limit] outside
    [1 .. MAX_PAGE_SIZE] is answered with 422 and the state, the log of
    store calls included, is unchanged. *)
Theorem search_validation (r : resource) (now : datetime)
    (s : option Database) :
  (forall skip limit,
     route_search r None skip limit now s = (Err RequestValidationError, s) /\
     route_search r (Some "") skip limit now s
       = (Err RequestValidationError, s)) /\
  (forall q skip limit, (skip < 0)%Z ->
     route_search r q (Some skip) limit now s
       = (Err RequestValidationError, s)) /\
  (forall q skip limit, (limit < 1)%Z \/ (MAX_PAGE_SIZE < limit)%Z ->
     route_search r q skip (Some limit) now s
       = (Err RequestValidationError, s)).
Proof.
  split; [|split].
  - intros skip limit. split; reflexivity.
  - intros q skip limit Hneg. unfold route_search.
    destruct (query_q q); [|reflexivity]. simpl.
    destruct (Z.leb_spec 0 skip); [lia|reflexivity].
  - intros q skip limit Hbad. unfold route_search.
    destruct (query_q q); [|reflexivity].
    destruct (query_skip skip); [|reflexivity]. simpl.
    destruct (Z.leb_spec 1 limit); simpl; [|reflexivity].
    destruct (Z.leb_spec limit MAX_PAGE_SIZE); [lia|reflexivity].
Qed.

(** X22. The status codes each route can fail with: list and search only
    422 and 500; get only 404 and 500; create only 401, 403, 422 and
    500; update only 401, 403, 404, 422 and 500; delete only 401, 403,
    404 and 500. *)
Theorem error_statuses (r : resource) (request : Request) (now : datetime)
    (s s' : option Database) (e : HTTPException) :
  (forall skip limit, route_list r skip limit now s = (Err e, s') ->
     status_code e = 422 \/ status_code e = 500)%Z /\
  (forall q skip limit, route_search r q skip limit now s = (Err e, s') ->
     status_code e = 422 \/ status_code e = 500)%Z /\
  (forall id, route_get r id now s = (Err e, s') ->
     status_code e = 404 \/ status_code e = 500)%Z /\
  (forall body uuid4, route_create r request body uuid4 now s = (Err e, s') ->
     status_code e = 401 \/ status_code e = 403 \/ status_code e = 422 \/
     status_code e = 500)%Z /\
  (forall id body, route_update r request id body now s = (Err e, s') ->
     status_code e = 401 \/ status_code e = 403 \/ status_code e = 404 \/
     status_code e = 422 \/ status_code e = 500)%Z /\
  (forall id, route_delete r request id s = (Err e, s') ->
     status_code e = 401 \/ status_code e = 403 \/ status_code e = 404 \/
     status_code e = 500)%Z.
Proof.
  repeat apply conj.
  - intros skip limit. unfold route_list.
    destruct (query_skip skip) as [sk|] eqn:Hsk;
      [|intros [= <- _]; by left].
    destruct (query_limit limit) as [li|]; [|intros [= <- _]; by left].
    destruct s as [d|]; [|intros [= <- _]; by right].
    unfold encoded.
    rewrite (list_documents_run _ _ _ _ _ (query_skip_nonneg _ _ Hsk)).
    destruct (for_each _ _); [|discriminate]. intros [= <- _]. by right.
  - intros q skip limit. unfold route_search.
    destruct (query_q q) as [q'|]; [|intros [= <- _]; by left].
    destruct (query_skip skip) as [sk|] eqn:Hsk;
      [|intros [= <- _]; by left].
    destruct (query_limit limit) as [li|]; [|intros [= <- _]; by left].
    destruct s as [d|]; [|intros [= <- _]; by right].
    unfold encoded.
    destruct (compile_query (search_filter r q')) as [f|] eqn:Hf.
    + rewrite (search_documents_run _ _ _ _ _ _ f
                 (query_skip_nonneg _ _ Hsk) Hf).
      destruct (for_each _ _); [|discriminate]. intros [= <- _]. by right.
    + rewrite (search_documents_compile_fail _ _ _ _ _ _ Hf).
      intros [= <- _]. by right.
  - intros id. unfold route_get, encoded.
    destruct s as [d|]; [|intros [= <- _]; by right].
    rewrite get_document_run.
    destruct (collection r d !! id) as [fields|];
      [|intros [= <- _]; by left].
    destruct (render_record now _) as [[h|c m]|rec] eqn:Hr;
      [|intros [= <- _]; by right|discriminate].
    destruct (render_record_Err _ _ _ Hr) as (c & m & [=]).
  - intros body uuid4 Hrun.
    destruct (route_create_cases r request body uuid4 now s)
      as [(e0 & Heq & Hst) | [(d & e0 & -> & _ & Heq & Hst)
          | (d & claims & payload & -> & _ & _ & _ & Heq)]];
      rewrite Heq in Hrun; try discriminate; injection Hrun as <- _.
    + destruct Hst as [?|[?|[?|[? _]]]]; auto.
    + auto.
  - intros id body Hrun.
    destruct (route_update_cases r request id body now s)
      as [(e0 & Heq & Hst) | [(d & -> & _ & Heq)
          | (d & claims & payload & old & -> & _ & _ & _ & Heq)]];
      rewrite Heq in Hrun; try discriminate; injection Hrun as <- _.
    + destruct Hst as [?|[?|[?|[? _]]]]; auto.
    + simpl. auto.
  - intros id Hrun.
    destruct (route_delete_cases r request id s)
      as [(e0 & Heq & Hst) | [(d & -> & _ & Heq) | (d & old & -> & _ & Heq)]];
      rewrite Heq in Hrun; try discriminate; injection Hrun as <- _.
    + destruct Hst as [?|[?|[? _]]]; auto.
    + simpl. auto.
Qed.

(** X8. A query that the regular-expression engine of the store refuses
    to compile makes search answer 500: it is not a validation error and
    not an empty result, and no collection changes. *)
Theorem search_invalid_pattern (r : resource) (q : string) (skip limit : Z)
    (now : datetime) (d : Database) :
  q <> "" -> (0 <= skip)%Z -> (1 <= limit <= MAX_PAGE_SIZE)%Z ->
  regex_compile_i q = None ->
  exists e d',
    route_search r (Some q) (Some skip) (Some limit) now (Some d)
      = (Err e, Some d') /\
    status_code e = 500%Z /\
    same_collections (Some d) (Some d').
Proof.
  intros Hq Hskip Hlimit Hre.
  assert (Hf : compile_query (search_filter r q) = None).
  { destruct r; simpl; rewrite Hre; reflexivity. }
  eexists _, _. split; [|split].
  - unfold route_search, encoded.
    rewrite (query_q_Some _ Hq), (query_skip_Some _ Hskip),
      (query_limit_Some _ Hlimit).
    rewrite (search_documents_compile_fail _ _ _ _ _ _ Hf). reflexivity.
  - reflexivity.
  - intros r'. apply collection_kept_log.
Qed.

Lemma stamp_ok_false (now : datetime) (v : option value) :
  stamp_ok v = false ->
  exists e, value_isoformat (default (VDatetime now) v) = Err e.
Proof.
  destruct v as [[]|]; simpl; intros H; try discriminate H; eauto.
Qed.

(** A document with a stored timestamp that is not a date cannot be
    rendered. *)
Lemma render_record_bad_stamp (now : datetime) (doc : pydict) :
  stamp_ok (doc !! "created_at") = false \/
  stamp_ok (doc !! "updated_at") = false ->
  exists e, render_record now doc = Err e.
Proof.
  intros Hbad. unfold render_record, dict_get_default.
  destruct (doc !! "_id") as [i|]; [|eauto].
  rewrite lookup_insert_ne by discriminate.
  rewrite lookup_delete_ne by discriminate.
  destruct (value_isoformat (default (VDatetime now) (doc !! "created_at")))
    as [e|c] eqn:Hc; [eauto|].
  rewrite lookup_insert_ne by discriminate.
  rewrite lookup_insert_ne by discriminate.
  rewrite lookup_delete_ne by discriminate.
  destruct Hbad as [Hbad | Hbad].
  - destruct (stamp_ok_false now _ Hbad) as [e He]. congruence.
  - destruct (stamp_ok_false now _ Hbad) as [e ->]. eauto.
Qed.

Lemma for_each_Exists_Err {A B} (f : A -> result exn B) (xs : list A) :
  Exists (fun x => exists e, f x = Err e) xs ->
  exists e, for_each f xs = Err e.
Proof.
  induction 1 as [x xs [e He] | x xs _ [e IH]]; simpl.
  - rewrite He. eauto.
  - destruct (f x); [eauto|]. rewrite IH. eauto.
Qed.

(** X9. A stored timestamp that is present but is not a date (a string, a
    null) is not tolerated: get of such a document answers 500, and so
    does list as soon as one such document is on the requested page. *)
Theorem malformed_timestamp_gives_500 (r : resource) (now : datetime)
    (d : Database) :
  (forall id fields,
     collection r d !! id = Some fields ->
     stamp_ok (fields !! "created_at") = false \/
     stamp_ok (fields !! "updated_at") = false ->
     exists e d',
       route_get r id now (Some d) = (Err e, Some d') /\
       status_code e = 500%Z) /\
  (forall skip limit doc,
     (0 <= skip)%Z -> (1 <= limit <= MAX_PAGE_SIZE)%Z ->
     doc ∈ page_of (fun _ => true) skip limit (collection r d) ->
     stamp_ok (doc !! "created_at") = false \/
     stamp_ok (doc !! "updated_at") = false ->
     exists e d',
       route_list r (Some skip) (Some limit) now (Some d) = (Err e, Some d') /\
       status_code e = 500%Z).
Proof.
  split.
  - intros id fields Hf Hbad.
    destruct (render_record_bad_stamp now (<["_id" := VStr id]> fields))
      as [e He].
    { by rewrite !lookup_insert_ne by discriminate. }
    destruct (render_record_Err _ _ _ He) as (c & m & ->).
    eexists _, _. split.
    + unfold route_get, encoded. rewrite get_document_run, Hf, He.
      reflexivity.
    + reflexivity.
  - intros skip limit doc Hskip Hlimit Hdoc Hbad.
    destruct (for_each_Exists_Err (render_record now)
                (page_of (fun _ => true) skip limit (collection r d)))
      as [e He].
    { apply Exists_exists. exists doc. split; [exact Hdoc|].
      by apply render_record_bad_stamp. }
    eexists _, _. split.
    + unfold route_list, encoded.
      rewrite (query_skip_Some _ Hskip), (query_limit_Some _ Hlimit).
      rewrite (list_documents_run _ _ _ _ _ Hskip), He. reflexivity.
    + reflexivity.
Qed.

(** ** The documents the routers write *)

(** A validated value is one the declaration allows. *)
Lemma validate_field_within (t : field_type) (v v' : value) :
  validate_field t v = Some v' -> value_within t v' = true.
Proof.
  destruct t, v; simpl; try discriminate.
  - destruct (_ && _) eqn:Hb; [|discriminate]. by intros [= <-].
  - by intros [= <-].
  - destruct (_ <=? _)%Z eqn:Hb; [|discriminate]. by intros [= <-].
  - by intros [= <-].
  - by intros [= <-].
Qed.

Lemma field_default_within (t : field_type) (v : value) :
  field_default t = Some v -> value_within t v = true.
Proof. destruct t; simpl; intros [= <-]; reflexivity. Qed.

(** Every value of a validated payload is one the declaration of its
    field allows. *)
Lemma parse_model_values_within (sch : schema) (body : pydict) (m : model)
    (k : string) (v : value) :
  parse_model sch body = Some m -> values m !! k = Some v ->
  exists t, field_type_of sch k = Some t /\ value_within t v = true.
Proof.
  revert m. induction sch as [|[name t] rest IH]; intros m; simpl.
  - intros [= <-]. simpl. rewrite lookup_empty. discriminate.
  - destruct (parse_model rest body) as [m0|] eqn:Hrest; [|discriminate].
    specialize (IH m0 eq_refl).
    assert (Hgen : forall w, value_within t w = true ->
      <[name := w]> (values m0) !! k = Some v ->
      exists t0, (if String.eqb name k then Some t else field_type_of rest k)
                 = Some t0 /\ value_within t0 v = true).
    { intros w Hw. destruct (String.eqb_spec name k) as [->|Hne].
      - rewrite lookup_insert_eq. intros [= <-]. eauto.
      - rewrite lookup_insert_ne by done. apply IH. }
    destruct (body !! name) as [w|].
    + destruct (validate_field t w) as [w'|] eqn:Hv; [|discriminate].
      intros [= <-]. simpl. apply Hgen. exact (validate_field_within _ _ _ Hv).
    + destruct (field_default t) as [dflt|] eqn:Hd; [|discriminate].
      intros [= <-]. simpl. apply Hgen. exact (field_default_within _ _ Hd).
Qed.

(** No model declares a field twice. *)
Lemma field_type_of_model (r : resource) (name : string) (t : field_type) :
  (name, t) ∈ model_of r -> field_type_of (model_of r) name = Some t.
Proof.
  destruct r; cbn; intros Hin;
    repeat (apply elem_of_cons in Hin as [[= -> ->]|Hin]; [reflexivity|]);
    inversion Hin.
Qed.

(** The value of a declared field in a validated payload. *)
Lemma declared_value_within (r : resource) (body : pydict) (payload : model)
    (name : string) (t : field_type) :
  parse_model (model_of r) body = Some payload -> (name, t) ∈ model_of r ->
  (name ∉ reserved_keys) /\
  (match values payload !! name with
   | Some v => value_within t v = true
   | None => True
   end).
Proof.
  intros Hp Hin. split.
  - apply (field_names_not_reserved r). apply list_elem_of_fmap.
    by exists (name, t).
  - destruct (values payload !! name) as [v|] eqn:Hv; [|exact I].
    destruct (parse_model_values_within _ _ _ _ _ Hp Hv) as (t0 & Ht0 & Hw).
    rewrite (field_type_of_model r name t Hin) in Ht0. by injection Ht0 as <-.
Qed.

(** The document create builds obeys the model. *)
Lemma new_document_obeys (r : resource) (body : pydict)
    (payload : model) (uuid4 : string) (now : datetime) :
  parse_model (model_of r) body = Some payload ->
  obeys_model r (new_document payload uuid4 now) = true.
Proof.
  intros Hp. unfold obeys_model, well_stamped.
  apply andb_true_iff; split; [apply andb_true_iff; split|].
  - unfold new_document. rewrite lookup_insert_ne by discriminate.
    by rewrite lookup_insert_eq.
  - unfold new_document. by rewrite lookup_insert_eq.
  - apply forallb_forall. intros [name t] Hin. apply list_elem_of_In in Hin.
    destruct (declared_value_within r body payload name t Hp Hin)
      as [Hres Hv].
    unfold field_fits. simpl. rewrite new_document_field by exact Hres.
    destruct (values payload !! name); [exact Hv|reflexivity].
Qed.

(** What [$set] leaves under each key of the updated document. *)
Lemma update_data_union_lookup (sch : schema) (body : pydict)
    (payload : model) (now : datetime) (old : pydict) (k : string) :
  parse_model sch body = Some payload ->
  (update_data_of payload now ∪ old) !! k =
    if decide (k = "updated_at") then Some (VDatetime now)
    else if decide (k ∈ field_names sch /\ is_Some (body !! k))
         then body !! k
         else old !! k.
Proof.
  intros Hp. unfold update_data_of.
  destruct (decide (k = "updated_at")) as [->|Hk].
  - apply lookup_union_Some_l, lookup_insert_eq.
  - pose proof (dict_exclude_unset_lookup sch body payload k Hp) as Hl.
    destruct (decide (k ∈ field_names sch /\ is_Some (body !! k)))
      as [[_ [v Hv]]|Hout].
    + rewrite Hv in *. apply lookup_union_Some_l.
      by rewrite lookup_insert_ne by done.
    + apply lookup_union_r. by rewrite lookup_insert_ne by done.
Qed.

(** A field that update writes holds a validated value of the payload. *)
Lemma updated_field_value (sch : schema) (body : pydict) (payload : model)
    (k : string) :
  parse_model sch body = Some payload ->
  k ∈ field_names sch /\ is_Some (body !! k) ->
  body !! k = values payload !! k.
Proof.
  intros Hp Hin. symmetry. apply (parse_model_values_set _ _ _ Hp).
  by apply (parse_model_fields_set _ _ _ Hp).
Qed.

(** An updated document obeys the model when it did. *)
Lemma updated_obeys (r : resource) (body : pydict) (payload : model)
    (now : datetime) (k : string) (old : pydict) :
  parse_model (model_of r) body = Some payload ->
  obeys_model r (<["_id" := VStr k]> old) = true ->
  obeys_model r (<["_id" := VStr k]> (update_data_of payload now ∪ old)) = true.
Proof.
  intros Hp Hold. unfold obeys_model, well_stamped in *.
  apply andb_true_iff in Hold as [Hst Hfit].
  apply andb_true_iff in Hst as [Hc Hu].
  rewrite forallb_forall in Hfit.
  rewrite lookup_insert_ne in Hc, Hu by discriminate.
  rewrite !lookup_insert_ne by discriminate.
  assert (Hlook := fun x => update_data_union_lookup _ body payload now old x Hp).
  apply andb_true_iff; split; [apply andb_true_iff; split|].
  - rewrite Hlook. destruct (decide _) as [|_]; [discriminate|].
    destruct (decide _) as [[Hin _]|_]; [|done].
    exfalso. apply (field_names_not_reserved r _ Hin).
    unfold reserved_keys. rewrite !elem_of_cons. auto.
  - rewrite Hlook. by destruct (decide _).
  - apply forallb_forall. intros [name t] Hin. specialize (Hfit _ Hin).
    apply list_elem_of_In in Hin.
    destruct (declared_value_within r body payload name t Hp Hin)
      as [Hres Hv].
    assert (Hne : "_id" <> name).
    { intros <-. apply Hres. unfold reserved_keys. rewrite !elem_of_cons. auto. }
    unfold field_fits in *. simpl in *.
    rewrite lookup_insert_ne in Hfit by exact Hne.
    rewrite lookup_insert_ne by exact Hne. rewrite Hlook.
    destruct (decide _) as [->|_].
    { exfalso. apply Hres. unfold reserved_keys. rewrite !elem_of_cons. auto. }
    destruct (decide _) as [Hset|_]; [|exact Hfit].
    rewrite (updated_field_value _ _ _ _ Hp Hset).
    destruct (values payload !! name); [exact Hv|reflexivity].
Qed.

(** A condition holds of every document the store returns when it holds
    of every entry of the collection, [_id] put back. *)
Lemma forallb_documents (P : pydict -> bool) (c : gmap string pydict) :
  forallb P (documents c) = true <->
  forall k fields, c !! k = Some fields -> P (<["_id" := VStr k]> fields) = true.
Proof.
  unfold documents. rewrite forallb_forall. split.
  - intros Hall k fields Hk. apply Hall, list_elem_of_In.
    apply list_elem_of_fmap. exists (k, fields). split; [reflexivity|].
    by apply elem_of_map_to_list.
  - intros Hok doc Hdoc. apply list_elem_of_In in Hdoc.
    apply list_elem_of_fmap in Hdoc as ([k fields] & -> & Hin).
    apply elem_of_map_to_list in Hin. by apply Hok.
Qed.

Lemma fits_not_array (doc : pydict) (name : string) (t : field_type) :
  field_fits doc (name, t) = true -> t <> OptStrList ->
  not_array (doc !! name) = true.
Proof.
  unfold field_fits. simpl. intros Hfit Ht.
  destruct (doc !! name) as [[]|]; try reflexivity.
  destruct t; simpl in Hfit; try discriminate. contradiction.
Qed.

Lemma fits_not_text (doc : pydict) (name : string) :
  field_fits doc (name, OptStrList) = true -> not_text (doc !! name) = true.
Proof.
  unfold field_fits. simpl. intros Hfit.
  destruct (doc !! name) as [[]|]; try reflexivity. discriminate.
Qed.

(** A document that obeys the model is one a search can be answered on:
    no searched text field holds a list and no searched array field
    holds a string. *)
Lemma obeys_model_well_formed (r : resource) (doc : pydict) :
  obeys_model r doc = true -> well_formed r doc = true.
Proof.
  unfold obeys_model, well_formed. intros H.
  apply andb_true_iff in H as [Hst Hfit]. rewrite Hst. simpl.
  rewrite forallb_forall in Hfit. unfold schema_typed.
  destruct r; cbn [text_fields array_fields forallb].
  - rewrite (fits_not_array doc "title" (Str 1 255)),
      (fits_not_array doc "description" (OptStr 5000)),
      (fits_not_text doc "tags");
      first [reflexivity | discriminate | apply Hfit; cbn; auto 10].
  - rewrite (fits_not_array doc "title" (Str 1 255)),
      (fits_not_array doc "abstract" (OptStr 5000)),
      (fits_not_text doc "authors"), (fits_not_text doc "tags");
      first [reflexivity | discriminate | apply Hfit; cbn; auto 10].
  - rewrite (fits_not_array doc "title" (Str 1 255)),
      (fits_not_array doc "course_code" (OptStr 20)),
      (fits_not_array doc "branch" (OptStr 100)),
      (fits_not_array doc "description" (OptStr 5000)),
      (fits_not_text doc "tags");
      first [reflexivity | discriminate | apply Hfit; cbn; auto 10].
Qed.

Lemma alter_present (f : pydict -> pydict) (id : string)
    (c : gmap string pydict) (old : pydict) :
  c !! id = Some old -> alter f id c = <[id := f old]> c.
Proof.
  intros Hold. apply map_eq. intros k.
  destruct (decide (id = k)) as [<-|Hne].
  - by rewrite lookup_alter_eq, lookup_insert_eq, Hold.
  - by rewrite lookup_alter_ne, lookup_insert_ne by done.
Qed.

(** X10. The mutating routes keep the store obeying the model: if every
    document of the collection has timestamps that are dates (or missing)
    and, under each field of the model, nothing or a value the model
    allows (a string of 1 to 255 characters for [title], a string within
    its [max_length] or null for an optional string, a list of strings or
    null for a list), this still holds after create, update or delete,
    whatever they answer; and every document is then one the search
    filter reads as the specification describes. *)
Theorem mutations_keep_obeys_model (r : resource) (request : Request)
    (d : Database) :
  forallb (obeys_model r) (documents (collection r d)) = true ->
  (forall body uuid4 now, exists d',
     snd (route_create r request body uuid4 now (Some d)) = Some d' /\
     forallb (obeys_model r) (documents (collection r d')) = true /\
     forallb (well_formed r) (documents (collection r d')) = true) /\
  (forall id body now, exists d',
     snd (route_update r request id body now (Some d)) = Some d' /\
     forallb (obeys_model r) (documents (collection r d')) = true /\
     forallb (well_formed r) (documents (collection r d')) = true) /\
  (forall id, exists d',
     snd (route_delete r request id (Some d)) = Some d' /\
     forallb (obeys_model r) (documents (collection r d')) = true /\
     forallb (well_formed r) (documents (collection r d')) = true).
Proof.
  intros Hwf. pose proof (proj1 (forallb_documents _ _) Hwf) as Hok.
  assert (Hweak : forall c, forallb (obeys_model r) (documents c) = true ->
            forallb (obeys_model r) (documents c) = true /\
            forallb (well_formed r) (documents c) = true).
  { intros c Hc. split; [exact Hc|]. rewrite forallb_forall in Hc.
    apply forallb_forall. intros doc Hdoc.
    by apply obeys_model_well_formed, Hc. }
  split; [|split].
  - intros body uuid4 now.
    destruct (route_create_cases r request body uuid4 now (Some d))
      as [(e & -> & _) | [(d0 & e & [= <-] & _ & -> & _)
          | (d0 & claims & payload & [= <-] & _ & Hp & Hfresh & ->)]]; simpl.
    + exists d. split; [reflexivity|]. by apply Hweak.
    + eexists. split; [reflexivity|]. rewrite collection_log_op.
      by apply Hweak.
    + eexists. split; [reflexivity|]. rewrite collection_set_collection.
      apply Hweak. apply (proj2 (forallb_documents _ _)). intros k fields.
      destruct (decide (uuid4 = k)) as [<-|Hne].
      * rewrite lookup_insert_eq. intros [= <-].
        rewrite insert_delete_eq, insert_id.
        -- exact (new_document_obeys r body payload uuid4 _ Hp).
        -- unfold new_document. rewrite !lookup_insert_ne by discriminate.
           apply lookup_insert_eq.
      * rewrite lookup_insert_ne by done. apply Hok.
  - intros id body now.
    destruct (route_update_cases r request id body now (Some d))
      as [(e & -> & _) | [(d0 & [= <-] & _ & ->)
          | (d0 & claims & payload & old & [= <-] & _ & Hp & Hold & ->)]];
      simpl.
    + exists d. split; [reflexivity|]. by apply Hweak.
    + eexists. split; [reflexivity|]. rewrite collection_log_op.
      by apply Hweak.
    + eexists. split; [reflexivity|]. rewrite collection_set_collection.
      apply Hweak. apply (proj2 (forallb_documents _ _)). intros k fields.
      rewrite (alter_present _ _ _ _ Hold).
      destruct (decide (id = k)) as [<-|Hne].
      * rewrite lookup_insert_eq. intros [= <-].
        apply (updated_obeys r body payload _ id old Hp).
        by apply Hok.
      * rewrite lookup_insert_ne by done. apply Hok.
  - intros id.
    destruct (route_delete_cases r request id (Some d))
      as [(e & -> & _) | [(d0 & [= <-] & _ & ->)
          | (d0 & old & [= <-] & _ & ->)]]; simpl.
    + exists d. split; [reflexivity|]. by apply Hweak.
    + eexists. split; [reflexivity|]. rewrite collection_log_op.
      by apply Hweak.
    + eexists. split; [reflexivity|]. rewrite collection_set_collection.
      apply Hweak. apply (proj2 (forallb_documents _ _)). intros k fields Hk.
      apply lookup_delete_Some in Hk as [_ Hk]. by apply Hok.
Qed.

(** X11. The number of documents of a collection changes by exactly one
    on a successful create (up) and on a successful delete (down), and
    does not change on any update nor on any failed request. *)
Theorem mutations_count (r : resource) (request : Request) (d : Database) :
  (forall body uuid4 now, exists d',
     snd (route_create r request body uuid4 now (Some d)) = Some d' /\
     match fst (route_create r request body uuid4 now (Some d)) with
     | Ok _ => size (collection r d') = S (size (collection r d))
     | Err _ => size (collection r d') = size (collection r d)
     end) /\
  (forall id body now, exists d',
     snd (route_update r request id body now (Some d)) = Some d' /\
     size (collection r d') = size (collection r d)) /\
  (forall id, exists d',
     snd (route_delete r request id (Some d)) = Some d' /\
     match fst (route_delete r request id (Some d)) with
     | Ok _ => S (size (collection r d')) = size (collection r d)
     | Err _ => size (collection r d') = size (collection r d)
     end).
Proof.
  split; [|split].
  - intros body uuid4 now.
    destruct (route_create_cases r request body uuid4 now (Some d))
      as [(e & -> & _) | [(d0 & e & [= <-] & _ & -> & _)
          | (d0 & claims & payload & [= <-] & _ & _ & Hfresh & ->)]]; simpl.
    + by exists d.
    + eexists. split; [reflexivity|]. by rewrite collection_log_op.
    + eexists. split; [reflexivity|]. rewrite collection_set_collection.
      by apply map_size_insert_None.
  - intros id body now.
    destruct (route_update_cases r request id body now (Some d))
      as [(e & -> & _) | [(d0 & [= <-] & _ & ->)
          | (d0 & claims & payload & old & [= <-] & _ & _ & Hold & ->)]];
      simpl.
    + by exists d.
    + eexists. split; [reflexivity|]. by rewrite collection_log_op.
    + eexists. split; [reflexivity|]. rewrite collection_set_collection.
      rewrite (alter_present _ _ _ _ Hold).
      apply map_size_insert_Some. by rewrite Hold.
  - intros id.
    destruct (route_delete_cases r request id (Some d))
      as [(e & -> & _) | [(d0 & [= <-] & _ & ->)
          | (d0 & old & [= <-] & Hold & ->)]]; simpl.
    + by exists d.
    + eexists. split; [reflexivity|]. by rewrite collection_log_op.
    + eexists. split; [reflexivity|]. rewrite collection_set_collection.
      rewrite map_size_delete_Some by (by rewrite Hold).
      assert (size (collection r d) <> 0); [|lia].
      apply map_size_ne_0_lookup_2 with id. by rewrite Hold.
Qed.

(** X12. Update then get: after an admin's update with a valid body of a
    document whose [created_at] is a date or missing, get of the same
    identifier succeeds and shows the identifier, every submitted field
    with the submitted value, [updated_at] as the ISO string of the time
    of the update cut to whole milliseconds, as the store keeps it, and
    every other stored field as it was. *)
Theorem update_then_get (r : resource) (request : Request) (claims : pydict)
    (id : string) (body : pydict) (payload : model) (now now' : datetime)
    (d : Database) (old : pydict) :
  verify_admin request = Ok claims ->
  parse_model (model_of r) body = Some payload ->
  collection r d !! id = Some old ->
  stamp_ok (old !! "created_at") = true ->
  exists d' rec d'',
    route_update r request id body now (Some d) =
      (Ok (MessageResponse true (singular r +:+ " updated successfully")),
       Some d') /\
    route_get r id now' (Some d') = (Ok (GetResponse true rec), Some d'') /\
    rec !! "id" = Some (VStr id) /\
    rec !! "_id" = None /\
    rec !! "updated_at" = Some (VStr (isoformat (bson_datetime now))) /\
    (forall k v, k ∈ field_names (model_of r) -> body !! k = Some v ->
       rec !! k = Some v) /\
    (forall k, k ∉ reserved_keys ->
       ~ (k ∈ field_names (model_of r) /\ is_Some (body !! k)) ->
       rec !! k = jsonable_value <$> old !! k).
Proof.
  intros Hauth Hp Hold Hstamp.
  set (new := update_data_of payload (bson_datetime now) ∪ old).
  assert (Hlook := fun x => update_data_union_lookup _ body payload
                              (bson_datetime now) old x Hp).
  destruct (stamp_ok_stamp_or now' _ Hstamp) as [c Hc].
  assert (Hcr : new !! "created_at" = old !! "created_at").
  { unfold new. rewrite Hlook. destruct (decide _) as [|_]; [discriminate|].
    destruct (decide _) as [[Hin _]|_]; [|done].
    exfalso. apply (field_names_not_reserved r _ Hin).
    unfold reserved_keys. rewrite !elem_of_cons. auto. }
  assert (Hup : new !! "updated_at" = Some (VDatetime (bson_datetime now))).
  { unfold new. rewrite Hlook. by destruct (decide _). }
  eexists _, _, _. split; [|split].
  - rewrite (route_update_run _ _ _ _ _ _ _ _ Hauth Hp), Hold. reflexivity.
  - unfold route_get, encoded. rewrite get_document_run.
    rewrite collection_set_collection, lookup_alter_eq, Hold. simpl.
    fold new.
    rewrite (render_record_stamped now' (<["_id" := VStr id]> new)
               (VStr id) c (bson_datetime now)).
    + reflexivity.
    + apply lookup_insert_eq.
    + rewrite lookup_insert_ne by discriminate. by rewrite Hcr.
    + rewrite lookup_insert_ne by discriminate. by rewrite Hup.
  - unfold jsonable_dict. rewrite !lookup_fmap.
    rewrite (lookup_insert_ne _ "updated_at" "id") by discriminate.
    rewrite (lookup_insert_ne _ "created_at" "id") by discriminate.
    rewrite (lookup_insert_ne _ "updated_at" "_id") by discriminate.
    rewrite (lookup_insert_ne _ "created_at" "_id") by discriminate.
    rewrite (lookup_insert_ne _ "id" "_id") by discriminate.
    rewrite !lookup_insert_eq, lookup_delete_eq.
    repeat apply conj; try reflexivity.
    + intros k v Hk Hb.
      destruct (submitted_value _ _ _ _ _ Hp Hk Hb) as (Hv & Hpl & Hres).
      pose proof Hres as Hres'. unfold reserved_keys in Hres'.
      rewrite !not_elem_of_cons in Hres'.
      destruct Hres' as (? & ? & ? & ? & _).
      rewrite lookup_fmap, !lookup_insert_ne, lookup_delete_ne by done.
      rewrite lookup_insert_ne by done. unfold new. rewrite Hlook.
      destruct (decide _) as [|_]; [done|].
      destruct (decide _) as [_|Hout].
      * rewrite Hb. simpl. by rewrite Hpl.
      * exfalso. apply Hout. split; [exact Hk|]. by rewrite Hb.
    + intros k Hres Hout.
      pose proof Hres as Hres'. unfold reserved_keys in Hres'.
      rewrite !not_elem_of_cons in Hres'.
      destruct Hres' as (? & ? & ? & ? & _).
      rewrite lookup_fmap, !lookup_insert_ne, lookup_delete_ne by done.
      rewrite lookup_insert_ne by done. unfold new. rewrite Hlook.
      destruct (decide _) as [|_]; [done|].
      by destruct (decide _).
Qed.

(** ** Paging *)

Lemma for_each_app {A B} (f : A -> result exn B) (xs ys : list A)
    (rx ry : list B) :
  for_each f xs = Ok rx -> for_each f ys = Ok ry ->
  for_each f (xs ++ ys)%list = Ok (rx ++ ry)%list.
Proof.
  rewrite !for_each_Forall2. apply Forall2_app.
Qed.

Lemma page_of_app (f : pydict -> bool) (skip limit1 limit2 : Z) c :
  (0 <= skip)%Z -> (1 <= limit1)%Z -> (1 <= limit2)%Z ->
  page_of f skip (limit1 + limit2) c =
    (page_of f skip limit1 c ++ page_of f (skip + limit1) limit2 c)%list.
Proof.
  intros Hs H1 H2. rewrite !page_of_take by lia.
  rewrite !Z2Nat.inj_add by lia.
  rewrite <- drop_drop. apply eq_sym, take_take_drop.
Qed.

(** X13. Consecutive pages tile the listing: on a store of well-stamped
    documents with genuine and pairwise distinct creation dates (the
    order of documents with equal sort keys is left to the store), the
    records of the page [(skip, limit1)] followed by those of the page
    [(skip + limit1, limit2)] are the records of the page
    [(skip, limit1 + limit2)], in the same order; and the two pages are
    the renderings of two consecutive windows of the newest-first listing
    of the collection, so that nothing is skipped or repeated between
    them. *)
Theorem pages_tile (r : resource) (skip limit1 limit2 : Z) (now : datetime)
    (d : Database) :
  (0 <= skip)%Z -> (1 <= limit1)%Z -> (1 <= limit2)%Z ->
  (limit1 + limit2 <= MAX_PAGE_SIZE)%Z ->
  forallb well_stamped (documents (collection r d)) = true ->
  forallb dated_valid (documents (collection r d)) = true ->
  NoDup (created_key <$> documents (collection r d)) ->
  exists data1 data2 p1 p2 p12 s1 s2 s12,
    route_list r (Some skip) (Some limit1) now (Some d)
      = (Ok (ListResponse true data1 p1), s1) /\
    route_list r (Some (skip + limit1)%Z) (Some limit2) now (Some d)
      = (Ok (ListResponse true data2 p2), s2) /\
    route_list r (Some skip) (Some (limit1 + limit2)%Z) now (Some d)
      = (Ok (ListResponse true (data1 ++ data2)%list p12), s12) /\
    (forall listing,
       listing ≡ₚ documents (collection r d) -> newest_first listing ->
       exists recs1 recs2,
         data1 = jsonable_dict <$> recs1 /\
         data2 = jsonable_dict <$> recs2 /\
         Forall2 (fun doc rec => render_record now doc = Ok rec)
           (take (Z.to_nat limit1) (drop (Z.to_nat skip) listing)) recs1 /\
         Forall2 (fun doc rec => render_record now doc = Ok rec)
           (take (Z.to_nat limit2) (drop (Z.to_nat (skip + limit1)) listing))
           recs2).
Proof.
  intros Hs H1 H2 Hmax Hwf Hvalid Hnd.
  pose proof (forallb_elem_of _ _ Hwf) as Hall.
  destruct (render_page now (fun _ => true) skip limit1 (collection r d)
              H1 Hall) as [recs1 Hr1].
  destruct (render_page now (fun _ => true) (skip + limit1) limit2
              (collection r d) H2 Hall) as [recs2 Hr2].
  pose proof (for_each_app _ _ _ _ _ Hr1 Hr2) as Hr12.
  rewrite <- page_of_app in Hr12 by lia.
  exists (jsonable_dict <$> recs1), (jsonable_dict <$> recs2).
  eexists _, _, _, _, _, _. split; [|split; [|split]].
  - unfold route_list, encoded.
    rewrite (query_skip_Some _ Hs), query_limit_Some by lia.
    rewrite (list_documents_run _ _ _ _ _ Hs), Hr1. reflexivity.
  - unfold route_list, encoded.
    rewrite query_skip_Some, query_limit_Some by lia.
    rewrite list_documents_run, Hr2 by lia. reflexivity.
  - unfold route_list, encoded.
    rewrite (query_skip_Some _ Hs), query_limit_Some by lia.
    rewrite (list_documents_run _ _ _ _ _ Hs), Hr12. cbn.
    rewrite fmap_app. reflexivity.
  - intros listing Hperm Hnf. exists recs1, recs2.
    split; [reflexivity|]. split; [reflexivity|].
    assert (Hperm' : listing ≡ₚ List.filter (fun _ => true)
                                  (documents (collection r d)))
      by (by rewrite filter_all).
    apply for_each_Forall2 in Hr1, Hr2.
    rewrite (page_of_listing _ _ _ _ listing H1 Hvalid Hnd Hperm' Hnf) in Hr1.
    rewrite (page_of_listing _ _ _ _ listing H2 Hvalid Hnd Hperm' Hnf) in Hr2.
    split; [exact Hr1|exact Hr2].
Qed.

(** X14. A [skip] at or beyond the number of documents is not an error:
    list answers with an empty page, [returned = 0] and the true total,
    even on a store with malformed documents. *)
Theorem skip_beyond_end (r : resource) (skip limit : Z) (now : datetime)
    (d : Database) :
  (1 <= limit <= MAX_PAGE_SIZE)%Z ->
  (Z.of_nat (size (collection r d)) <= skip)%Z ->
  exists d',
    route_list r (Some skip) (Some limit) now (Some d) =
      (Ok (ListResponse true []
             (mk_Pagination (Z.of_nat (size (collection r d))) skip limit 0)),
       Some d') /\
    same_collections (Some d) (Some d').
Proof.
  intros Hlimit Hskip.
  assert (Hs : (0 <= skip)%Z) by lia.
  assert (Hpage : page_of (fun _ => true) skip limit (collection r d) = []).
  { rewrite page_of_take by lia. rewrite drop_ge; [apply take_nil|].
    rewrite (Permutation_length (merge_sort_Permutation created_desc _)).
    rewrite filter_all, length_documents. lia. }
  eexists. split.
  - unfold route_list, encoded.
    rewrite (query_skip_Some _ Hs), (query_limit_Some _ Hlimit).
    rewrite (list_documents_run _ _ _ _ _ Hs), Hpage. reflexivity.
  - intros r'. simpl. by rewrite !collection_log_op.
Qed.

(** ** Search with any engine *)

Lemma search_filter_selected (r : resource) (q : string) (m : string -> bool) :
  regex_compile_i q = Some m ->
  exists f, compile_query (search_filter r q) = Some f /\
    forall doc, f doc = selected r m q doc.
Proof.
  intros Hre. destruct r; simpl; rewrite Hre; eexists;
    (split; [reflexivity|]); intros doc; unfold selected; simpl;
    rewrite ?orb_false_r, ?orb_assoc; reflexivity.
Qed.

Lemma existsb_agree (g1 g2 : string -> bool) (l : list string) :
  (forall x, In x l -> g1 x = g2 x) -> existsb g1 l = existsb g2 l.
Proof.
  induction l as [|x l IH]; simpl; [reflexivity|]. intros H.
  rewrite (H x) by auto. rewrite IH by auto. reflexivity.
Qed.

(** X15. For every query the engine of the store accepts, on a store of
    well-stamped documents, search answers with the number of selected
    documents as [total], which is at most the size of the collection,
    and with a page of them, sorted by [created_at] descending and
    rendered in that order, whose length is [returned], at most [limit]
    and at most [total]. Descending is meant field by field on the
    dates: in the page a document that comes later was not created after
    one that comes before it, and undated documents come last; and when
    no two documents have the same creation date, the page is the window
    [skip, skip + limit) of any newest-first listing of the selected
    documents. *)
Theorem search_contract_any_engine (r : resource) (q : string)
    (m : string -> bool) (skip limit : Z) (now : datetime) (d : Database) :
  q <> "" -> (0 <= skip)%Z -> (1 <= limit <= MAX_PAGE_SIZE)%Z ->
  regex_compile_i q = Some m ->
  forallb well_stamped (documents (collection r d)) = true ->
  exists recs d',
    route_search r (Some q) (Some skip) (Some limit) now (Some d) =
      (Ok (SearchResponse true q (jsonable_dict <$> recs)
             (mk_Pagination
                (Z.of_nat (length (List.filter (selected r m q)
                                     (documents (collection r d)))))
                skip limit (Z.of_nat (length (jsonable_dict <$> recs))))),
       Some d') /\
    Forall2 (fun doc rec => render_record now doc = Ok rec)
      (page_of (selected r m q) skip limit (collection r d)) recs /\
    StronglySorted created_desc
      (page_of (selected r m q) skip limit (collection r d)) /\
    (forallb dated_valid (documents (collection r d)) = true ->
     newest_first (page_of (selected r m q) skip limit (collection r d)) /\
     (NoDup (created_key <$> documents (collection r d)) ->
      forall listing,
        listing ≡ₚ List.filter (selected r m q) (documents (collection r d)) ->
        newest_first listing ->
        Forall2 (fun doc rec => render_record now doc = Ok rec)
          (take (Z.to_nat limit) (drop (Z.to_nat skip) listing)) recs)) /\
    length (List.filter (selected r m q) (documents (collection r d)))
      <= size (collection r d) /\
    (Z.of_nat (length (jsonable_dict <$> recs)) <= limit)%Z /\
    length (jsonable_dict <$> recs)
      <= length (List.filter (selected r m q) (documents (collection r d))).
Proof.
  intros Hq Hskip Hlimit Hre Hwf.
  assert (Hl : (1 <= limit)%Z) by lia.
  destruct (search_filter_selected r q m Hre) as (f & Hf & Hsel).
  assert (Hfilter : forall l, List.filter f l = List.filter (selected r m q) l).
  { intros l. apply filter_ext. exact Hsel. }
  assert (Hpage : page_of f skip limit (collection r d)
                  = page_of (selected r m q) skip limit (collection r d)).
  { unfold page_of. by rewrite Hfilter. }
  destruct (render_page now f skip limit (collection r d) Hl
              (forallb_elem_of _ _ Hwf)) as [recs Hrecs].
  pose proof (proj1 (for_each_Forall2 _ _ _) Hrecs) as Hall.
  rewrite Hpage in Hall.
  pose proof (Forall2_length _ _ _ Hall) as Hlen.
  pose proof (page_of_length (selected r m q) skip limit (collection r d) Hl)
    as [Hlen1 Hlen2].
  exists recs. eexists. repeat apply conj.
  - unfold route_search, encoded.
    rewrite (query_q_Some _ Hq), (query_skip_Some _ Hskip),
      (query_limit_Some _ Hlimit).
    rewrite (search_documents_run _ _ _ _ _ _ f Hskip Hf), Hrecs. cbn.
    rewrite length_fmap, Hfilter. reflexivity.
  - exact Hall.
  - by apply page_of_sorted.
  - intros Hvalid. split.
    + by apply page_of_newest_first.
    + intros Hnd listing Hperm Hnf.
      by rewrite <- (page_of_listing (selected r m q) skip limit _ listing
                       Hl Hvalid Hnd Hperm Hnf).
  - rewrite <- length_documents. apply filter_length_le.
  - rewrite length_fmap, <- Hlen. exact Hlen1.
  - rewrite length_fmap, <- Hlen. exact Hlen2.
Qed.

(** X16. What search looks at. For a query the engine accepts, the
    filter of each router depends on the configured text and array
    fields only: two documents that agree on them are both selected or
    both not, whatever their other fields hold; and a document with the
    query as an exact element of a configured array field is always
    selected. *)
Theorem search_looks_at_configured_fields (r : resource) (q : string)
    (m : string -> bool) :
  regex_compile_i q = Some m ->
  exists f, compile_query (search_filter r q) = Some f /\
    (forall doc1 doc2,
       (forall fld, In fld (text_fields r ++ array_fields r)%list ->
          doc1 !! fld = doc2 !! fld) ->
       f doc1 = f doc2) /\
    (forall doc fld l,
       In fld (array_fields r) -> doc !! fld = Some (VList l) -> q ∈ l ->
       f doc = true).
Proof.
  intros Hre. destruct (search_filter_selected r q m Hre) as (f & Hf & Hsel).
  exists f. split; [exact Hf|]. split.
  - intros doc1 doc2 Hagree. rewrite !Hsel. unfold selected. f_equal.
    + apply existsb_agree. intros fld Hfld.
      rewrite Hagree; [reflexivity|]. apply in_or_app. by left.
    + apply existsb_agree. intros fld Hfld.
      rewrite Hagree; [reflexivity|]. apply in_or_app. by right.
  - intros doc fld l Hfld Hdoc Hin. rewrite Hsel. unfold selected.
    apply orb_true_iff. right. apply existsb_exists. exists fld.
    split; [exact Hfld|]. rewrite Hdoc. simpl.
    rewrite existsb_in_singleton. by apply bool_decide_eq_true.
Qed.

(** ** What create stores *)

Lemma parse_model_default (sch : schema) (body : pydict) (m : model)
    (k : string) (t : field_type) :
  parse_model sch body = Some m -> body !! k = None ->
  field_type_of sch k = Some t -> values m !! k = field_default t.
Proof.
  revert m. induction sch as [|[name t'] rest IH]; intros m; simpl;
    [discriminate 3|].
  destruct (parse_model rest body) as [m0|] eqn:Hrest; [|discriminate].
  specialize (IH m0 eq_refl). intros Hm Hb.
  destruct (String.eqb_spec name k) as [->|Hne].
  - intros [= <-]. rewrite Hb in Hm.
    destruct (field_default t') as [dflt|]; [|discriminate].
    injection Hm as <-. simpl. by rewrite lookup_insert_eq.
  - intros Ht.
    assert (Hv : values m !! k = values m0 !! k).
    { destruct (body !! name) as [w|].
      - destruct (validate_field t' w); [|discriminate].
        injection Hm as <-. simpl. by rewrite lookup_insert_ne.
      - destruct (field_default t'); [|discriminate].
        injection Hm as <-. simpl. by rewrite lookup_insert_ne. }
    rewrite Hv. by apply IH.
Qed.

(** X17. What create stores is decided by the model, not by the body: the
    stored document has a value for every field of the model, the two
    timestamps, and nothing else; the value the body gives under a key
    that is not a field of the model ([_id], [created_at], any other) is
    never stored: such a key is absent from the stored document, or it
    is one of the two timestamps and holds the current time cut to whole
    milliseconds; and a field the body omits is stored with its default
    ([null], or [[]] for a list). *)
Theorem create_stores_model_fields (r : resource) (request : Request)
    (claims : pydict) (body : pydict) (payload : model) (uuid4 : string)
    (now : datetime) (d : Database) :
  verify_admin request = Ok claims ->
  parse_model (model_of r) body = Some payload ->
  collection r d !! uuid4 = None ->
  exists resp d' stored,
    route_create r request body uuid4 now (Some d) = (Ok resp, Some d') /\
    collection r d' !! uuid4 = Some stored /\
    (forall k, is_Some (stored !! k) <->
       k ∈ field_names (model_of r) \/ k = "created_at" \/ k = "updated_at") /\
    (forall k, k ∉ field_names (model_of r) -> is_Some (body !! k) ->
       stored !! k = None \/
       stored !! k = Some (VDatetime (bson_datetime now)) /\
       (k = "created_at" \/ k = "updated_at")) /\
    (forall k t, field_type_of (model_of r) k = Some t -> body !! k = None ->
       stored !! k = field_default t).
Proof.
  intros Hauth Hp Hfresh.
  set (stored := delete "_id"
                   (new_document payload uuid4 (bson_datetime now))).
  assert (Hdom : forall k, is_Some (stored !! k) <->
            k ∈ field_names (model_of r) \/ k = "created_at" \/ k = "updated_at").
  { intros k. unfold stored, new_document, dict.
    destruct (decide (k = "_id")) as [->|H1].
    { rewrite lookup_delete_eq. split; [by intros [? ?]|].
      intros [Hin | [? | ?]]; try discriminate.
      exfalso. apply (field_names_not_reserved r _ Hin).
      unfold reserved_keys. rewrite !elem_of_cons. auto. }
    rewrite lookup_delete_ne by done.
    destruct (decide (k = "updated_at")) as [->|H2].
    { rewrite lookup_insert_eq. split; eauto. }
    rewrite lookup_insert_ne by done.
    destruct (decide (k = "created_at")) as [->|H3].
    { rewrite lookup_insert_eq. split; eauto. }
    rewrite !lookup_insert_ne by done.
    rewrite (parse_model_values_dom _ _ _ Hp). split; [auto|].
    by intros [? | [? | ?]]. }
  eexists _, _, stored. split; [|split; [|split; [|split]]].
  - rewrite (route_create_run _ _ _ _ _ _ _ _ Hauth Hp), Hfresh. reflexivity.
  - rewrite collection_set_collection. apply lookup_insert_eq.
  - apply Hdom.
  - intros k Hout _.
    destruct (stored !! k) as [v|] eqn:Hv; [|by left]. right.
    assert (Hk : k = "created_at" \/ k = "updated_at").
    { destruct (proj1 (Hdom k)) as [? | ?]; [by rewrite Hv|done|done]. }
    split; [|exact Hk]. rewrite <- Hv. unfold stored, new_document.
    destruct Hk as [-> | ->].
    + rewrite lookup_delete_ne, lookup_insert_ne by discriminate.
      apply lookup_insert_eq.
    + rewrite lookup_delete_ne by discriminate. apply lookup_insert_eq.
  - intros k t Ht Hb. unfold stored.
    assert (Hin : k ∈ field_names (model_of r)).
    { clear -Ht. induction (model_of r) as [|[n t0] rest IH]; [discriminate|].
      simpl in Ht. destruct (String.eqb_spec n k) as [->|_].
      - apply list_elem_of_here.
      - apply list_elem_of_further, IH, Ht. }
    rewrite (stored_field payload uuid4 (bson_datetime now) k
               (field_names_not_reserved r k Hin)).
    exact (parse_model_default _ _ _ _ _ Hp Hb Ht).
Qed.

(** ** Composing mutations *)

(** X18. Updating twice with the same body is the same as updating once
    at the later time: after two successive admin updates of a document
    with one valid body, the collection is what a single update at the
    time of the second one gives. *)
Theorem update_twice (r : resource) (request : Request) (claims : pydict)
    (id : string) (body : pydict) (payload : model) (now1 now2 : datetime)
    (d : Database) (old : pydict) :
  verify_admin request = Ok claims ->
  parse_model (model_of r) body = Some payload ->
  collection r d !! id = Some old ->
  exists resp d1 d2 d12,
    route_update r request id body now1 (Some d) = (Ok resp, Some d1) /\
    route_update r request id body now2 (Some d1) = (Ok resp, Some d2) /\
    route_update r request id body now2 (Some d) = (Ok resp, Some d12) /\
    collection r d2 = collection r d12.
Proof.
  intros Hauth Hp Hold.
  set (new1 := update_data_of payload (bson_datetime now1) ∪ old).
  assert (H1 : collection r
      (set_collection r
         (alter (fun fields =>
                   update_data_of payload (bson_datetime now1) ∪ fields) id
            (collection r d))
         (log_op r UpdateOne (log_op r FindOne d))) !! id = Some new1).
  { by rewrite collection_set_collection, lookup_alter_eq, Hold. }
  eexists _, _, _, _. repeat apply conj.
  - rewrite (route_update_run _ _ _ _ _ _ _ _ Hauth Hp), Hold. reflexivity.
  - rewrite (route_update_run _ _ _ _ _ _ _ _ Hauth Hp), H1. reflexivity.
  - rewrite (route_update_run _ _ _ _ _ _ _ _ Hauth Hp), Hold. reflexivity.
  - rewrite !collection_set_collection.
    rewrite !(alter_present _ _ (collection r d) _ Hold).
    rewrite (alter_present _ id (<[id := _]> _)
               (update_data_of payload (bson_datetime now1) ∪ old))
      by apply lookup_insert_eq.
    rewrite insert_insert_eq. f_equal.
    apply map_eq. intros k.
    rewrite !(update_data_union_lookup _ body payload _ _ k Hp).
    destruct (decide _); [reflexivity|]. by destruct (decide _).
Qed.

(** X19. Create then delete restores the store: after an admin creates a
    document under a fresh identifier and then deletes that identifier,
    every collection is what it was before the creation. *)
Theorem create_then_delete (r : resource) (request : Request)
    (claims : pydict) (body : pydict) (payload : model) (uuid4 : string)
    (now : datetime) (d : Database) :
  verify_admin request = Ok claims ->
  parse_model (model_of r) body = Some payload ->
  collection r d !! uuid4 = None ->
  exists resp d1 d2,
    route_create r request body uuid4 now (Some d) = (Ok resp, Some d1) /\
    route_delete r request uuid4 (Some d1) =
      (Ok (MessageResponse true (singular r +:+ " deleted successfully")),
       Some d2) /\
    same_collections (Some d) (Some d2).
Proof.
  intros Hauth Hp Hfresh.
  eexists _, _, _. split; [|split].
  - rewrite (route_create_run _ _ _ _ _ _ _ _ Hauth Hp), Hfresh. reflexivity.
  - rewrite (route_delete_run _ _ _ _ _ Hauth).
    rewrite collection_set_collection, lookup_insert_eq. reflexivity.
  - intros r'.
    destruct r, r'; simpl in *; try reflexivity;
      by apply delete_insert_id.
Qed.

(** ** Identifiers on a page *)

Lemma page_of_subseteq (f : pydict -> bool) (skip limit : Z) c (x : pydict) :
  x ∈ page_of f skip limit c -> x ∈ documents c.
Proof.
  unfold page_of, apply_limit. intros Hx.
  destruct (limit =? 0)%Z; [|apply subseteq_take in Hx];
    apply subseteq_drop in Hx; rewrite merge_sort_Permutation in Hx;
    by apply filter_elem_of in Hx as [? _].
Qed.

Lemma documents_elem_of c (doc : pydict) :
  doc ∈ documents c ->
  exists k fields, c !! k = Some fields /\ doc = <["_id" := VStr k]> fields.
Proof.
  unfold documents. intros Hd.
  apply list_elem_of_fmap in Hd as ([k fields] & -> & Hin).
  apply elem_of_map_to_list in Hin. eauto.
Qed.

(** The [id] of each rendered record is the [_id] of its document. *)
Lemma rendered_ids (now : datetime) (page recs : list pydict) :
  Forall (fun doc => exists k, doc !! "_id" = Some (VStr k)) page ->
  Forall2 (fun doc rec => render_record now doc = Ok rec) page recs ->
  (fun rec => rec !! "id") <$> (jsonable_dict <$> recs)
    = (fun doc => doc !! "_id") <$> page.
Proof.
  intros Hids Hall. induction Hall as [|doc rec page recs Hr _ IH];
    [reflexivity|].
  apply Forall_cons in Hids as [[k Hk] Hids].
  rewrite !fmap_cons, (IH Hids). f_equal.
  destruct (render_record_view _ _ _ Hr) as (_ & Hid & _).
  unfold jsonable_dict. by rewrite lookup_fmap, Hid, Hk.
Qed.

Lemma documents_ids c :
  (fun doc : pydict => doc !! "_id") <$> documents c
    = (fun k => Some (VStr k)) <$> (map_to_list c).*1.
Proof.
  unfold documents. rewrite <- !list_fmap_compose.
  apply list_fmap_ext. intros i [k fields] _. simpl.
  apply lookup_insert_eq.
Qed.

Lemma documents_ids_NoDup c :
  NoDup ((fun doc : pydict => doc !! "_id") <$> documents c).
Proof.
  rewrite documents_ids. apply NoDup_fmap_2.
  - intros x y H. by injection H.
  - apply NoDup_fst_map_to_list.
Qed.

Lemma page_ids_NoDup (f : pydict -> bool) (skip limit : Z) c :
  NoDup ((fun doc : pydict => doc !! "_id") <$> page_of f skip limit c).
Proof.
  assert (Hall : NoDup ((fun doc : pydict => doc !! "_id")
                          <$> merge_sort created_desc
                                (List.filter f (documents c)))).
  { rewrite merge_sort_Permutation.
    apply NoDup_fmap_filter, documents_ids_NoDup. }
  assert (Hdrop : NoDup ((fun doc : pydict => doc !! "_id")
                           <$> drop (Z.to_nat skip)
                                 (merge_sort created_desc
                                    (List.filter f (documents c))))).
  { rewrite fmap_drop. eapply sublist_NoDup; [exact Hall|apply sublist_drop]. }
  unfold page_of, apply_limit. destruct (limit =? 0)%Z; [exact Hdrop|].
  rewrite fmap_take. eapply sublist_NoDup; [exact Hdrop|apply sublist_take].
Qed.

Lemma page_has_ids (f : pydict -> bool) (skip limit : Z) c :
  Forall (fun doc => exists k, doc !! "_id" = Some (VStr k) /\ is_Some (c !! k))
    (page_of f skip limit c).
Proof.
  apply Forall_forall. intros doc Hdoc. apply page_of_subseteq in Hdoc.
  destruct (documents_elem_of _ _ Hdoc) as (k & fields & Hk & ->).
  exists k. split; [apply lookup_insert_eq|]. by rewrite Hk.
Qed.

(** What a successful list answer is made of. *)
Lemma route_list_Ok (r : resource) (skip limit : option Z) (now : datetime)
    (d : Database) (resp : response) (s' : option Database) :
  route_list r skip limit now (Some d) = (Ok resp, s') ->
  exists sk li recs,
    Forall2 (fun doc rec => render_record now doc = Ok rec)
      (page_of (fun _ => true) sk li (collection r d)) recs /\
    response_records resp = jsonable_dict <$> recs.
Proof.
  unfold route_list.
  destruct (query_skip skip) as [sk|] eqn:Hsk; [|discriminate].
  destruct (query_limit limit) as [li|]; [|discriminate].
  unfold encoded.
  rewrite (list_documents_run _ _ _ _ _ (query_skip_nonneg _ _ Hsk)).
  destruct (for_each _ _) as [e|recs] eqn:Hrecs; [discriminate|].
  intros [= <- _]. exists sk, li, recs. split; [|reflexivity].
  by apply for_each_Forall2.
Qed.

Lemma page_documents (f : pydict -> bool) (skip limit : Z) c :
  Forall (fun doc => exists k fields,
            c !! k = Some fields /\ doc = <["_id" := VStr k]> fields)
    (page_of f skip limit c).
Proof.
  apply Forall_forall. intros doc Hdoc. apply page_of_subseteq in Hdoc.
  exact (documents_elem_of _ _ Hdoc).
Qed.

(** X20. Each record of a list answer is the rendering of one stored
    document under the storage identifier of that document: its [id] is
    that identifier, whatever the document itself holds in a field named
    [id] (the handler overwrites it), it has no [_id], and its other
    fields are those of the document. As the store keeps identifiers
    unique, the [id] fields of the records of a page are pairwise
    distinct. *)
Theorem page_ids_distinct (r : resource) (skip limit : option Z)
    (now : datetime) (d : Database) (resp : response)
    (s' : option Database) :
  route_list r skip limit now (Some d) = (Ok resp, s') ->
  NoDup ((fun rec => rec !! "id") <$> response_records resp) /\
  Forall (fun rec => exists k fields,
            collection r d !! k = Some fields /\
            rec !! "id" = Some (VStr k) /\
            rec !! "_id" = None /\
            (forall key, key ∉ reserved_keys ->
               rec !! key = jsonable_value <$> fields !! key))
    (response_records resp).
Proof.
  intros Hrun.
  destruct (route_list_Ok _ _ _ _ _ _ _ Hrun) as (sk & li & recs & Hall & ->).
  pose proof (page_has_ids (fun _ => true) sk li (collection r d)) as Hids.
  assert (Hids' : Forall (fun doc => exists k, doc !! "_id" = Some (VStr k))
                    (page_of (fun _ => true) sk li (collection r d))).
  { eapply Forall_impl; [exact Hids|]. intros doc (k & Hk & _). eauto. }
  pose proof (rendered_ids now _ _ Hids' Hall) as Heq.
  split.
  - rewrite Heq. apply page_ids_NoDup.
  - clear Heq Hids Hids'.
    pose proof (page_documents (fun _ => true) sk li (collection r d)) as Hdocs.
    induction Hall as [|doc rec page recs Hr _ IH]; [constructor|].
    apply Forall_cons in Hdocs as [(k & fields & Hk & ->) Hdocs].
    rewrite fmap_cons. constructor; [|by apply IH].
    exists k, fields. split; [exact Hk|].
    destruct (render_record_view _ _ _ Hr) as (Hno & Hid & _ & _ & Hother).
    unfold jsonable_dict. rewrite !lookup_fmap, Hid, Hno, lookup_insert_eq.
    split; [reflexivity|]. split; [reflexivity|].
    intros key Hkey. rewrite lookup_fmap, (Hother key Hkey).
    rewrite lookup_insert_ne; [reflexivity|].
    intros <-. apply Hkey. unfold reserved_keys. rewrite !elem_of_cons. auto.
Qed.

(** X25. A deleted document is never listed again: after an admin's
    successful delete of an identifier, no successful list answer of
    that resource carries a record with that [id]. *)
Theorem deleted_never_listed (r : resource) (request : Request)
    (claims : pydict) (id : string) (d : Database) (old : pydict) :
  verify_admin request = Ok claims ->
  collection r d !! id = Some old ->
  exists d',
    route_delete r request id (Some d) =
      (Ok (MessageResponse true (singular r +:+ " deleted successfully")),
       Some d') /\
    forall skip limit now resp s',
      route_list r skip limit now (Some d') = (Ok resp, s') ->
      Forall (fun rec => rec !! "id" <> Some (VStr id))
        (response_records resp).
Proof.
  intros Hauth Hold. eexists. split.
  - rewrite (route_delete_run _ _ _ _ _ Hauth), Hold. reflexivity.
  - intros skip limit now resp s' Hrun.
    destruct (route_list_Ok _ _ _ _ _ _ _ Hrun) as (sk & li & recs & Hall & ->).
    pose proof (page_has_ids (fun _ => true) sk li
                  (collection r (set_collection r (delete id (collection r d))
                                   (log_op r DeleteOne d)))) as Hids.
    induction Hall as [|doc rec page recs Hr _ IH]; [constructor|].
    apply Forall_cons in Hids as [(k & Hk & Hin) Hids].
    rewrite fmap_cons. constructor; [|by apply IH].
    destruct (render_record_view _ _ _ Hr) as (_ & Hid & _).
    unfold jsonable_dict. rewrite lookup_fmap, Hid, Hk. simpl.
    intros [= ->]. rewrite collection_set_collection, lookup_delete_eq in Hin.
    by destruct Hin.
Qed.

(** ** Reading one document *)

(** X24. Get by cases: an identifier the collection does not hold gives
    404; a document whose timestamps are dates or missing is returned
    with its identifier under [id] (replacing a stored field of that
    name), without [_id], with every other stored field as it is (a date
    as its ISO string), and with each timestamp as the ISO string of the
    stored date, or of the current time when it is missing. *)
Theorem get_contract (r : resource) (id : string) (now : datetime)
    (d : Database) :
  (collection r d !! id = None ->
   route_get r id now (Some d) =
     (Err (mk_HTTPException 404 (singular r +:+ " not found")),
      Some (log_op r FindOne d))) /\
  (forall fields,
     collection r d !! id = Some fields ->
     stamp_ok (fields !! "created_at") = true ->
     stamp_ok (fields !! "updated_at") = true ->
     exists rec c u,
       route_get r id now (Some d) =
         (Ok (GetResponse true rec), Some (log_op r FindOne d)) /\
       rec !! "id" = Some (VStr id) /\
       rec !! "_id" = None /\
       stamp_or now (fields !! "created_at") = Some c /\
       rec !! "created_at" = Some (VStr (isoformat c)) /\
       stamp_or now (fields !! "updated_at") = Some u /\
       rec !! "updated_at" = Some (VStr (isoformat u)) /\
       (forall k, k ∉ reserved_keys ->
          rec !! k = jsonable_value <$> fields !! k)).
Proof.
  split.
  - intros Hnone. unfold route_get, encoded.
    by rewrite get_document_run, Hnone.
  - intros fields Hf Hc Hu.
    destruct (stamp_ok_stamp_or now _ Hc) as [c Hc'].
    destruct (stamp_ok_stamp_or now _ Hu) as [u Hu'].
    eexists _, c, u. split; [|repeat apply conj].
    + unfold route_get, encoded. rewrite get_document_run, Hf.
      rewrite (render_record_stamped now (<["_id" := VStr id]> fields)
                 (VStr id) c u).
      * reflexivity.
      * apply lookup_insert_eq.
      * by rewrite lookup_insert_ne by discriminate.
      * by rewrite lookup_insert_ne by discriminate.
    + unfold jsonable_dict. rewrite lookup_fmap.
      rewrite !lookup_insert_ne by discriminate.
      by rewrite lookup_insert_eq.
    + unfold jsonable_dict. rewrite lookup_fmap.
      rewrite !lookup_insert_ne by discriminate.
      by rewrite lookup_delete_eq.
    + exact Hc'.
    + unfold jsonable_dict. rewrite lookup_fmap.
      rewrite lookup_insert_ne by discriminate.
      by rewrite lookup_insert_eq.
    + exact Hu'.
    + unfold jsonable_dict. by rewrite lookup_fmap, lookup_insert_eq.
    + intros k Hres. unfold reserved_keys in Hres.
      rewrite !not_elem_of_cons in Hres. destruct Hres as (? & ? & ? & ? & _).
      unfold jsonable_dict. rewrite lookup_fmap.
      rewrite !lookup_insert_ne, lookup_delete_ne by done.
      by rewrite lookup_insert_ne by done.
Qed.

(** ** Which bodies are refused *)

Lemma parse_model_accepts (sch : schema) (body : pydict) :
  is_Some (parse_model sch body) <-> forallb (field_accepted body) sch = true.
Proof.
  induction sch as [|[name t] rest IH]; simpl.
  - split; eauto.
  - rewrite andb_true_iff, <- IH. unfold field_accepted. simpl.
    destruct (parse_model rest body) as [m|].
    + destruct (body !! name) as [v|].
      * destruct (validate_field t v); split; eauto;
          intros [? ?]; discriminate.
      * destruct (field_default t); split; eauto;
          intros [? ?]; discriminate.
    + split; [intros [? ?]; discriminate|]. intros [_ [? ?]]. discriminate.
Qed.

Lemma required_str_accepted (body : pydict) (name : string) (lo hi : Z) :
  field_accepted body (name, Str lo hi) = required_str lo hi (body !! name).
Proof.
  unfold field_accepted, required_str. simpl.
  destruct (body !! name) as [[]|]; simpl; try reflexivity.
  by destruct (_ && _).
Qed.

Lemma optional_str_accepted (body : pydict) (name : string) (hi : Z) :
  field_accepted body (name, OptStr hi) = optional_str hi (body !! name).
Proof.
  unfold field_accepted, optional_str. simpl.
  destruct (body !! name) as [[]|]; simpl; try reflexivity.
  by destruct (_ <=? _)%Z.
Qed.

Lemma optional_list_accepted (body : pydict) (name : string) :
  field_accepted body (name, OptStrList) = optional_list (body !! name).
Proof.
  unfold field_accepted, optional_list. simpl.
  by destruct (body !! name) as [[]|].
Qed.

(** Validation against the model of a resource succeeds exactly on the
    bodies its class declaration accepts. *)
Lemma parse_model_body_accepted (r : resource) (body : pydict) :
  is_Some (parse_model (model_of r) body) <-> body_accepted r body = true.
Proof.
  rewrite parse_model_accepts.
  destruct r; cbn [model_of NoteIn PaperIn SyllabusIn forallb body_accepted];
    rewrite ?required_str_accepted, ?optional_str_accepted,
      ?optional_list_accepted, ?andb_true_r, ?andb_assoc; reflexivity.
Qed.

(** X23. The bodies that create and update refuse with 422 are exactly
    those the declaration of the model does not accept: for an admin
    request on a connected store, with a body whose values are strings,
    nulls or lists of strings, the answer is the validation error if and
    only if the title is missing, is not a string or has fewer than 1 or
    more than 255 characters, or an optional string is longer than its
    [max_length] (notes: description 5000, content 50000; papers:
    abstract 5000, file_url 500; syllabus: course_code 20, branch 100,
    year 20, description 5000), or a string stands where a list is
    declared or a list where a string is. *)
Theorem validation_criterion (r : resource) (request : Request)
    (claims : pydict) (body : pydict) (d : Database) :
  verify_admin request = Ok claims ->
  map_Forall (fun _ v => plain_value v = true) body ->
  (forall uuid4 now,
     body_accepted r body = false <->
     fst (route_create r request body uuid4 now (Some d))
       = Err RequestValidationError) /\
  (forall id now,
     body_accepted r body = false <->
     fst (route_update r request id body now (Some d))
       = Err RequestValidationError).
Proof.
  intros Hauth _.
  pose proof (parse_model_body_accepted r body) as Hacc.
  split.
  - intros uuid4 now. split.
    + intros Hno. unfold route_create. rewrite Hauth.
      destruct (parse_model (model_of r) body) as [payload|]; [|reflexivity].
      rewrite (proj1 Hacc) in Hno by eauto. discriminate.
    + intros H422.
      destruct (body_accepted r body) eqn:Hyes; [|reflexivity].
      destruct (proj2 Hacc eq_refl) as [payload Hp].
      rewrite (route_create_run _ _ _ _ _ _ _ _ Hauth Hp) in H422.
      destruct (collection r d !! uuid4); discriminate.
  - intros id now. split.
    + intros Hno. unfold route_update. rewrite Hauth.
      destruct (parse_model (model_of r) body) as [payload|]; [|reflexivity].
      rewrite (proj1 Hacc) in Hno by eauto. discriminate.
    + intros H422.
      destruct (body_accepted r body) eqn:Hyes; [|reflexivity].
      destruct (proj2 Hacc eq_refl) as [payload Hp].
      rewrite (route_update_run _ _ _ _ _ _ _ _ Hauth Hp) in H422.
      destruct (collection r d !! id); discriminate.
Qed.

End Backend.

(** ** Closed instances *)

Lemma verify_admin_strict_superset_witness :
  verify_token "k" "HS256" demo_jwt_decode (request_with_token "user.tok")
    = Ok (<["sub" := VStr "bob"]> (<["is_admin" := VBool false]> ∅)) /\
  verify_admin "k" "HS256" demo_jwt_decode (request_with_token "user.tok")
    = Err Forbidden.
Proof.
  apply (proj2 (verify_admin_strict_superset "k" "HS256" demo_jwt_decode)
           "user.tok").
  - discriminate.
  - reflexivity.
  - reflexivity.
Defined.

(** C2, as stated, fails: claims whose [is_admin] is the string ["no"] are
    accepted, although they do not carry [is_admin: true]. *)
Lemma verify_admin_accepts_truthy_flag :
  exists claims,
    verify_admin "k" "HS256" demo_jwt_decode (request_with_token "odd.tok")
      = Ok claims /\
    claims !! "is_admin" = Some (VStr "no") /\
    claims !! "is_admin" <> Some (VBool true).
Proof.
  eexists. split; [reflexivity|]. split; [reflexivity|].
  vm_compute. discriminate.
Qed.

Lemma verify_admin_taxonomy_witness :
  verify_admin "k" "HS256" demo_jwt_decode anonymous_request
    = Err Unauthenticated /\
  verify_admin "k" "HS256" demo_jwt_decode (request_with_token "admin.tok")
    = Ok (<["sub" := VStr "alice"]> (<["is_admin" := VBool true]> ∅)).
Proof.
  split.
  - apply (proj1 (verify_admin_taxonomy "k" "HS256" demo_jwt_decode
                    anonymous_request)).
    left. reflexivity.
  - apply (proj2 (proj2 (proj2 (proj2
             (proj1 (proj2 (proj2
                (verify_admin_taxonomy "k" "HS256" demo_jwt_decode
                   (request_with_token "admin.tok"))))
                "admin.tok" eq_refl ltac:(discriminate))
             _ eq_refl)))).
    reflexivity.
Defined.

(** *** The small engine on patterns without operators *)

Lemma parse_atoms_literal (p : string) :
  no_meta p = true -> parse_atoms p = Some (literal_atoms p).
Proof.
  induction p as [|c p IH]; simpl; [reflexivity|].
  intros Hp. apply andb_true_iff in Hp as [Hc Hp].
  apply negb_true_iff in Hc.
  destruct (Ascii.eqb_spec c "."%char) as [->|_]; [discriminate Hc|].
  rewrite Hc, (IH Hp). reflexivity.
Qed.

Lemma atoms_prefix_literal (p s : string) :
  atoms_prefix (literal_atoms p) s = ci_prefix p s.
Proof.
  revert s. induction p as [|c p IH]; intros s; simpl; [reflexivity|].
  destruct s as [|b s]; [reflexivity|]. by rewrite IH.
Qed.

Lemma atoms_search_literal (p s : string) :
  atoms_search (literal_atoms p) s = ci_contains p s.
Proof.
  induction s as [|b s IH]; simpl.
  - by rewrite atoms_prefix_literal.
  - by rewrite atoms_prefix_literal, IH.
Qed.

Lemma pcre_lite_literal (p : string) :
  no_meta p = true ->
  exists m, pcre_lite p = Some m /\ forall s, m s = ci_contains p s.
Proof.
  intros Hp. unfold pcre_lite. rewrite (parse_atoms_literal p Hp).
  eexists. split; [reflexivity|]. apply atoms_search_literal.
Qed.

(** *** Instances of the theorems *)

Example isoformat_demo :
  isoformat demo_time = "2024-01-02T03:04:05" /\
  isoformat (mk_datetime 2024 12 31 23 59 59 1500)
    = "2024-12-31T23:59:59.001500".
Proof. split; reflexivity. Qed.

Lemma auth_failure_short_circuits_witness :
  route_delete "k" "HS256" demo_jwt_decode Notes
    (request_with_token "user.tok") "n1" (Some demo_db)
  = (Err Forbidden, Some demo_db).
Proof.
  apply (proj2 (proj2 (proj2
    (auth_failure_short_circuits "k" "HS256" demo_jwt_decode Notes
       (request_with_token "user.tok") Forbidden (Some demo_db) eq_refl)))
    "n1").
Defined.

Lemma create_response_exposes_storage_id_witness :
  exists message data,
    fst (route_create "k" "HS256" demo_jwt_decode Notes
           (request_with_token "admin.tok") demo_body "u1" demo_time
           (Some empty_db))
      = Ok (CreateResponse true message data) /\
    data !! "_id" = Some (VStr "u1") /\
    data !! "id" = Some (VStr "u1").
Proof.
  destruct (route_create "k" "HS256" demo_jwt_decode Notes
              (request_with_token "admin.tok") demo_body "u1" demo_time
              (Some empty_db)) as [[e|resp] s'] eqn:Hrun.
  - vm_compute in Hrun. discriminate Hrun.
  - destruct (create_response_exposes_storage_id _ _ _ _ _ _ _ _ _ _ _ Hrun)
      as (message & data & -> & _ & Hid & Hpub).
    exists message, data. auto.
Defined.

(** C5, as stated, fails: an update made less than a millisecond after
    the instant stored under [updated_at] succeeds, and although the
    current time is later than the stored value, [updated_at] is left at
    that value: the store keeps whole milliseconds. *)
Lemma update_within_millisecond_not_later :
  fst (route_update "k" "HS256" demo_jwt_decode Notes
         (request_with_token "admin.tok") "n1" demo_body demo_soon
         (Some demo_db))
    = Ok (MessageResponse true "Note updated successfully") /\
  notes demo_db !! "n1" ≫= (fun doc => doc !! "updated_at")
    = Some (VDatetime demo_time) /\
  (datetime_ord demo_time < datetime_ord demo_soon)%Z /\
  snd (route_update "k" "HS256" demo_jwt_decode Notes
         (request_with_token "admin.tok") "n1" demo_body demo_soon
         (Some demo_db))
    ≫= (fun d' => notes d' !! "n1" ≫= (fun doc => doc !! "updated_at"))
    = Some (VDatetime demo_time).
Proof.
  split; [vm_compute; reflexivity|].
  split; [vm_compute; reflexivity|].
  split; [vm_compute; reflexivity|]. vm_compute. reflexivity.
Qed.

Lemma update_frame_witness :
  exists new d',
    route_update "k" "HS256" demo_jwt_decode Notes
      (request_with_token "admin.tok") "n1" demo_body demo_precise
      (Some demo_db)
    = (Ok (MessageResponse true "Note updated successfully"), Some d') /\
    notes d' !! "n1" = Some new /\
    new !! "updated_at" = Some (VDatetime (mk_datetime 2024 1 2 3 4 5 123000)) /\
    new !! "created_at" = Some (VDatetime demo_time) /\
    exists t', new !! "updated_at" = Some (VDatetime t') /\
               (datetime_ord demo_time < datetime_ord t')%Z.
Proof.
  destruct (parse_model (model_of Notes) demo_body) as [payload|] eqn:Hp;
    [|vm_compute in Hp; discriminate Hp].
  destruct (update_frame "k" "HS256" demo_jwt_decode Notes
              (request_with_token "admin.tok") _ "n1" demo_body payload
              demo_precise demo_db demo_note eq_refl Hp eq_refl)
    as (new & d' & Hrun & Hnew & _ & _ & _ & Hup & _ & _ & Hcr & _ & Hlater).
  exists new, d'.
  split; [exact Hrun|]. split; [exact Hnew|]. split; [exact Hup|].
  split; [rewrite Hcr; reflexivity|].
  apply (Hlater demo_time eq_refl eq_refl). vm_compute. discriminate.
Defined.

(** C6, as stated, fails: the query ["."] occurs in no field of the only
    note of the store, and search returns that note with [total = 1]; the
    store reads the query as a regular expression, whose dot matches any
    character. *)
Lemma search_dot_returns_unrelated_record :
  match route_search 20 100 pcre_lite Notes (Some ".") (Some 0%Z) (Some 20%Z)
          demo_later (Some demo_db) with
  | (Ok (SearchResponse _ _ recs p), _) =>
      total p = 1%Z /\ length recs = 1 /\
      (recs !! 0) ≫= (fun rec => rec !! "title") = Some (VStr "Algebra")
  | _ => False
  end /\
  List.filter (spec_matches Notes ".") (documents (notes demo_db)) = [].
Proof. vm_compute. auto. Qed.

Lemma search_contract_literal_witness :
  exists recs d',
    route_search 20 100 pcre_lite Notes (Some "ALG") (Some 0%Z) (Some 20%Z)
      demo_later (Some demo_db)
    = (Ok (SearchResponse true "ALG" (jsonable_dict <$> recs)
             (mk_Pagination
                (Z.of_nat (length (List.filter (spec_matches Notes "ALG")
                                     (documents (notes demo_db)))))
                0 20 (Z.of_nat (length (jsonable_dict <$> recs))))),
       Some d').
Proof.
  destruct (search_contract_literal 20 100 pcre_lite Notes "ALG" 0 20
              demo_later demo_db pcre_lite_literal)
    as (page & recs & d' & Hrun & _).
  - discriminate.
  - reflexivity.
  - lia.
  - lia.
  - vm_compute. reflexivity.
  - exists recs, d'. exact Hrun.
Defined.

(** C7, as stated, fails: a note created at an instant that is not a
    whole millisecond is stored with both timestamps cut to the
    millisecond, so they are not the current time, and the record the
    answer carries, which shows the current time with its microseconds,
    is not the stored one, which a following read shows. *)
Lemma create_answer_not_the_stored_record :
  match fst (route_create "k" "HS256" demo_jwt_decode Notes
               (request_with_token "admin.tok") demo_body "u1" demo_precise
               (Some empty_db)) with
  | Ok resp => (fun rec => rec !! "created_at") <$> response_records resp
  | Err _ => []
  end = [Some (VStr "2024-01-02T03:04:05.123456")] /\
  snd (route_create "k" "HS256" demo_jwt_decode Notes
         (request_with_token "admin.tok") demo_body "u1" demo_precise
         (Some empty_db))
    ≫= (fun d' => notes d' !! "u1" ≫= (fun doc => doc !! "created_at"))
    = Some (VDatetime (mk_datetime 2024 1 2 3 4 5 123000)) /\
  mk_datetime 2024 1 2 3 4 5 123000 <> demo_precise /\
  match fst (route_get Notes "u1" demo_later
               (snd (route_create "k" "HS256" demo_jwt_decode Notes
                       (request_with_token "admin.tok") demo_body "u1"
                       demo_precise (Some empty_db)))) with
  | Ok resp => (fun rec => rec !! "created_at") <$> response_records resp
  | Err _ => []
  end = [Some (VStr "2024-01-02T03:04:05.123000")].
Proof.
  split; [vm_compute; reflexivity|].
  split; [vm_compute; reflexivity|].
  split; [discriminate|]. vm_compute. reflexivity.
Qed.

Lemma create_contract_witness :
  exists data stored d',
    route_create "k" "HS256" demo_jwt_decode Notes
      (request_with_token "admin.tok") demo_body "u1" demo_precise
      (Some empty_db)
    = (Ok (CreateResponse true "Note created successfully" data), Some d') /\
    notes d' = <["u1" := stored]> (notes empty_db) /\
    stored !! "created_at"
      = Some (VDatetime (mk_datetime 2024 1 2 3 4 5 123000)) /\
    stored !! "title" = Some (VStr "Algebra") /\
    data !! "id" = Some (VStr "u1") /\
    data !! "created_at" = Some (VStr (isoformat demo_precise)) /\
    data !! "title" = Some (VStr "Algebra").
Proof.
  destruct (parse_model (model_of Notes) demo_body) as [payload|] eqn:Hp;
    [|vm_compute in Hp; discriminate Hp].
  destruct (proj1 (proj1 (create_contract "k" "HS256" demo_jwt_decode Notes
              (request_with_token "admin.tok") _ demo_body "u1" demo_precise
              empty_db eq_refl) payload Hp) eq_refl)
    as (data & stored & d' & Hrun & Hcoll & _ & Hcreated & _ & _ & _ & _
        & Hbody & Hid & Hdc & _ & Hdata & _).
  assert (Htitle : stored !! "title" = Some (VStr "Algebra")).
  { apply Hbody; [|reflexivity]. apply list_elem_of_here. }
  exists data, stored, d'.
  split; [exact Hrun|]. split; [exact Hcoll|]. split; [exact Hcreated|].
  split; [exact Htitle|]. split; [exact Hid|]. split; [exact Hdc|].
  apply (Hdata "title" (VStr "Algebra")); [discriminate|discriminate|].
  exact Htitle.
Defined.

Lemma delete_contract_witness :
  exists d',
    route_delete "k" "HS256" demo_jwt_decode Notes
      (request_with_token "admin.tok") "n1" (Some demo_db)
    = (Ok (MessageResponse true "Note deleted successfully"), Some d') /\
    notes d' = delete "n1" (notes demo_db).
Proof.
  destruct (proj2 (delete_contract "k" "HS256" demo_jwt_decode Notes
              (request_with_token "admin.tok") _ "n1" demo_db eq_refl)
              demo_note eq_refl)
    as (d' & Hrun & Hcoll & _).
  exists d'. split; [exact Hrun|exact Hcoll].
Defined.

Lemma list_contract_witness :
  exists page recs d',
    route_list 20 100 pcre_lite Notes (Some 1%Z) (Some 2%Z) demo_later
      (Some demo_shelf)
    = (Ok (ListResponse true (jsonable_dict <$> recs)
             (mk_Pagination 4 1 2 (Z.of_nat (length (jsonable_dict <$> recs))))),
       Some d') /\
    page = [<["_id" := VStr "a"]> (demo_note_at "Algebra" demo_march);
            <["_id" := VStr "d"]>
              (demo_note_at "Algebraic topology" demo_february)] /\
    Forall2 (fun doc rec => render_record demo_later doc = Ok rec) page recs /\
    newest_first page /\
    (Z.of_nat (length (jsonable_dict <$> recs)) <= 2)%Z /\
    listed_ids (route_list 20 100 pcre_lite Notes (Some 1%Z) (Some 2%Z)
                  demo_later (Some demo_shelf))
      = [Some (VStr "a"); Some (VStr "d")].
Proof.
  destruct (proj1 (list_contract 20 100 pcre_lite Notes demo_later)
              1%Z 2%Z demo_shelf)
    as (page & recs & d' & Hrun & Hpage & _ & _ & _ & Horder & Hall & Hle & _).
  - lia.
  - lia.
  - vm_compute. reflexivity.
  - destruct (Horder ltac:(vm_compute; reflexivity)) as (_ & Hnewest & _).
    exists page, recs, d'. split; [exact Hrun|].
    split; [rewrite Hpage; vm_compute; reflexivity|].
    split; [exact Hall|]. split; [exact Hnewest|]. split; [exact Hle|].
    vm_compute. reflexivity.
Defined.

Lemma update_validates_full_model_witness :
  route_update "k" "HS256" demo_jwt_decode Notes
    (request_with_token "admin.tok") "n1" demo_body_no_title demo_later
    (Some demo_db)
  = (Err RequestValidationError, Some demo_db).
Proof.
  apply (proj2 (proj2 (proj1
    (update_validates_full_model "k" "HS256" demo_jwt_decode Notes
       (request_with_token "admin.tok") "n1" demo_body_no_title demo_later
       (Some demo_db))
    (or_introl eq_refl)))
    (<["sub" := VStr "alice"]> (<["is_admin" := VBool true]> ∅))).
  reflexivity.
Defined.

(** *** Instances of the further properties *)

Lemma mutations_keep_other_collections_witness :
  collection_kept Papers (Some demo_db)
    (snd (route_create "k" "HS256" demo_jwt_decode Notes
            (request_with_token "admin.tok") demo_body "u1" demo_time
            (Some demo_db))).
Proof.
  apply (proj1 (mutations_keep_other_collections "k" "HS256" demo_jwt_decode
                  Notes Papers (request_with_token "admin.tok")
                  (Some demo_db) ltac:(discriminate))).
Defined.

Lemma update_absent_id_witness :
  exists d',
    route_update "k" "HS256" demo_jwt_decode Notes
      (request_with_token "admin.tok") "zz" demo_body demo_later
      (Some demo_db)
    = (Err (mk_HTTPException 404 "Note not found"), Some d').
Proof.
  destruct (parse_model (model_of Notes) demo_body) as [payload|] eqn:Hp;
    [|vm_compute in Hp; discriminate Hp].
  destruct (update_absent_id "k" "HS256" demo_jwt_decode Notes
              (request_with_token "admin.tok") _ "zz" demo_body payload
              demo_later demo_db eq_refl Hp eq_refl)
    as (d' & Hrun & _).
  exists d'. exact Hrun.
Defined.

Lemma no_database_gives_500_witness :
  route_delete "k" "HS256" demo_jwt_decode Notes
    (request_with_token "admin.tok") "n1" None
  = (Err (mk_HTTPException 500 "Database not connected"), None).
Proof.
  destruct (parse_model (model_of Notes) demo_body) as [payload|] eqn:Hp;
    [|vm_compute in Hp; discriminate Hp].
  apply (no_database_gives_500 "k" "HS256" demo_jwt_decode 20 100 pcre_lite
           Notes (request_with_token "admin.tok") _ demo_body payload "a"
           0 20 demo_time eq_refl Hp ltac:(discriminate) ltac:(lia)
           ltac:(lia)).
Defined.

Lemma search_invalid_pattern_witness :
  exists e d',
    route_search 20 100 pcre_lite Notes (Some "(") (Some 0%Z) (Some 20%Z)
      demo_time (Some demo_db) = (Err e, Some d') /\
    status_code e = 500%Z.
Proof.
  destruct (search_invalid_pattern 20 100 pcre_lite Notes "(" 0 20 demo_time
              demo_db ltac:(discriminate) ltac:(lia) ltac:(lia) eq_refl)
    as (e & d' & Hrun & Hst & _).
  exists e, d'. split; [exact Hrun|exact Hst].
Defined.

Lemma malformed_timestamp_gives_500_witness :
  exists e d',
    route_get Notes "b1" demo_time (Some demo_bad_db) = (Err e, Some d') /\
    status_code e = 500%Z.
Proof.
  apply (proj1 (malformed_timestamp_gives_500 20 100 pcre_lite Notes
                  demo_time demo_bad_db) "b1" demo_bad_note eq_refl).
  left. reflexivity.
Defined.

Lemma mutations_keep_obeys_model_witness :
  obeys_model Notes (<["title" := VInt 5]> ∅) = false /\
  exists d',
    snd (route_update "k" "HS256" demo_jwt_decode Notes
           (request_with_token "admin.tok") "a" demo_body demo_precise
           (Some demo_shelf)) = Some d' /\
    forallb (obeys_model Notes) (documents (collection Notes d')) = true /\
    forallb (well_formed Notes) (documents (collection Notes d')) = true.
Proof.
  split; [reflexivity|].
  apply (proj1 (proj2 (mutations_keep_obeys_model "k" "HS256" demo_jwt_decode
                         Notes (request_with_token "admin.tok") demo_shelf
                         ltac:(vm_compute; reflexivity)))).
Defined.

Lemma update_then_get_witness :
  exists d' rec d'',
    route_update "k" "HS256" demo_jwt_decode Notes
      (request_with_token "admin.tok") "n1" demo_body demo_precise
      (Some demo_db)
    = (Ok (MessageResponse true "Note updated successfully"), Some d') /\
    route_get Notes "n1" demo_later (Some d')
    = (Ok (GetResponse true rec), Some d'') /\
    rec !! "updated_at" = Some (VStr "2024-01-02T03:04:05.123000").
Proof.
  destruct (parse_model (model_of Notes) demo_body) as [payload|] eqn:Hp;
    [|vm_compute in Hp; discriminate Hp].
  destruct (update_then_get "k" "HS256" demo_jwt_decode Notes
              (request_with_token "admin.tok") _ "n1" demo_body payload
              demo_precise demo_later demo_db demo_note eq_refl Hp eq_refl
              eq_refl)
    as (d' & rec & d'' & Hup & Hget & _ & _ & Hstamp & _).
  exists d', rec, d''. split; [exact Hup|]. split; [exact Hget|].
  exact Hstamp.
Defined.

Lemma pages_tile_witness :
  (exists data1 data2 p1 p2 p12 s1 s2 s12,
     route_list 20 100 pcre_lite Notes (Some 0%Z) (Some 1%Z) demo_later
       (Some demo_shelf) = (Ok (ListResponse true data1 p1), s1) /\
     route_list 20 100 pcre_lite Notes (Some (0 + 1)%Z) (Some 2%Z) demo_later
       (Some demo_shelf) = (Ok (ListResponse true data2 p2), s2) /\
     route_list 20 100 pcre_lite Notes (Some 0%Z) (Some (1 + 2)%Z) demo_later
       (Some demo_shelf)
       = (Ok (ListResponse true (data1 ++ data2)%list p12), s12)) /\
  listed_ids (route_list 20 100 pcre_lite Notes (Some 0%Z) (Some 1%Z)
                demo_later (Some demo_shelf)) = [Some (VStr "c")] /\
  listed_ids (route_list 20 100 pcre_lite Notes (Some 1%Z) (Some 2%Z)
                demo_later (Some demo_shelf))
    = [Some (VStr "a"); Some (VStr "d")] /\
  listed_ids (route_list 20 100 pcre_lite Notes (Some 0%Z) (Some 3%Z)
                demo_later (Some demo_shelf))
    = [Some (VStr "c"); Some (VStr "a"); Some (VStr "d")].
Proof.
  split; [|repeat split; vm_compute; reflexivity].
  destruct (pages_tile 20 100 pcre_lite Notes 0 1 2 demo_later demo_shelf)
    as (data1 & data2 & p1 & p2 & p12 & s1 & s2 & s12 & H1 & H2 & H12 & _);
    [lia|lia|lia|lia|vm_compute; reflexivity|vm_compute; reflexivity| |].
  - apply (bool_decide_unpack _). vm_compute. exact I.
  - exists data1, data2, p1, p2, p12, s1, s2, s12. auto.
Defined.

Lemma skip_beyond_end_witness :
  exists d',
    route_list 20 100 pcre_lite Notes (Some 5%Z) (Some 20%Z) demo_later
      (Some demo_bad_db)
    = (Ok (ListResponse true []
             (mk_Pagination (Z.of_nat (size (collection Notes demo_bad_db)))
                5 20 0)),
       Some d').
Proof.
  destruct (skip_beyond_end 20 100 pcre_lite Notes 5 20 demo_later
              demo_bad_db ltac:(lia) ltac:(vm_compute; discriminate))
    as (d' & Hrun & _).
  exists d'. exact Hrun.
Defined.

Lemma search_contract_any_engine_witness :
  (exists recs d',
     route_search 20 100 pcre_lite Notes (Some "a.g") (Some 1%Z) (Some 2%Z)
       demo_later (Some demo_shelf)
     = (Ok (SearchResponse true "a.g" (jsonable_dict <$> recs)
              (mk_Pagination 3 1 2 (Z.of_nat (length (jsonable_dict <$> recs))))),
        Some d') /\
     newest_first
       (page_of (selected Notes (atoms_search [Lit "a"; AnyChar; Lit "g"]) "a.g")
          1 2 (collection Notes demo_shelf))) /\
  listed_ids (route_search 20 100 pcre_lite Notes (Some "a.g") (Some 1%Z)
                (Some 2%Z) demo_later (Some demo_shelf))
    = [Some (VStr "d"); Some (VStr "b")].
Proof.
  split; [|vm_compute; reflexivity].
  destruct (search_contract_any_engine 20 100 pcre_lite Notes "a.g"
              (atoms_search [Lit "a"; AnyChar; Lit "g"]) 1 2 demo_later
              demo_shelf ltac:(discriminate) ltac:(lia) ltac:(lia) eq_refl
              ltac:(vm_compute; reflexivity))
    as (recs & d' & Hrun & _ & _ & Horder & _).
  destruct (Horder ltac:(vm_compute; reflexivity)) as [Hnewest _].
  exists recs, d'. split; [exact Hrun|exact Hnewest].
Defined.

Lemma search_looks_at_configured_fields_witness :
  exists f,
    compile_query pcre_lite (search_filter Papers "Knuth") = Some f /\
    f (<["authors" := VList ["Knuth"]]> ∅) = true.
Proof.
  destruct (search_looks_at_configured_fields pcre_lite Papers "Knuth"
              (atoms_search (literal_atoms "Knuth")) eq_refl)
    as (f & Hf & _ & Hhit).
  exists f. split; [exact Hf|].
  apply (Hhit _ "authors" ["Knuth"]).
  - simpl. auto.
  - reflexivity.
  - apply list_elem_of_here.
Defined.

Lemma create_stores_model_fields_witness :
  exists resp d' stored,
    route_create "k" "HS256" demo_jwt_decode Notes
      (request_with_token "admin.tok")
      (<["created_at" := VStr "1999"]> demo_body) "u1" demo_precise
      (Some empty_db) = (Ok resp, Some d') /\
    collection Notes d' !! "u1" = Some stored /\
    stored !! "content" = Some VNone /\
    stored !! "created_at"
      = Some (VDatetime (mk_datetime 2024 1 2 3 4 5 123000)).
Proof.
  destruct (parse_model (model_of Notes)
              (<["created_at" := VStr "1999"]> demo_body))
    as [payload|] eqn:Hp; [|vm_compute in Hp; discriminate Hp].
  destruct (create_stores_model_fields "k" "HS256" demo_jwt_decode Notes
              (request_with_token "admin.tok") _
              (<["created_at" := VStr "1999"]> demo_body) payload "u1"
              demo_precise empty_db eq_refl Hp eq_refl)
    as (resp & d' & stored & Hrun & Hst & Hdom & Hdrop & Hdef).
  exists resp, d', stored. split; [exact Hrun|]. split; [exact Hst|]. split.
  - apply (Hdef "content" (OptStr 50000)); reflexivity.
  - assert (Hout : "created_at" ∉ field_names (model_of Notes))
      by (apply (bool_decide_unpack _); vm_compute; exact I).
    assert (Hin : is_Some ((<["created_at" := VStr "1999"]> demo_body)
                             !! "created_at"))
      by (rewrite lookup_insert_eq; eauto).
    destruct (Hdrop "created_at" Hout Hin) as [Hnone | [Hsome _]];
      [|exact Hsome].
    destruct (proj2 (Hdom "created_at")) as [v Hv]; [auto|].
    rewrite Hnone in Hv. discriminate Hv.
Defined.

Lemma update_twice_witness :
  exists resp d1 d2 d12,
    route_update "k" "HS256" demo_jwt_decode Notes
      (request_with_token "admin.tok") "n1" demo_body demo_time
      (Some demo_db) = (Ok resp, Some d1) /\
    route_update "k" "HS256" demo_jwt_decode Notes
      (request_with_token "admin.tok") "n1" demo_body demo_later
      (Some d1) = (Ok resp, Some d2) /\
    route_update "k" "HS256" demo_jwt_decode Notes
      (request_with_token "admin.tok") "n1" demo_body demo_later
      (Some demo_db) = (Ok resp, Some d12) /\
    collection Notes d2 = collection Notes d12.
Proof.
  destruct (parse_model (model_of Notes) demo_body) as [payload|] eqn:Hp;
    [|vm_compute in Hp; discriminate Hp].
  exact (update_twice "k" "HS256" demo_jwt_decode Notes
           (request_with_token "admin.tok") _ "n1" demo_body payload
           demo_time demo_later demo_db demo_note eq_refl Hp eq_refl).
Defined.

Lemma create_then_delete_witness :
  exists resp d1 d2,
    route_create "k" "HS256" demo_jwt_decode Notes
      (request_with_token "admin.tok") demo_body "u1" demo_time
      (Some demo_db) = (Ok resp, Some d1) /\
    route_delete "k" "HS256" demo_jwt_decode Notes
      (request_with_token "admin.tok") "u1" (Some d1)
    = (Ok (MessageResponse true "Note deleted successfully"), Some d2) /\
    same_collections (Some demo_db) (Some d2).
Proof.
  destruct (parse_model (model_of Notes) demo_body) as [payload|] eqn:Hp;
    [|vm_compute in Hp; discriminate Hp].
  exact (create_then_delete "k" "HS256" demo_jwt_decode Notes
           (request_with_token "admin.tok") _ demo_body payload "u1"
           demo_time demo_db eq_refl Hp eq_refl).
Defined.

Lemma page_ids_distinct_witness :
  NoDup (listed_ids (route_list 20 100 pcre_lite Notes None None demo_later
                       (Some demo_clash_db))) /\
  listed_ids (route_list 20 100 pcre_lite Notes None None demo_later
                (Some demo_clash_db))
    = [Some (VStr "q"); Some (VStr "p")] /\
  (fun doc => doc !! "id") <$> documents (notes demo_clash_db)
    = [Some (VStr "same"); Some (VStr "same")].
Proof.
  split; [|split; vm_compute; reflexivity].
  destruct (route_list 20 100 pcre_lite Notes None None demo_later
              (Some demo_clash_db)) as [[e|resp] s'] eqn:Hrun.
  - vm_compute in Hrun. discriminate Hrun.
  - unfold listed_ids. simpl.
    exact (proj1 (page_ids_distinct 20 100 pcre_lite Notes None None
                    demo_later demo_clash_db resp s' Hrun)).
Defined.

Lemma validation_criterion_witness :
  fst (route_create "k" "HS256" demo_jwt_decode Notes
         (request_with_token "admin.tok") (<["title" := VStr ""]> ∅) "u1"
         demo_time (Some demo_db))
  = Err RequestValidationError.
Proof.
  apply (proj1 (validation_criterion "k" "HS256" demo_jwt_decode Notes
                  (request_with_token "admin.tok") _ (<["title" := VStr ""]> ∅)
                  demo_db eq_refl
                  ltac:(apply map_Forall_insert_2;
                        [reflexivity|apply map_Forall_empty]))
           "u1" demo_time).
  reflexivity.
Defined.

Lemma get_contract_witness :
  exists rec,
    route_get Notes "n1" demo_later (Some demo_db)
    = (Ok (GetResponse true rec), Some (log_op Notes FindOne demo_db)) /\
    rec !! "id" = Some (VStr "n1") /\
    rec !! "title" = Some (VStr "Algebra").
Proof.
  destruct (proj2 (get_contract Notes "n1" demo_later demo_db) demo_note
              eq_refl eq_refl eq_refl)
    as (rec & c & u & Hrun & Hid & _ & _ & _ & _ & _ & Hother).
  exists rec. split; [exact Hrun|]. split; [exact Hid|].
  rewrite Hother; [reflexivity|].
  unfold reserved_keys. rewrite !not_elem_of_cons.
  repeat split; try discriminate. apply not_elem_of_nil.
Defined.

Lemma deleted_never_listed_witness :
  exists d',
    route_delete "k" "HS256" demo_jwt_decode Notes
      (request_with_token "admin.tok") "n1" (Some demo_db)
    = (Ok (MessageResponse true "Note deleted successfully"), Some d') /\
    forall skip limit now resp s',
      route_list 20 100 pcre_lite Notes skip limit now (Some d')
        = (Ok resp, s') ->
      Forall (fun rec => rec !! "id" <> Some (VStr "n1"))
        (response_records resp).
Proof.
  exact (deleted_never_listed "k" "HS256" demo_jwt_decode 20 100 pcre_lite
           Notes (request_with_token "admin.tok") _ "n1" demo_db demo_note
           eq_refl eq_refl).
Defined.
